(** * Approval-gated remediation functions: a shallow embedding

    The repository holds five variants of one Azure Functions app
    (finaleditionjan14.py, ver1.py, ver2.py, ver4.py, ver5.py).  This file
    embeds the handlers the specification talks about and settles the
    properties claimed of them.

    Conventions.
    - A Python [str] is a list of Unicode code points ([list N]).
    - A value obtained from [json.loads] (and Python's [None]) is a [json].
    - A handler is a computation in the monad [M]: it threads the process
      state (the module-level dictionary and the log of calls made to the
      outside world) and either returns or raises.
    - What the outside world answers (the uuid drawn, whether a POST went
      through, the status of a runCommand call) is an argument of the
      handler. *)

From Stdlib Require Import ZArith NArith Ascii String Decimal.
From stdpp Require Import gmap list.

Local Set Warnings "-register-all".
Local Open Scope list_scope.
Local Open Scope N_scope.

(** ** Python strings *)

Abbreviation pystr := (list N).

(** An ASCII literal as a Python string. *)
Definition py (s : string) : pystr :=
  map N_of_ascii (list_ascii_of_string s).
Arguments py s : simpl never.

(** [str.isspace] on one code point (CPython's _PyUnicode_IsWhitespace). *)
Definition isspace (c : N) : bool :=
  ((9 <=? c) && (c <=? 13)) || ((28 <=? c) && (c <=? 32))
  || (c =? 133) || (c =? 160) || (c =? 5760)
  || ((8192 <=? c) && (c <=? 8202))
  || (c =? 8232) || (c =? 8233) || (c =? 8239) || (c =? 8287)
  || (c =? 12288).

(** Line boundaries of [str.splitlines] (CPython's _PyUnicode_IsLinebreak). *)
Definition islinebreak (c : N) : bool :=
  ((10 <=? c) && (c <=? 13)) || ((28 <=? c) && (c <=? 30))
  || (c =? 133) || (c =? 8232) || (c =? 8233).

Fixpoint lstrip (s : pystr) : pystr :=
  match s with
  | c :: s' => if isspace c then lstrip s' else s
  | [] => []
  end.

Definition rstrip (s : pystr) : pystr := rev (lstrip (rev s)).

(** [s.strip()] *)
Definition strip (s : pystr) : pystr := rstrip (lstrip s).

(** [s.startswith(p)] *)
Fixpoint startswith (p s : pystr) : bool :=
  match p, s with
  | [], _ => true
  | a :: p', b :: s' => (a =? b) && startswith p' s'
  | _ :: _, [] => false
  end.

(** [s.splitlines()]: [cur] holds the current line, reversed.  A carriage
    return followed by a line feed is one boundary; the text after the last
    boundary is a line only when it is not empty. *)
Fixpoint splitlines_from (cur s : pystr) : list pystr :=
  match s with
  | [] => match cur with [] => [] | _ => [rev cur] end
  | c :: rest =>
      if islinebreak c then
        rev cur ::
          match rest with
          | d :: rest' =>
              if (c =? 13) && (d =? 10) then splitlines_from [] rest'
              else splitlines_from [] rest
          | [] => splitlines_from [] rest
          end
      else splitlines_from (c :: cur) rest
  end.

Definition splitlines (s : pystr) : list pystr := splitlines_from [] s.

(** [sep.join(parts)] *)
Fixpoint join (sep : pystr) (parts : list pystr) : pystr :=
  match parts with
  | [] => []
  | [p] => p
  | p :: ps => p ++ sep ++ join sep ps
  end.

Fixpoint digits (d : uint) : pystr :=
  match d with
  | Nil => []
  | D0 d => 48 :: digits d
  | D1 d => 49 :: digits d
  | D2 d => 50 :: digits d
  | D3 d => 51 :: digits d
  | D4 d => 52 :: digits d
  | D5 d => 53 :: digits d
  | D6 d => 54 :: digits d
  | D7 d => 55 :: digits d
  | D8 d => 56 :: digits d
  | D9 d => 57 :: digits d
  end.

(** [str(n)] for a non-negative integer. *)
Definition str_of_nat (n : nat) : pystr := digits (Nat.to_uint n).

(** [str(z)] for an integer. *)
Definition str_of_Z (z : Z) : pystr :=
  match z with
  | Zneg p => 45 :: str_of_nat (Pos.to_nat p)
  | _ => str_of_nat (Z.to_nat z)
  end.

Definition NL : pystr := [10].

(** The strings [parts] occur in [text] whole, one after the other. *)
Fixpoint in_order (parts : list pystr) (text : pystr) : Prop :=
  match parts with
  | [] => True
  | p :: ps => exists before after,
      text = before ++ p ++ after /\ in_order ps after
  end.

(** ** JSON values

    What [req.get_json()] and [resp.json()] return.  [JNull] is also
    Python's [None].  Numbers are the integers; an object is the list of its
    members, each key once. *)

Inductive json :=
| JNull
| JBool (b : bool)
| JNum (z : Z)
| JStr (s : pystr)
| JArr (items : list json)
| JObj (members : list (pystr * json)).

(** Python truthiness: [bool(v)]. *)
Definition truthy (v : json) : bool :=
  match v with
  | JNull => false
  | JBool b => b
  | JNum z => negb (z =? 0)%Z
  | JStr s => match s with [] => false | _ => true end
  | JArr l => match l with [] => false | _ => true end
  | JObj m => match m with [] => false | _ => true end
  end.

Definition pystr_eqb (a b : pystr) : bool := bool_decide (a = b).

Fixpoint assoc (k : pystr) (m : list (pystr * json)) : option json :=
  match m with
  | [] => None
  | (k', v) :: m' => if pystr_eqb k k' then Some v else assoc k m'
  end.

(** ** Exceptions and the handler monad *)

Record exn := Exn { exn_class : string; exn_str : pystr }.

Inductive result (A : Type) :=
| Ok (a : A)
| Raise (e : exn).
Arguments Ok {A} a.
Arguments Raise {A} e.

Definition M (S A : Type) : Type := S -> S * result A.

Definition ret {S A} (a : A) : M S A := fun s => (s, Ok a).
Definition raise {S A} (e : exn) : M S A := fun s => (s, Raise e).
Definition bind {S A B} (m : M S A) (k : A -> M S B) : M S B :=
  fun s => match m s with
           | (s', Ok a) => k a s'
           | (s', Raise e) => (s', Raise e)
           end.
Definition get {S} : M S S := fun s => (s, Ok s).
Definition modify {S} (f : S -> S) : M S unit := fun s => (f s, Ok tt).
Definition lift {S A} (r : result A) : M S A := fun s => (s, r).

(** [try: m except Exception as e: h e] *)
Definition try_except {S A} (m : M S A) (h : exn -> M S A) : M S A :=
  fun s => match m s with
           | (s', Ok a) => (s', Ok a)
           | (s', Raise e) => h e s'
           end.

Notation "'let*' x := m 'in' k" := (bind m (fun x => k))
  (at level 10, x name, m at level 100, k at level 200, only parsing).

Fixpoint for_each {S A} (f : A -> M S unit) (l : list A) : M S unit :=
  match l with
  | [] => ret tt
  | a :: l' => let* _ := f a in for_each f l'
  end.

(** ** Attribute and item access on values *)

Definition AttributeError (what : string) : exn :=
  Exn "AttributeError" (py what).
Definition TypeError (what : string) : exn := Exn "TypeError" (py what).

(** [repr] of a string key as [KeyError] prints it; the quoting of
    [str.__repr__] is not modelled beyond plain single quotes. *)
Definition KeyError (k : pystr) : exn :=
  Exn "KeyError" (py "'" ++ k ++ py "'").

(** [v.get(k, default)]: only a dict has [get]. *)
Definition dict_get {S} (v : json) (k : pystr) (default : json) : M S json :=
  match v with
  | JObj m => ret (match assoc k m with Some x => x | None => default end)
  | _ => raise (AttributeError "object has no attribute 'get'")
  end.

(** [v[k]] for a string key [k]. *)
Definition getitem {S} (v : json) (k : pystr) : M S json :=
  match v with
  | JObj m => match assoc k m with
              | Some x => ret x
              | None => raise (KeyError k)
              end
  | _ => raise (TypeError "object is not subscriptable by a string")
  end.

(** [v[0]] *)
Definition getitem0 {S} (v : json) : M S json :=
  match v with
  | JArr (x :: _) => ret x
  | JArr [] => raise (Exn "IndexError" (py "list index out of range"))
  | JStr (c :: _) => ret (JStr [c])
  | JStr [] => raise (Exn "IndexError" (py "string index out of range"))
  | JObj _ => raise (Exn "KeyError" (py "0"))
  | _ => raise (TypeError "object is not subscriptable")
  end.

(** The items [for x in v] visits. *)
Definition iter_items {S} (v : json) : M S (list json) :=
  match v with
  | JArr l => ret l
  | JStr s => ret (map (fun c => JStr [c]) s)
  | JObj m => ret (map (fun kv => JStr (fst kv)) m)
  | _ => raise (TypeError "object is not iterable")
  end.

Fixpoint all_strings (l : list json) : option (list pystr) :=
  match l with
  | [] => Some []
  | JStr s :: l' => option_map (cons s) (all_strings l')
  | _ :: _ => None
  end.

(** [sep.join(v)]: every item has to be a string. *)
Definition join_value {S} (sep : pystr) (v : json) : M S pystr :=
  let* items := iter_items v in
  match all_strings items with
  | Some parts => ret (join sep parts)
  | None => raise (TypeError "sequence item: expected str instance")
  end.

(** [req.get_json()] *)
Definition get_json {S} (req_json : option json) : M S json :=
  match req_json with
  | Some data => ret data
  | None =>
      raise (Exn "ValueError"
               (py "HTTP request does not contain valid JSON data"))
  end.

(** A computation that leaves the state alone. *)
Definition pure {S A} (m : M S A) : Prop := forall s, fst (m s) = s.

(** ** HTTP responses *)

Inductive body :=
| Text (t : pystr)
| Dumps (v : json).  (* the text json.dumps(v) *)

Record HttpResponse := {
  resp_body : body;
  status_code : Z;
  mimetype : option pystr
}.

Definition response (b : body) : HttpResponse :=
  {| resp_body := b; status_code := 200; mimetype := None |}.

(** ** What the Python runtime provides

    [str(v)] of a value that is not a string (as an f-string renders it),
    [json.dumps(v)] and [json.dumps(v, indent=2)] are taken as given. *)

Record builtins := {
  repr_value : json -> pystr;
  dumps : json -> pystr;
  dumps_indent2 : json -> pystr
}.

(** [str(v)], as f"{v}" renders a value. *)
Definition str (B : builtins) (v : json) : pystr :=
  match v with
  | JStr s => s
  | _ => repr_value B v
  end.

(** f"{os.getenv(...)}": an unset variable prints as None. *)
Definition str_getenv (o : option pystr) : pystr :=
  match o with
  | Some s => s
  | None => py "None"
  end.

(** [not o] for the result of [os.getenv] or [req.params.get]. *)
Definition falsy (o : option pystr) : bool :=
  match o with
  | None | Some [] => true
  | Some (_ :: _) => false
  end.

Definition o_json (k : string) (v : json) : pystr * json := (py k, v).
Definition o_str (k : string) (v : pystr) : pystr * json := (py k, JStr v).

Definition application_json : option pystr := Some (py "application/json").
Definition text_html : option pystr := Some (py "text/html").

Definition WHITE_CHECK_MARK : N := 9989.
Definition CROSS_MARK : N := 10060.
Definition ROTATING_LIGHT : N := 128680.
Definition ROBOT_FACE : N := 129302.
Definition WARNING_SIGN : pystr := [9888; 65039].
Definition HAMMER_AND_WRENCH : N := 128736.

(** ** finaleditionjan14.py

    The variant with the in-memory [FIX_STORE]: [alert_ingest] stores the
    proposed commands under a fresh id and posts the card, [teams_action]
    answers the two links of the card. *)

Module finaleditionjan14.

Definition SUBSCRIPTION_ID : pystr := py "7a735755-6139-4d2c-8ba4-5fccaaae24a0".
Definition RESOURCE_GROUP : pystr := py "AI-Ops-Project".
Definition VM_NAME : pystr := py "App-Server-01".

(** Calls that leave the process, and log lines, in the order made. *)
Inductive event :=
| logging_error (msg : pystr)
| logging_warning (msg : pystr)
| logging_exception (msg : pystr)
| get_token (scope : pystr)
| requests_post (url : pystr) (headers : list (pystr * pystr))
                (payload : json) (timeout : Z).

(** The process state: the module-level [FIX_STORE] and the calls made. *)
Record state := {
  FIX_STORE : gmap pystr (list json);
  calls : list event
}.

Definition set_store (f : gmap pystr (list json) -> gmap pystr (list json))
    (s : state) : state :=
  {| FIX_STORE := f (FIX_STORE s); calls := calls s |}.

Definition emit (e : event) : M state unit :=
  modify (fun s => {| FIX_STORE := FIX_STORE s; calls := calls s ++ [e] |}).

(** [os.getenv] of the two variables the module reads. *)
Record environ := {
  TEAMS_WEBHOOK_URL : option pystr;
  FUNCTION_BASE_URL : option pystr
}.

(** What the world answers during one [alert_ingest]. *)
Record ingest_world := {
  uuid4 : pystr;               (* str(uuid4()) *)
  teams_reply : result unit    (* requests.post to the webhook *)
}.

(** What the world answers during one [teams_action]. *)
Record action_world := {
  token : result pystr;              (* credential.get_token(...).token *)
  run_reply : result (Z * pystr)     (* status_code and text of runCommand *)
}.

Section Handlers.
Context (B : builtins) (E : environ).

Definition send_teams (w : ingest_world) (card : json) : M state unit :=
  match TEAMS_WEBHOOK_URL E with
  | Some ((_ :: _) as url) =>
      let* _ := emit (requests_post url [] card 10) in
      lift (teams_reply w)
  | _ => emit (logging_error (py "Missing TEAMS_WEBHOOK_URL"))
  end.

(** The lines [f"{i}. {cmd}"] for [enumerate(cmds, i)]. *)
Fixpoint numbered (i : nat) (cmds : list json) : list pystr :=
  match cmds with
  | [] => []
  | cmd :: rest =>
      (str_of_nat i ++ py ". " ++ str B cmd) :: numbered (S i) rest
  end.


Definition format_commands (cmds : list json) : pystr :=
  join NL ([py "```bash"] ++ numbered 1 cmds ++ [py "```"]).

Definition card_text (summary explanation : json) (commands : list json)
    : pystr :=
  (py "**" ++ [ROBOT_FACE] ++ py " AI Summary**" ++ NL ++ str B summary
     ++ NL ++ NL)
  ++ (py "**Explanation**" ++ NL ++ str B explanation ++ NL ++ NL)
  ++ (py "**Proposed Fix**" ++ NL ++ format_commands commands).

Definition open_uri (name uri : pystr) : json :=
  JObj [ o_str "@type" (py "OpenUri");
         o_str "name" name;
         o_json "targets"
           (JArr [JObj [o_str "os" (py "default"); o_str "uri" uri]]) ].

Definition approval_card (alertname instance summary explanation : json)
    (commands : list json) (fix_id : pystr) : json :=
  JObj [
    o_str "@type" (py "MessageCard");
    o_str "@context" (py "https://schema.org/extensions");
    o_str "summary" (py "Alert " ++ str B alertname);
    o_str "themeColor" (py "0076D7");
    o_str "title" ([ROTATING_LIGHT] ++ py " Alert: " ++ str B alertname);
    o_json "sections"
      (JArr [JObj [
         o_json "facts"
           (JArr [JObj [o_str "name" (py "Instance");
                        o_json "value" instance]]);
         o_str "text" (card_text summary explanation commands) ]]);
    o_json "potentialAction"
      (JArr [
         open_uri ([WHITE_CHECK_MARK] ++ py " Run Fix")
           (str_getenv (FUNCTION_BASE_URL E)
              ++ py "/api/teams_action?action=run_fix&fix_id=" ++ fix_id);
         open_uri ([CROSS_MARK] ++ py " Reject")
           (str_getenv (FUNCTION_BASE_URL E)
              ++ py "/api/teams_action?action=reject") ]) ].

Definition bad_request (msg : string) : HttpResponse :=
  {| resp_body := Text (py msg); status_code := 400; mimetype := None |}.

Definition isinstance_list (v : json) : bool :=
  match v with JArr _ => true | _ => false end.

Definition list_items (v : json) : list json :=
  match v with JArr l => l | _ => [] end.

(** Lines 90 to 98: the fields [alert_ingest] reads from the payload. *)
Record alert_fields := {
  alertname : json;
  instance : json;
  summary : json;
  explanation : json;
  commands : json
}.

Definition read_alert (data : json) : M state alert_fields :=
  let* alert := dict_get data (py "alert") (JObj []) in
  let* labels := dict_get alert (py "labels") (JObj []) in
  let* ai := dict_get data (py "ai") (JObj []) in
  let* alertname := dict_get labels (py "alertname") JNull in
  let* instance := dict_get labels (py "instance") (JStr (py "unknown")) in
  let* summary := dict_get ai (py "summary") JNull in
  let* explanation := dict_get ai (py "explanation") JNull in
  let* commands := dict_get ai (py "commands") JNull in
  ret {| alertname := alertname; instance := instance; summary := summary;
         explanation := explanation; commands := commands |}.

(** The checks of lines 100 and 103 pass exactly for a payload whose four
    fields are truthy and whose commands are a list. *)
Definition accepted (f : alert_fields) : bool :=
  forallb truthy [alertname f; summary f; explanation f; commands f]
  && isinstance_list (commands f).

Definition created (fix_id : pystr) : HttpResponse :=
  {| resp_body := Dumps (JObj [o_json "sent" (JBool true);
                               o_str "fix_id" fix_id]);
     status_code := 200;
     mimetype := application_json |}.

(** [alert_ingest(req)]; [req_json] is [None] when [req.get_json()] raises. *)
Definition alert_ingest (w : ingest_world) (req_json : option json)
    : M state HttpResponse :=
  match req_json with
  | None => ret (bad_request "Invalid JSON")
  | Some data =>
      let* f := read_alert data in
      if negb (forallb truthy
                 [alertname f; summary f; explanation f; commands f])
      then ret (bad_request "Missing required fields")
      else if negb (isinstance_list (commands f)) || negb (truthy (commands f))
      then ret (bad_request "Commands must be a non-empty list")
      else
        let fix_id := uuid4 w in
        let* _ := modify (set_store
                            (insert fix_id (list_items (commands f)))) in
        let* _ := send_teams w
                    (approval_card (alertname f) (instance f) (summary f)
                       (explanation f) (list_items (commands f)) fix_id) in
        ret (created fix_id)
  end.

Definition html (b : pystr) (code : Z) : HttpResponse :=
  {| resp_body := Text b; status_code := code; mimetype := text_html |}.

Definition h3 (mark : N) (msg : string) : pystr :=
  py "<h3>" ++ [mark] ++ py msg ++ py "</h3>".

(** [req.params.get(name)] *)
Fixpoint params_get (params : list (pystr * pystr)) (name : pystr)
    : option pystr :=
  match params with
  | [] => None
  | (k, v) :: rest => if pystr_eqb name k then Some v else params_get rest name
  end.

(** The query string asks to run [fix_id]. *)
Definition run_fix_for (fix_id : pystr) (params : list (pystr * pystr))
    : Prop :=
  params_get params (py "action") = Some (py "run_fix")
  /\ params_get params (py "fix_id") = Some fix_id.

(** [fix_id in FIX_STORE] *)
Definition contains (store : gmap pystr (list json)) (fix_id : option pystr)
    : bool :=
  match fix_id with
  | Some k => bool_decide (is_Some (store !! k))
  | None => false
  end.

(** [FIX_STORE.pop(fix_id)] *)
Definition pop (fix_id : option pystr) : M state (list json) :=
  let* s := get in
  match fix_id with
  | Some k =>
      match FIX_STORE s !! k with
      | Some commands =>
          let* _ := modify (set_store (delete k)) in
          ret commands
      | None => raise (KeyError k)
      end
  | None => raise (Exn "KeyError" (py "None"))
  end.

Definition run_command_url : pystr :=
  py "https://management.azure.com/subscriptions/" ++ SUBSCRIPTION_ID
  ++ py "/resourceGroups/" ++ RESOURCE_GROUP
  ++ py "/providers/Microsoft.Compute/virtualMachines/" ++ VM_NAME
  ++ py "/runCommand?api-version=2023-03-01".

Definition run_command_payload (commands : list json) : json :=
  JObj [o_str "commandId" (py "RunShellScript");
        o_json "script" (JArr commands)].

(** The [headers] of line 200. *)
Definition bearer (tok : pystr) : list (pystr * pystr) :=
  [ (py "Authorization", py "Bearer " ++ tok);
    (py "Content-Type", py "application/json") ].

Definition fix_failed : HttpResponse :=
  html (h3 CROSS_MARK " Fix execution failed") 200.
Definition fix_executed : HttpResponse :=
  html (h3 WHITE_CHECK_MARK " Fix executed successfully") 200.
Definition error_page (e : exn) : HttpResponse :=
  html (h3 CROSS_MARK " Error" ++ py "<pre>" ++ exn_str e ++ py "</pre>") 500.

(** Lines 195 to 231: obtain a token, post the script, answer. *)
Definition execute (w : action_world) (commands : list json)
    : M state HttpResponse :=
  let* _ := emit (get_token (py "https://management.azure.com/.default")) in
  let* tok := lift (token w) in
  let headers := bearer tok in
  let* _ := emit (requests_post run_command_url headers
                    (run_command_payload commands) 60) in
  let* resp := lift (run_reply w) in
  let* _ := emit (logging_warning
                    (py "RunCommand status=" ++ str_of_Z (fst resp))) in
  let* _ := emit (logging_warning (snd resp)) in
  if negb ((fst resp =? 200)%Z || (fst resp =? 202)%Z) then ret fix_failed
  else ret fix_executed.

(** The [except Exception as e] clause of [teams_action]. *)
Definition on_exception (e : exn) : M state HttpResponse :=
  let* _ := emit (logging_exception (py "teams_action failed")) in
  ret (error_page e).

Definition fix_rejected : HttpResponse :=
  html (h3 CROSS_MARK " Fix rejected") 200.
Definition invalid_action : HttpResponse :=
  html (h3 CROSS_MARK " Invalid action") 400.
Definition fix_not_found : HttpResponse :=
  html (h3 CROSS_MARK " Fix expired or not found") 400.

(** [teams_action(req)]; [params] is the query string. *)
Definition teams_action (w : action_world) (params : list (pystr * pystr))
    : M state HttpResponse :=
  try_except
    (let action := params_get params (py "action") in
     if bool_decide (action = Some (py "reject")) then ret fix_rejected
     else if negb (bool_decide (action = Some (py "run_fix")))
     then ret invalid_action
     else
       let fix_id := params_get params (py "fix_id") in
       let* s := get in
       if falsy fix_id || negb (contains (FIX_STORE s) fix_id)
       then ret fix_not_found
       else
         let* commands := pop fix_id in
         execute w commands)
    on_exception.

(** [msg.strip()]: only a string has the method. *)
Definition value_strip {S} (v : json) : M S pystr :=
  match v with
  | JStr s => ret (strip s)
  | _ => raise (AttributeError "object has no attribute 'strip'")
  end.

(** The loop of [parse_runcommand_output]: [output] grows by the stripped
    message of every item that has a truthy one. *)
Fixpoint stripped_messages {S} (items : list json) (output : list pystr)
    : M S (list pystr) :=
  match items with
  | [] => ret output
  | item :: rest =>
      let* msg := dict_get item (py "message") (JStr []) in
      if truthy msg then
        let* part := value_strip msg in
        stripped_messages rest (output ++ [part])
      else stripped_messages rest output
  end.

Definition no_output : pystr := py "No output returned".

(** [parse_runcommand_output(resp_json)] *)
Definition parse_runcommand_output {S} (resp_json : json) : M S pystr :=
  let* value := dict_get resp_json (py "value") (JArr []) in
  let* items := iter_items value in
  let* output := stripped_messages items [] in
  ret (match output with
       | [] => no_output
       | _ :: _ => join (NL ++ NL) output
       end).

(** The item carries the message [msg]; an item without the member carries
    the empty one. *)
Definition message_of (item : json) (msg : pystr) : Prop :=
  exists members,
    item = JObj members
    /\ (assoc (py "message") members = Some (JStr msg)
        \/ (assoc (py "message") members = None /\ msg = [])).

(** Neither the first nor the last code point is white space. *)
Definition trimmed (p : pystr) : Prop :=
  (forall c r, p = c :: r -> isspace c = false)
  /\ (forall c r, p = r ++ [c] -> isspace c = false).

Definition DQUOTE : pystr := [34].

(** The text of the report between the values it embeds. *)
Definition report_top : pystr :=
  NL
  ++ py "    <html>" ++ NL
  ++ py "      <head>" ++ NL
  ++ py "        <title>Remediation Execution Report</title>" ++ NL
  ++ py "      </head>" ++ NL
  ++ py "      <body style=" ++ DQUOTE
  ++ py "font-family: Arial, sans-serif; margin: 40px;" ++ DQUOTE
  ++ py ">" ++ NL
  ++ py "        <h2 style=" ++ DQUOTE ++ py "color: #107C10;" ++ DQUOTE
  ++ py ">" ++ [WHITE_CHECK_MARK]
  ++ py " Remediation Executed Successfully</h2>" ++ NL
  ++ NL
  ++ py "        <p><b>VM:</b> ".

Definition report_time : pystr :=
  py "</p>" ++ NL
  ++ py "        <p><b>Time:</b> ".

Definition report_commands : pystr :=
  py "</p>" ++ NL
  ++ NL
  ++ py "        <h3>Commands Executed</h3>" ++ NL
  ++ py "        <pre style=" ++ DQUOTE
  ++ py "background:#f4f4f4; padding:12px;" ++ DQUOTE ++ py ">".

Definition report_output : pystr :=
  py "</pre>" ++ NL
  ++ NL
  ++ py "        <h3>Execution Output</h3>" ++ NL
  ++ py "        <pre style=" ++ DQUOTE
  ++ py "background:#111; color:#0f0; padding:12px; white-space:pre-wrap;"
  ++ DQUOTE ++ py ">" ++ NL.

Definition report_end : pystr :=
  NL
  ++ py "        </pre>" ++ NL
  ++ py "      </body>" ++ NL
  ++ py "    </html>" ++ NL
  ++ py "    ".

(** [build_report_html(commands, output)]; [timestamp] is what
    [datetime.utcnow().strftime(...)] returns. *)
Definition build_report_html {S} (timestamp : pystr) (commands output : json)
    : M S pystr :=
  let* cmd_block := join_value NL commands in
  ret (report_top ++ VM_NAME ++ report_time ++ timestamp ++ report_commands
       ++ cmd_block ++ report_output ++ str B output ++ report_end).

(** One delivery to the function app. *)
Inductive request :=
| POST_alert_ingest (w : ingest_world) (req_json : option json)
| GET_teams_action (w : action_world) (params : list (pystr * pystr)).

Definition handle (r : request) : M state HttpResponse :=
  match r with
  | POST_alert_ingest w j => alert_ingest w j
  | GET_teams_action w p => teams_action w p
  end.

(** Deliveries handled one after the other by the same process. *)
Fixpoint serve (rs : list request) (s : state) : state :=
  match rs with
  | [] => s
  | r :: rs' => serve rs' (fst (handle r s))
  end.

(** Does the delivery draw [fix_id] from [uuid4]? *)
Definition draws (fix_id : pystr) (r : request) : bool :=
  match r with
  | POST_alert_ingest w _ => pystr_eqb (uuid4 w) fix_id
  | GET_teams_action _ _ => false
  end.

(** Is the delivery a [run_fix] for [fix_id]? *)
Definition approves (fix_id : pystr) (r : request) : bool :=
  match r with
  | POST_alert_ingest _ _ => false
  | GET_teams_action _ params =>
      bool_decide (params_get params (py "action") = Some (py "run_fix"))
      && bool_decide (params_get params (py "fix_id") = Some fix_id)
  end.

(** Is the delivery a [run_fix], for whatever id? *)
Definition is_run_fix (r : request) : bool :=
  match r with
  | POST_alert_ingest _ _ => false
  | GET_teams_action _ params =>
      bool_decide (params_get params (py "action") = Some (py "run_fix"))
  end.

(** How many of the deliveries are a [run_fix]. *)
Fixpoint run_fix_count (rs : list request) : nat :=
  match rs with
  | [] => 0
  | r :: rs' => (if is_run_fix r then 1 else 0) + run_fix_count rs'
  end.

(** The ids [uuid4] hands out during the deliveries. *)
Fixpoint drawn (rs : list request) : list pystr :=
  match rs with
  | [] => []
  | POST_alert_ingest w _ :: rs' => uuid4 w :: drawn rs'
  | GET_teams_action _ _ :: rs' => drawn rs'
  end.

(** The runCommand scripts posted, in order. *)
Fixpoint scripts_run (es : list event) : list json :=
  match es with
  | [] => []
  | requests_post url _ payload _ :: es' =>
      if pystr_eqb url run_command_url
      then match payload with
           | JObj m => match assoc (py "script") m with
                       | Some v => v :: scripts_run es'
                       | None => scripts_run es'
                       end
           | _ => scripts_run es'
           end
      else scripts_run es'
  | _ :: es' => scripts_run es'
  end.

(** The payloads posted anywhere but to runCommand: the cards. *)
Fixpoint cards_posted (es : list event) : list json :=
  match es with
  | [] => []
  | requests_post url _ payload _ :: es' =>
      if pystr_eqb url run_command_url then cards_posted es'
      else payload :: cards_posted es'
  | _ :: es' => cards_posted es'
  end.


(** The answer the handler owes to a decision that names no stored entry:
    "not found", and the state as it was. *)
Definition refuses_unknown (w : action_world) (params : list (pystr * pystr))
    (s : state) : Prop :=
  teams_action w params s = (s, Ok fix_not_found).

End Handlers.

(** [v] is a dict. *)
Definition is_object (v : json) : bool :=
  match v with JObj _ => true | _ => false end.

(** [v.get(k, default)] of a dict [v]. *)
Definition field (k : string) (default : json) (v : json) : json :=
  match v with
  | JObj m => match assoc (py k) m with Some x => x | None => default end
  | _ => default
  end.

(** Lines 90 and 91 go through: the payload is an object, and its members
    [alert], the [labels] of that, and [ai], where present, are objects. *)
Definition readable (data : json) : bool :=
  is_object data
  && is_object (field "alert" (JObj []) data)
  && is_object (field "labels" (JObj []) (field "alert" (JObj []) data))
  && is_object (field "ai" (JObj []) data).

(** The fields of a readable payload. *)
Definition fields_of (data : json) : alert_fields :=
  let labels := field "labels" (JObj []) (field "alert" (JObj []) data) in
  let ai := field "ai" (JObj []) data in
  {| alertname := field "alertname" JNull labels;
     instance := field "instance" (JStr (py "unknown")) labels;
     summary := field "summary" JNull ai;
     explanation := field "explanation" JNull ai;
     commands := field "commands" JNull ai |}.

(** The two halves of the lookup in [teams_action], as two threads of one
    process would interleave them: the membership test of line 186, then
    the [pop] of line 193 with the [except] clause around it. *)
Definition check (fix_id : option pystr) (s : state) : bool :=
  negb (falsy fix_id || negb (contains (FIX_STORE s) fix_id)).

Definition pop_and_execute (w : action_world) (fix_id : option pystr)
    : M state HttpResponse :=
  try_except (let* commands := pop fix_id in execute w commands) on_exception.

(** A [run_fix] delivery in flight: it has arrived; it has passed the
    membership test of line 186 and has yet to reach the [pop] of line 193;
    or it has been answered. *)
Inductive flight :=
| Arrived
| Passed
| Answered (r : result HttpResponse).

(** The next step of a delivery for [fix_id] whose outside is [w]. *)
Definition advance (fix_id : option pystr) (w : action_world) (f : flight)
    (s : state) : state * flight :=
  match f with
  | Arrived =>
      if check fix_id s then (s, Passed)
      else (s, Answered (Ok fix_not_found))
  | Passed =>
      let out := pop_and_execute w fix_id s in
      (fst out, Answered (snd out))
  | Answered r => (s, Answered r)
  end.

(** The deliveries in flight, with the state they share; delivery [i] takes
    its next step. *)
Definition turn (fix_id : option pystr) (i : nat)
    (c : state * list (action_world * flight))
    : state * list (action_world * flight) :=
  match snd c !! i with
  | Some (w, f) =>
      let out := advance fix_id w f (fst c) in
      (fst out, <[i := (w, snd out)]> (snd c))
  | None => c
  end.

(** The deliveries take their steps in the order of [schedule]. *)
Fixpoint interleave (fix_id : option pystr) (schedule : list nat)
    (c : state * list (action_world * flight))
    : state * list (action_world * flight) :=
  match schedule with
  | [] => c
  | i :: rest => interleave fix_id rest (turn fix_id i c)
  end.

(** The delivery has not reached the [pop]. *)
Definition idle (f : flight) : Prop := f = Arrived \/ f = Passed.

(** The delivery did not obtain the commands: it is still on its way, or
    it was answered "not found" by the membership test, or its [pop] raised
    [KeyError] and it was answered by the [except] clause. *)
Definition lost (fix_id : pystr) (f : flight) : Prop :=
  idle f
  \/ f = Answered (Ok fix_not_found)
  \/ f = Answered (Ok (error_page (KeyError fix_id))).

(** The delivery popped [commands] and went on to execute them with the
    entry removed. *)
Definition won (fix_id : pystr) (commands : list json) (w : action_world)
    (f : flight) : Prop :=
  exists s0,
    FIX_STORE s0 !! fix_id = None
    /\ f = Answered (snd (try_except (execute w commands) on_exception s0)).

(** The entry of [fix_id] is consumed at most once.  Either it is still
    there and no delivery has reached the [pop]; or it is gone, one
    delivery has won it, the scripts posted beyond [base] are the one of
    the winner, and every other delivery has lost. *)
Definition consumed_once (fix_id : pystr) (commands : list json)
    (base : list json) (c : state * list (action_world * flight)) : Prop :=
  (FIX_STORE (fst c) !! fix_id = Some commands
   /\ scripts_run (calls (fst c)) = base
   /\ Forall (fun x => idle (snd x)) (snd c))
  \/ (FIX_STORE (fst c) !! fix_id = None
      /\ exists i w f,
           snd c !! i = Some (w, f)
           /\ won fix_id commands w f
           /\ scripts_run (calls (fst c))
              = base ++ match token w with
                        | Ok _ => [JArr commands]
                        | Raise _ => []
                        end
           /\ forall j x, j <> i -> snd c !! j = Some x ->
                          lost fix_id (snd x)).

End finaleditionjan14.

(** ** ver4.py

    The variant without a store: the approval card carries the advice in
    the body of its action, and the callback runs what it is sent. *)

Module ver4.

Inductive event :=
| chat_completion (model : pystr) (system user : pystr)
| requests_get (url : pystr) (headers : list (pystr * pystr)) (timeout : Z)
| ssh_connect (hostname username password : option pystr) (timeout : Z)
| ssh_exec_command (cmd : json)
| ssh_close
| requests_post (url : pystr) (card : json) (timeout : Z).

(** The module keeps nothing between calls: the state is the calls made. *)
Abbreviation state := (list event).

Definition emit (e : event) : M state unit := modify (fun s => s ++ [e]).

Record environ := {
  OPENAI_API_KEY : option pystr;
  OPENAI_MODEL : option pystr;
  SOP_GITHUB_API : option pystr;
  GITHUB_TOKEN : option pystr;
  VM_IP : option pystr;
  VM_USER : option pystr;
  VM_PASS : option pystr;
  TEAMS_WEBHOOK_URL : option pystr;
  CALLBACK_BASE_URL : option pystr
}.

(** What the world answers during one call of a handler. *)
Record world := {
  sop_reply : result json;      (* lookup_sop_internal: None or the SOP *)
  ai_reply : result json;       (* resp.choices[0].message.content *)
  connect_reply : result unit;  (* ssh.connect *)
  exec_reply : list event -> json -> result unit;
     (* ssh.exec_command(cmd), given the calls made so far *)
  teams_reply : result unit     (* requests.post to the webhook *)
}.

Section Handlers.
Context (B : builtins) (E : environ).

Definition system_prompt : pystr :=
  py "You are a senior Site Reliability Engineer.".

Definition user_prompt (incident description : json) : pystr :=
  NL ++ py "You are a senior Site Reliability Engineer." ++ NL ++ NL
  ++ py "Incident: " ++ str B incident ++ NL
  ++ py "Description: " ++ str B description ++ NL ++ NL
  ++ py "Provide:" ++ NL
  ++ py "1. Root cause" ++ NL
  ++ py "2. Step-by-step Linux remediation commands" ++ NL
  ++ py "3. Safety warnings if any" ++ NL.

Definition generate_ai_remediation (w : world) (incident description : json)
    : M state json :=
  if falsy (OPENAI_API_KEY E) then
    ret (JStr (py "OPENAI_API_KEY not configured"))
  else
    let model := match OPENAI_MODEL E with
                 | Some m => m
                 | None => py "gpt-4o-mini"
                 end in
    let* _ := emit (chat_completion model system_prompt
                      (user_prompt incident description)) in
    lift (ai_reply w).

(** The GET is recorded; the status test, the base64 decoding and
    [json.loads] are folded into what the world answers. *)
Definition lookup_sop_internal (w : world) (incident : json) : M state json :=
  let url := str_getenv (SOP_GITHUB_API E) ++ py "/" ++ str B incident
             ++ py ".json" in
  let headers := [ (py "Authorization",
                    py "token " ++ str_getenv (GITHUB_TOKEN E));
                   (py "Accept", py "application/vnd.github.v3+json") ] in
  let* _ := emit (requests_get url headers 10) in
  lift (sop_reply w).

(** [ssh.exec_command(cmd)] *)
Definition exec_step (w : world) (cmd : json) : M state unit :=
  let* _ := emit (ssh_exec_command cmd) in
  let* so_far := get in
  lift (exec_reply w so_far cmd).

Definition run_on_vm (w : world) (commands : json) : M state unit :=
  let* _ := emit (ssh_connect (VM_IP E) (VM_USER E) (VM_PASS E) 10) in
  let* _ := lift (connect_reply w) in
  let* cmds := iter_items commands in
  let* _ := for_each (exec_step w) cmds in
  emit ssh_close.

Definition message_card (title text : pystr) (actions : list json) : json :=
  JObj [ o_str "@type" (py "MessageCard");
         o_str "@context" (py "http://schema.org/extensions");
         o_str "summary" title;
         o_str "title" title;
         o_str "text" text;
         o_json "potentialAction" (JArr actions) ].

(** [actions or []] is [actions] itself for a list.  Without a webhook,
    [requests.post(None, ...)] raises before anything is sent. *)
Definition send_teams_card (w : world) (title text : pystr)
    (actions : list json) : M state unit :=
  match TEAMS_WEBHOOK_URL E with
  | None => raise (Exn "MissingSchema" (py "Invalid URL 'None'"))
  | Some webhook =>
      let* _ := emit (requests_post webhook (message_card title text actions)
                        10) in
      lift (teams_reply w)
  end.

Definition approve_actions (incident description ai_solution : json)
    : list json :=
  [ JObj [ o_str "@type" (py "HttpPOST");
           o_str "name" (py "Approve Fix");
           o_str "target"
             (str_getenv (CALLBACK_BASE_URL E) ++ py "/api/approval_callback");
           o_str "body"
             (dumps B (JObj [ o_json "incident" incident;
                              o_json "description" description;
                              o_json "ai_solution" ai_solution ]));
           o_json "headers"
             (JArr [JObj [ o_str "name" (py "Content-Type");
                           o_str "value" (py "application/json") ]]) ] ].

(** Lines 101 to 104: the alert name and the description of the first
    alert of the payload. *)
Definition read_alert (req_json : option json) : M state (json * json) :=
  let* data := get_json req_json in
  let* alerts := getitem data (py "alerts") in
  let* alert := getitem0 alerts in
  let* labels := getitem alert (py "labels") in
  let* incident := dict_get labels (py "alertname") (JStr (py "unknown")) in
  let* annotations := getitem alert (py "annotations") in
  let* description := dict_get annotations (py "description") (JStr []) in
  ret (incident, description).

Definition approval_title (incident : json) : pystr :=
  WARNING_SIGN ++ py " " ++ str B incident ++ py " needs approval".

Definition alert_receiver (w : world) (req_json : option json)
    : M state HttpResponse :=
  let* alert := read_alert req_json in
  let incident := fst alert in
  let description := snd alert in
  let* sop := lookup_sop_internal w incident in
  if truthy sop then
    let* commands := getitem sop (py "commands") in
    let* _ := run_on_vm w commands in
    let* commands' := getitem sop (py "commands") in
    let* listing := join_value NL commands' in
    let* _ := send_teams_card w
                ([WHITE_CHECK_MARK] ++ py " Auto-remediated " ++ str B incident)
                (py "Executed SOP commands:" ++ NL ++ listing) [] in
    ret (response (Text (py "auto remediated")))
  else
    let* ai_solution := generate_ai_remediation w incident description in
    let* _ := send_teams_card w
                (approval_title incident)
                (py "AI Suggested Fix:" ++ NL ++ str B ai_solution)
                (approve_actions incident description ai_solution) in
    ret (response (Text (py "approval sent"))).

(** [line.strip().startswith("sudo")] *)
Definition is_sudo_line (line : pystr) : bool :=
  startswith (py "sudo") (strip line).

(** [ai_solution.splitlines()]: only a string has the method. *)
Definition value_splitlines {S} (v : json) : M S (list pystr) :=
  match v with
  | JStr s => ret (splitlines s)
  | _ => raise (AttributeError "object has no attribute 'splitlines'")
  end.

(** The list comprehension of line 149. *)
Definition sudo_lines (text : pystr) : list pystr :=
  filter (fun line => is_sudo_line line = true) (splitlines text).

Definition executed_title (incident : json) : pystr :=
  [WHITE_CHECK_MARK] ++ py " Approved & Executed " ++ str B incident.

Definition executed_text (commands : list pystr) : pystr :=
  py "Commands executed:" ++ NL ++ join NL commands.

Definition approved_and_executed : HttpResponse :=
  response (Text (py "approved and executed")).

Definition approval_callback (w : world) (req_json : option json)
    : M state HttpResponse :=
  let* data := get_json req_json in
  let* incident := getitem data (py "incident") in
  let* ai_solution := getitem data (py "ai_solution") in
  let* lines := value_splitlines ai_solution in
  let commands := filter (fun line => is_sudo_line line = true) lines in
  let* _ := run_on_vm w (JArr (map JStr commands)) in
  let* _ := send_teams_card w (executed_title incident)
              (executed_text commands) [] in
  ret approved_and_executed.

End Handlers.

(** The commands run over SSH, in order. *)
Fixpoint executed (es : list event) : list json :=
  match es with
  | [] => []
  | ssh_exec_command cmd :: es' => cmd :: executed es'
  | _ :: es' => executed es'
  end.

(** The cards posted to the webhook, in order. *)
Fixpoint cards (es : list event) : list json :=
  match es with
  | [] => []
  | requests_post _ card _ :: es' => card :: cards es'
  | _ :: es' => cards es'
  end.

(** The prompts sent to the completion API, in order. *)
Fixpoint completions (es : list event) : list pystr :=
  match es with
  | [] => []
  | chat_completion _ _ user :: es' => user :: completions es'
  | _ :: es' => completions es'
  end.

(** A computation during which no command is run over SSH. *)
Definition runs_nothing {A} (m : M state A) : Prop :=
  forall s, executed (fst (m s)) = executed s.

(** A computation during which the completion API is not called. *)
Definition asks_nothing {A} (m : M state A) : Prop :=
  forall s, completions (fst (m s)) = completions s.

(** The names of the actions a card offers. *)
Definition action_names (card : json) : list json :=
  match card with
  | JObj m =>
      match assoc (py "potentialAction") m with
      | Some (JArr actions) =>
          map (fun a => match a with
                        | JObj am => match assoc (py "name") am with
                                     | Some n => n
                                     | None => JNull
                                     end
                        | _ => JNull
                        end) actions
      | _ => []
      end
  | _ => []
  end.

End ver4.

(** ** ver2.py

    The handlers of the module.  The OpenAI client the module builds when
    it is imported is not part of any handler and is left out. *)

Module ver2.

Inductive event :=
| chat_completion (model : pystr) (user : pystr)
| requests_get (url : pystr)
| ssh_connect (hostname username password : pystr) (timeout : Z)
| ssh_exec_command (cmd : json)
| ssh_close
| print_ssh_error (msg : pystr)
| requests_post (url : pystr) (payload : json).

Abbreviation state := (list event).

Definition emit (e : event) : M state unit := modify (fun s => s ++ [e]).

Record environ := {
  OPENAI_MODEL : option pystr;
  VM_HOST : option pystr;
  VM_USER : option pystr;
  VM_PASSWORD : option pystr;
  CALLBACK_BASE_URL : option pystr;
  TEAMS_WEBHOOK_URL : option pystr
}.

Record world := {
  lookup_reply : result json;   (* requests.get(...).json() *)
  ai_reply : result json;       (* resp.choices[0].message.content *)
  connect_reply : result unit;  (* ssh.connect *)
  exec_reply : list event -> json -> result (pystr * pystr);
     (* exec_command(c), then stdout.read().decode() and
        stderr.read().decode(), given the calls made so far *)
  teams_reply : result unit     (* requests.post to the webhook *)
}.

Section Handlers.
Context (B : builtins) (E : environ).

Definition user_prompt (incident description : json) : pystr :=
  NL ++ py "You are a senior SRE." ++ NL ++ NL
  ++ py "Incident: " ++ str B incident ++ NL
  ++ py "Description: " ++ str B description ++ NL ++ NL
  ++ py "Give:" ++ NL
  ++ py "1. Root cause" ++ NL
  ++ py "2. Step-by-step Linux remediation commands" ++ NL
  ++ py "3. Safety warning" ++ NL.

Definition generate_ai_remediation (w : world) (incident description : json)
    : M state json :=
  let model := match OPENAI_MODEL E with
               | Some m => m
               | None => py "gpt-4o-mini"
               end in
  let* _ := emit (chat_completion model (user_prompt incident description)) in
  lift (ai_reply w).

(** The loop of [run_remote_commands]: [results] grows by one entry per
    command. *)
Fixpoint exec_all (w : world) (cmds results : list json)
    : M state (list json) :=
  match cmds with
  | [] => ret results
  | c :: rest =>
      let* _ := emit (ssh_exec_command c) in
      let* so_far := get in
      let* out := lift (exec_reply w so_far c) in
      exec_all w rest
        (results ++ [JObj [ o_json "cmd" c;
                            o_str "stdout" (fst out);
                            o_str "stderr" (snd out) ]])
  end.

(** The [except] clause answers with the error in place of the results
    (the traceback it also prints is left out). *)
Definition run_remote_commands (w : world) (cmds : list json)
    : M state (list json) :=
  try_except
    (match VM_HOST E, VM_USER E, VM_PASSWORD E with
     | Some ((_ :: _) as host), Some ((_ :: _) as user),
       Some ((_ :: _) as password) =>
         let* _ := emit (ssh_connect host user password 10) in
         let* _ := lift (connect_reply w) in
         let* results := exec_all w cmds [] in
         let* _ := emit ssh_close in
         ret results
     | _, _, _ => raise (Exn "Exception" (py "Missing VM credentials"))
     end)
    (fun e =>
       let* _ := emit (print_ssh_error (exn_str e)) in
       ret [JObj [o_str "error" (exn_str e)]]).

(** [[x["cmd"] for x in plan]] *)
Fixpoint cmd_fields (plan : list json) : M state (list json) :=
  match plan with
  | [] => ret []
  | x :: rest =>
      let* c := getitem x (py "cmd") in
      let* cs := cmd_fields rest in
      ret (c :: cs)
  end.

(** Line 137: [[x["cmd"] for x in sop_lookup["sop"]["plan"]]] *)
Definition plan_commands (sop_lookup : json) : M state (list json) :=
  let* sop := getitem sop_lookup (py "sop") in
  let* plan := getitem sop (py "plan") in
  let* steps := iter_items plan in
  cmd_fields steps.

Definition executed_message (incident : json) (results : list json) : pystr :=
  [HAMMER_AND_WRENCH] ++ py " Executed SOP for " ++ str B incident ++ py ":"
  ++ NL ++ py "```json" ++ NL ++ dumps_indent2 B (JArr results) ++ NL
  ++ py "```".

Definition suggestion_message (incident suggestion : json) : pystr :=
  [ROBOT_FACE] ++ py " AI Suggestion for " ++ str B incident ++ py ":" ++ NL
  ++ str B suggestion.

(** [requests.post(os.getenv("TEAMS_WEBHOOK_URL"), json={"text": msg})] *)
Definition post_text (w : world) (msg : pystr) : M state unit :=
  match TEAMS_WEBHOOK_URL E with
  | None => raise (Exn "MissingSchema" (py "Invalid URL 'None'"))
  | Some webhook =>
      let* _ := emit (requests_post webhook (JObj [o_str "text" msg])) in
      lift (teams_reply w)
  end.

Definition approval_callback (w : world) (req_json : option json)
    : M state HttpResponse :=
  let* data := get_json req_json in
  let* incident := getitem data (py "incident") in
  let* description := dict_get data (py "description") (JStr []) in
  let* _ := emit (requests_get
                    (str_getenv (CALLBACK_BASE_URL E)
                       ++ py "/api/lookup_sop?incident=" ++ str B incident)) in
  let* sop_lookup := lift (lookup_reply w) in
  let* found := dict_get sop_lookup (py "found") JNull in
  let* msg :=
    (if truthy found then
       let* cmds := plan_commands sop_lookup in
       let* results := run_remote_commands w cmds in
       ret (executed_message incident results)
     else
       let* suggestion := generate_ai_remediation w incident description in
       ret (suggestion_message incident suggestion)) in
  let* _ := post_text w msg in
  ret {| resp_body := Dumps (JObj [o_str "status" (py "processed")]);
         status_code := 200;
         mimetype := application_json |}.

End Handlers.

(** What [run_remote_commands] returns when it went through: one entry
    per command, in order. *)
Definition command_results (cmds results : list json) : Prop :=
  Forall2 (fun c r => exists out err,
             r = JObj [o_json "cmd" c; o_str "stdout" out; o_str "stderr" err])
    cmds results.

(** What it returns from its [except] clause. *)
Definition error_report (results : list json) : Prop :=
  exists msg, results = [JObj [o_str "error" msg]].

(** The commands run over SSH, in order. *)
Fixpoint executed (es : list event) : list json :=
  match es with
  | [] => []
  | ssh_exec_command cmd :: es' => cmd :: executed es'
  | _ :: es' => executed es'
  end.

(** The entry [run_remote_commands] appends for a command and its two
    streams. *)
Definition result_entry (c : json) (out : pystr * pystr) : json :=
  JObj [o_json "cmd" c; o_str "stdout" (fst out); o_str "stderr" (snd out)].

(** The messages posted to the webhook, in order. *)
Fixpoint posted (es : list event) : list json :=
  match es with
  | [] => []
  | requests_post _ payload :: es' => payload :: posted es'
  | _ :: es' => posted es'
  end.

End ver2.

(** ** ver5.py *)

Module ver5.

(** [approval_callback] reads the two fields and echoes them; it calls
    nothing, whatever the state of the process is. *)
Definition approval_callback {S} (req_json : option json)
    : M S HttpResponse :=
  let* data := get_json req_json in
  let* decision := dict_get data (py "decision") JNull in
  let* incident := dict_get data (py "incident") JNull in
  ret {| resp_body := Dumps (JObj [ o_json "decision" decision;
                                    o_json "incident" incident ]);
         status_code := 200;
         mimetype := application_json |}.

(** The outside calls of [agent_webhook]. *)
Inductive event :=
| requests_get (url : pystr) (timeout : Z)
| requests_post (url : pystr) (card : json) (timeout : Z).

Abbreviation state := (list event).

Definition emit (e : event) : M state unit := modify (fun s => s ++ [e]).

Record environ := {
  TEAMS_WEBHOOK_URL : option pystr;
  CALLBACK_BASE_URL : option pystr
}.

Record world := {
  lookup_reply : result json;   (* requests.get(...).json() *)
  teams_reply : result unit     (* requests.post to the webhook *)
}.

Section Handlers.
Context (B : builtins) (E : environ).

(** [[p["cmd"] for p in plan]] *)
Fixpoint cmd_fields (plan : list json) : M state (list json) :=
  match plan with
  | [] => ret []
  | p :: rest =>
      let* c := getitem p (py "cmd") in
      let* cs := cmd_fields rest in
      ret (c :: cs)
  end.

Definition fact (name : string) (value : json) : json :=
  JObj [o_str "name" (py name); o_json "value" value].

(** One of the two buttons of the card. *)
Definition decision_action (name : pystr) (decision : string)
    (incident : json) : json :=
  JObj [ o_str "@type" (py "HttpPOST");
         o_str "name" name;
         o_str "target"
           (str_getenv (CALLBACK_BASE_URL E) ++ py "/api/approval_callback");
         o_str "body"
           (dumps B (JObj [ o_str "decision" (py decision);
                            o_json "incident" incident ]));
         o_json "headers"
           (JArr [JObj [ o_str "name" (py "Content-Type");
                         o_str "value" (py "application/json") ]]) ].

Definition approval_card (incident risk description : json)
    (commands : pystr) : json :=
  JObj [ o_str "@type" (py "MessageCard");
         o_str "@context" (py "http://schema.org/extensions");
         o_str "summary" (py "Incident " ++ str B incident);
         o_str "title" ([ROTATING_LIGHT] ++ py " " ++ str B incident
                          ++ py " remediation approval");
         o_json "sections"
           (JArr [JObj [o_json "facts"
                          (JArr [ fact "Risk" risk;
                                  fact "Description" description;
                                  fact "Commands" (JStr commands) ])]]);
         o_json "potentialAction"
           (JArr [ decision_action ([WHITE_CHECK_MARK] ++ py " Approve")
                     "approve" incident;
                   decision_action ([CROSS_MARK] ++ py " Reject")
                     "reject" incident ]) ].

(** [send_teams_approval_card(incident, sop)]: the card is built first,
    then posted; without a webhook [requests] raises before anything is
    sent. *)
Definition send_teams_approval_card (w : world) (incident sop : json)
    : M state unit :=
  let* risk := dict_get sop (py "risk") (JStr (py "unknown")) in
  let* description := dict_get sop (py "description") (JStr []) in
  let* plan := dict_get sop (py "plan") (JArr []) in
  let* steps := iter_items plan in
  let* cmds := cmd_fields steps in
  let* commands := join_value NL (JArr cmds) in
  match TEAMS_WEBHOOK_URL E with
  | None => raise (Exn "MissingSchema" (py "Invalid URL 'None'"))
  | Some webhook =>
      let* _ := emit (requests_post webhook
                        (approval_card incident risk description commands)
                        10) in
      lift (teams_reply w)
  end.

Definition answer (status : string) (incident : json) : HttpResponse :=
  {| resp_body := Dumps (JObj [ o_str "status" (py status);
                                o_json "incident" incident ]);
     status_code := 200;
     mimetype := application_json |}.

(** [agent_webhook(req)] *)
Definition agent_webhook (w : world) (req_json : option json)
    : M state HttpResponse :=
  let* payload := get_json req_json in
  let* alerts := getitem payload (py "alerts") in
  let* alert := getitem0 alerts in
  let* labels := getitem alert (py "labels") in
  let* incident := dict_get labels (py "alertname") JNull in
  let* _ := emit (requests_get
                    (str_getenv (CALLBACK_BASE_URL E)
                       ++ py "/api/lookup_sop?incident=" ++ str B incident)
                    5) in
  let* sop_lookup := lift (lookup_reply w) in
  let* is_found := dict_get sop_lookup (py "found") JNull in
  if truthy is_found then
    let* sop := getitem sop_lookup (py "sop") in
    let* _ := send_teams_approval_card w incident sop in
    ret (answer "waiting_for_approval" incident)
  else ret (answer "no_sop_found" incident).

End Handlers.

(** The cards posted to the webhook, in order. *)
Fixpoint cards (es : list event) : list json :=
  match es with
  | [] => []
  | requests_post _ card _ :: es' => card :: cards es'
  | _ :: es' => cards es'
  end.

(** A step of the plan with its command. *)
Definition step_of (step : json) (c : pystr) : Prop :=
  exists members,
    step = JObj members /\ assoc (py "cmd") members = Some (JStr c).

End ver5.

(** ** ver1.py

    The first variant: the callback looks the procedure up and, failing
    that, posts the advisor's suggestion; nothing is executed anywhere in
    the module.  Both handlers modelled here are wrapped in a [try]. *)

(** [base64.b64decode(v).decode("utf-8")] and [json.loads(t)], taken as
    given. *)
Record codecs := {
  b64decode_utf8 : json -> result pystr;
  loads : pystr -> result json
}.

(** [v == t] for a string literal [t]. *)
Definition is_str (v : json) (t : pystr) : bool :=
  match v with
  | JStr u => pystr_eqb u t
  | _ => false
  end.

Module ver1.

Inductive event :=
| chat_completion (model system user : pystr)
| requests_get (url : pystr) (headers : option (list (pystr * pystr)))
    (timeout : Z)
| requests_post (url : pystr) (payload : json) (timeout : Z).

Abbreviation state := (list event).

Definition emit (e : event) : M state unit := modify (fun s => s ++ [e]).

Record environ := {
  OPENAI_MODEL : option pystr;
  SOP_GITHUB_API : option pystr;
  GITHUB_TOKEN : option pystr;
  TEAMS_WEBHOOK_URL : option pystr;
  CALLBACK_BASE_URL : option pystr
}.

Record world := {
  github_reply : result (Z * pystr * result json);
     (* requests.get to GitHub: status_code, text and r.json() *)
  lookup_reply : result json;   (* requests.get(...).json() of the callback *)
  ai_reply : result json;       (* resp.choices[0].message.content *)
  teams_reply : result unit     (* requests.post to the webhook *)
}.

Section Handlers.
Context (B : builtins) (C : codecs) (E : environ).

Definition system_prompt : pystr :=
  py "You are a senior Site Reliability Engineer.".

Definition user_prompt (incident description : json) : pystr :=
  NL ++ py "You are a senior Site Reliability Engineer." ++ NL ++ NL
  ++ py "Incident: " ++ str B incident ++ NL
  ++ py "Description: " ++ str B description ++ NL ++ NL
  ++ py "Give:" ++ NL
  ++ py "1. Likely root cause" ++ NL
  ++ py "2. Step-by-step Linux remediation commands" ++ NL
  ++ py "3. Any safety warning if needed" ++ NL.

Definition generate_ai_remediation (w : world) (incident description : json)
    : M state json :=
  let model := match OPENAI_MODEL E with
               | Some m => m
               | None => py "gpt-4o-mini"
               end in
  let* _ := emit (chat_completion model system_prompt
                    (user_prompt incident description)) in
  lift (ai_reply w).

Definition plain (text : pystr) (code : Z) : HttpResponse :=
  {| resp_body := Text text; status_code := code; mimetype := None |}.

Definition as_json (v : json) : HttpResponse :=
  {| resp_body := Dumps v; status_code := 200; mimetype := application_json |}.

(** [a or b] on two query parameters. *)
Definition or_else (a b : option pystr) : option pystr :=
  if falsy a then b else a.

Definition github_headers : list (pystr * pystr) :=
  [ (py "Authorization", py "token " ++ str_getenv (GITHUB_TOKEN E));
    (py "Accept", py "application/vnd.github.v3+json") ].

Definition not_found : HttpResponse :=
  as_json (JObj [o_json "found" (JBool false)]).

Definition found (sop : json) : HttpResponse :=
  as_json (JObj [o_json "found" (JBool true); o_json "sop" sop]).

(** [lookup_sop(req)]; [params] is the query string. *)
Definition lookup_sop (w : world) (params : list (pystr * pystr))
    : M state HttpResponse :=
  try_except
    (let incident :=
       or_else (finaleditionjan14.params_get params (py "incident"))
               (finaleditionjan14.params_get params (py "error_key")) in
     if falsy incident then ret (plain (py "Missing incident parameter") 400)
     else if falsy (SOP_GITHUB_API E) || falsy (GITHUB_TOKEN E)
     then ret (plain (py "Missing GitHub configuration") 500)
     else
       let url := str_getenv (SOP_GITHUB_API E) ++ py "/"
                  ++ str_getenv incident ++ py ".json" in
       let* _ := emit (requests_get url (Some github_headers) 10) in
       let* r := lift (github_reply w) in
       let status := fst (fst r) in
       if (status =? 404)%Z then ret not_found
       else if negb (status =? 200)%Z
       then ret (plain (py "GitHub error " ++ str_of_Z status ++ py ": "
                          ++ snd (fst r)) 500)
       else
         let* data := lift (snd r) in
         let* content := getitem data (py "content") in
         let* decoded := lift (b64decode_utf8 C content) in
         let* sop := lift (loads C decoded) in
         ret (found sop))
    (fun e => ret (plain (py "Internal error: " ++ exn_str e) 500)).

Definition error (msg : pystr) (code : Z) : HttpResponse :=
  {| resp_body := Dumps (JObj [o_str "error" msg]);
     status_code := code;
     mimetype := None |}.

(** The answer of line 163. *)
Definition decided (status : string) (incident : json) : HttpResponse :=
  as_json (JObj [o_str "status" (py status); o_json "incident" incident]).

Definition suggestion_text (incident ai_solution : json) : pystr :=
  [ROBOT_FACE] ++ py " AI suggested remediation for **" ++ str B incident
  ++ py "**:" ++ NL ++ NL ++ str B ai_solution.

(** [requests.post(webhook, json={"text": ...}, timeout=10)]; without a
    webhook [requests] raises before anything is sent. *)
Definition post_text (w : world) (text : pystr) : M state unit :=
  match TEAMS_WEBHOOK_URL E with
  | None => raise (Exn "MissingSchema" (py "Invalid URL 'None'"))
  | Some webhook =>
      let* _ := emit (requests_post webhook (JObj [o_str "text" text]) 10) in
      lift (teams_reply w)
  end.

(** [approval_callback(req)] *)
Definition approval_callback (w : world) (req_json : option json)
    : M state HttpResponse :=
  try_except
    (let* data := get_json req_json in
     let* decision := dict_get data (py "decision") JNull in
     let* incident := dict_get data (py "incident") JNull in
     let* description := dict_get data (py "description") (JStr []) in
     if negb (truthy decision) || negb (truthy incident)
     then ret (error (py "Missing decision or incident") 400)
     else if is_str decision (py "approve") then
       let* _ := emit (requests_get
                         (str_getenv (CALLBACK_BASE_URL E)
                            ++ py "/api/lookup_sop?incident="
                            ++ str B incident) None 5) in
       let* sop_lookup := lift (lookup_reply w) in
       let* is_found := dict_get sop_lookup (py "found") JNull in
       if truthy is_found then ret (decided "approved_sop" incident)
       else
         let* ai_solution := generate_ai_remediation w incident description in
         let* _ := post_text w (suggestion_text incident ai_solution) in
         ret (decided "approved_ai" incident)
     else if is_str decision (py "reject")
     then ret (decided "rejected" incident)
     else ret (error (py "Invalid decision") 400))
    (fun e => ret (error (exn_str e) 500)).

End Handlers.

End ver1.

(** ** Sample deliveries *)

Module Sample.

Definition B0 : builtins :=
  {| repr_value := fun _ => py "<value>";
     dumps := fun _ => py "<json>";
     dumps_indent2 := fun _ => py "<json>" |}.

Definition E0 : finaleditionjan14.environ :=
  {| finaleditionjan14.TEAMS_WEBHOOK_URL :=
       Some (py "https://teams.example/hook");
     finaleditionjan14.FUNCTION_BASE_URL := Some (py "https://fn.example") |}.

Definition echo_ab : list json := [JStr (py "echo a"); JStr (py "echo b")].

Definition alert (summary : json) (commands : json) : json :=
  JObj [ o_json "alert"
           (JObj [o_json "labels"
                    (JObj [ o_str "alertname" (py "DiskFull");
                            o_str "instance" (py "vm-1") ])]);
         o_json "ai"
           (JObj [ o_json "summary" summary;
                   o_str "explanation" (py "cache grew");
                   o_json "commands" commands ]) ].

Definition disk_full : json := alert (JStr (py "root at 98%")) (JArr echo_ab).

Definition fields_disk_full : finaleditionjan14.alert_fields :=
  {| finaleditionjan14.alertname := JStr (py "DiskFull");
     finaleditionjan14.instance := JStr (py "vm-1");
     finaleditionjan14.summary := JStr (py "root at 98%");
     finaleditionjan14.explanation := JStr (py "cache grew");
     finaleditionjan14.commands := JArr echo_ab |}.

Definition draw (fix_id : string) : finaleditionjan14.ingest_world :=
  {| finaleditionjan14.uuid4 := py fix_id;
     finaleditionjan14.teams_reply := Ok tt |}.

Definition azure (code : Z) : finaleditionjan14.action_world :=
  {| finaleditionjan14.token := Ok (py "tok");
     finaleditionjan14.run_reply := Ok (code, py "{}") |}.

Definition run_fix (fix_id : string) : list (pystr * pystr) :=
  [ (py "action", py "run_fix"); (py "fix_id", py fix_id) ].

Definition reject (fix_id : string) : list (pystr * pystr) :=
  [ (py "action", py "reject"); (py "fix_id", py fix_id) ].

Definition empty : finaleditionjan14.state :=
  {| finaleditionjan14.FIX_STORE := ∅; finaleditionjan14.calls := [] |}.

Definition pending (fix_id : string) : finaleditionjan14.state :=
  {| finaleditionjan14.FIX_STORE := {[ py fix_id := echo_ab ]};
     finaleditionjan14.calls := [] |}.

(** An answer of runCommand: a padded message, an empty one, an item
    without a message, a plain one. *)
Definition status (msg : string) : json :=
  JObj [ o_str "code" (py "ProvisioningState/succeeded");
         o_str "message" (py msg) ].

Definition run_answer : json :=
  JObj [o_json "value"
          (JArr [status "  total 0 "; status ""; JObj []; status "done"])].

(** ver4 *)

Definition E4 : ver4.environ :=
  {| ver4.OPENAI_API_KEY := Some (py "sk-test");
     ver4.OPENAI_MODEL := None;
     ver4.SOP_GITHUB_API := Some (py "https://api.github.example/sops");
     ver4.GITHUB_TOKEN := Some (py "ghp");
     ver4.VM_IP := Some (py "10.0.0.4");
     ver4.VM_USER := Some (py "ops");
     ver4.VM_PASS := Some (py "secret");
     ver4.TEAMS_WEBHOOK_URL := Some (py "https://teams.example/hook");
     ver4.CALLBACK_BASE_URL := Some (py "https://fn.example") |}.

(** Every call to the outside goes through; no SOP is stored. *)
Definition calm (advice : pystr) : ver4.world :=
  {| ver4.sop_reply := Ok JNull;
     ver4.ai_reply := Ok (JStr advice);
     ver4.connect_reply := Ok tt;
     ver4.exec_reply := fun _ _ => Ok tt;
     ver4.teams_reply := Ok tt |}.

(** Advice with one line that passes the sudo test, between two that do
    not. *)
Definition restart_nginx : pystr := py "sudo systemctl restart nginx".

Definition advice_restart : pystr :=
  py "The worker pool is exhausted." ++ NL ++ restart_nginx ++ NL
  ++ py "Do something risky" ++ NL.

Definition advice_prose : pystr :=
  py "Restart the service." ++ NL ++ py "Then check the logs.".

Definition approval_fields (decision : list (pystr * json)) (advice : pystr)
    : list (pystr * json) :=
  decision
  ++ [ o_str "incident" (py "disk-full");
       o_str "description" (py "root partition at 98%");
       o_str "ai_solution" advice ].

Definition approval (decision : list (pystr * json)) (advice : pystr)
    : json :=
  JObj (approval_fields decision advice).

Definition alerts : json :=
  JObj [ o_json "alerts"
           (JArr [JObj [ o_json "labels"
                           (JObj [o_str "alertname" (py "disk-full")]);
                         o_json "annotations"
                           (JObj [o_str "description"
                                    (py "root partition at 98%")]) ]]) ].

(** A stored procedure is found. *)
Definition vetted_commands : list json :=
  [JStr (py "df -h"); JStr (py "journalctl --vacuum-size=200M")].

Definition with_sop : ver4.world :=
  {| ver4.sop_reply := Ok (JObj [o_json "commands" (JArr vetted_commands)]);
     ver4.ai_reply := Ok (JStr []);
     ver4.connect_reply := Ok tt;
     ver4.exec_reply := fun _ _ => Ok tt;
     ver4.teams_reply := Ok tt |}.

(** The session opens; the command [bad] is refused. *)
Definition refusing (bad : pystr) : ver4.world :=
  {| ver4.sop_reply := Ok JNull;
     ver4.ai_reply := Ok (JStr []);
     ver4.connect_reply := Ok tt;
     ver4.exec_reply :=
       fun _ cmd =>
         match cmd with
         | JStr c => if pystr_eqb c bad
                     then Raise (Exn "SSHException" (py "channel closed"))
                     else Ok tt
         | _ => Ok tt
         end;
     ver4.teams_reply := Ok tt |}.

Definition stop_nginx : pystr := py "sudo systemctl stop nginx".
Definition fsck : pystr := py "sudo fsck /dev/sdb1".
Definition start_nginx : pystr := py "sudo systemctl start nginx".

Definition advice_three : pystr :=
  stop_nginx ++ NL ++ fsck ++ NL ++ start_nginx.

(** ver2 *)

Definition E2 : ver2.environ :=
  {| ver2.OPENAI_MODEL := None;
     ver2.VM_HOST := Some (py "10.0.0.4");
     ver2.VM_USER := Some (py "ops");
     ver2.VM_PASSWORD := Some (py "secret");
     ver2.CALLBACK_BASE_URL := Some (py "https://fn.example");
     ver2.TEAMS_WEBHOOK_URL := Some (py "https://teams.example/hook") |}.

Definition found_sop : list (pystr * json) :=
  [ o_json "found" (JBool true);
    o_json "sop"
      (JObj [o_json "plan"
               (JArr [JObj [o_str "cmd" (py "df -h")];
                      JObj [o_str "cmd" (py "du -sh /var/log")]])]) ].

(** The SOP is found; the SSH session cannot be opened. *)
Definition unreachable : ver2.world :=
  {| ver2.lookup_reply := Ok (JObj found_sop);
     ver2.ai_reply := Ok (JStr []);
     ver2.connect_reply := Raise (Exn "TimeoutError" (py "timed out"));
     ver2.exec_reply := fun _ _ => Ok ([], []);
     ver2.teams_reply := Ok tt |}.

(** No SOP is stored; the advisor answers. *)
Definition no_sop : ver2.world :=
  {| ver2.lookup_reply := Ok (JObj [o_json "found" (JBool false)]);
     ver2.ai_reply := Ok (JStr (py "Free some space."));
     ver2.connect_reply := Ok tt;
     ver2.exec_reply := fun _ _ => Ok ([], []);
     ver2.teams_reply := Ok tt |}.

(** Every command prints its own text and nothing on stderr. *)
Definition echoing : ver2.world :=
  {| ver2.lookup_reply := Ok (JObj found_sop);
     ver2.ai_reply := Ok (JStr []);
     ver2.connect_reply := Ok tt;
     ver2.exec_reply := fun _ c => Ok (match c with JStr t => t | _ => [] end,
                                       []);
     ver2.teams_reply := Ok tt |}.

Definition no_password : ver2.environ :=
  {| ver2.OPENAI_MODEL := None;
     ver2.VM_HOST := Some (py "10.0.0.4");
     ver2.VM_USER := Some (py "ops");
     ver2.VM_PASSWORD := None;
     ver2.CALLBACK_BASE_URL := Some (py "https://fn.example");
     ver2.TEAMS_WEBHOOK_URL := Some (py "https://teams.example/hook") |}.

Definition investigate : list (pystr * json) :=
  [ o_str "incident" (py "disk-full");
    o_str "description" (py "root partition at 98%") ].

Definition E5 : ver5.environ :=
  {| ver5.TEAMS_WEBHOOK_URL := Some (py "https://teams.example/hook");
     ver5.CALLBACK_BASE_URL := Some (py "https://fn.example") |}.

(** The lookup finds the procedure of [found_sop]. *)
Definition filed : ver5.world :=
  {| ver5.lookup_reply := Ok (JObj found_sop);
     ver5.teams_reply := Ok tt |}.

(** The lookup finds nothing. *)
Definition unfiled : ver5.world :=
  {| ver5.lookup_reply := Ok (JObj [o_json "found" (JBool false)]);
     ver5.teams_reply := Ok tt |}.

End Sample.

(** * Properties *)

(** ** The monad *)

Lemma bind_ok {S A B} (m : M S A) (k : A -> M S B) s s' a :
  m s = (s', Ok a) -> bind m k s = k a s'.
Proof. intros H. unfold bind. now rewrite H. Qed.

Lemma bind_raise {S A B} (m : M S A) (k : A -> M S B) s s' e :
  m s = (s', Raise e) -> bind m k s = (s', Raise e).
Proof. intros H. unfold bind. now rewrite H. Qed.

Lemma pystr_eqb_eq a b : pystr_eqb a b = true <-> a = b.
Proof. unfold pystr_eqb. apply bool_decide_eq_true. Qed.

Lemma pystr_eqb_refl a : pystr_eqb a a = true.
Proof. now apply pystr_eqb_eq. Qed.

(** ** finaleditionjan14: what each handler does to FIX_STORE *)

Section Fix_store.
Import finaleditionjan14.
Context (B : builtins) (E : environ).

Lemma execute_store w commands s :
  FIX_STORE (fst (execute w commands s)) = FIX_STORE s.
Proof.
  unfold execute, bind, lift, emit, modify, ret.
  destruct (token w) as [tok|e]; cbn; [|reflexivity].
  destruct (run_reply w) as [[code text]|e]; cbn; [|reflexivity].
  now destruct (negb _).
Qed.

Lemma guarded_execute_store w commands s :
  FIX_STORE (fst (try_except (execute w commands) on_exception s))
  = FIX_STORE s.
Proof.
  unfold try_except.
  pose proof (execute_store w commands s) as H.
  destruct (execute w commands s) as [s' [r|e]]; cbn in *; [exact H|].
  now rewrite <- H.
Qed.

(** A reject is answered at once: nothing is read, nothing is called. *)
Lemma teams_action_reject w params s :
  params_get params (py "action") = Some (py "reject") ->
  teams_action w params s = (s, Ok fix_rejected).
Proof.
  intros H. unfold teams_action, try_except. rewrite H.
  now rewrite bool_decide_eq_true_2.
Qed.

Lemma teams_action_invalid w params s :
  params_get params (py "action") <> Some (py "reject") ->
  params_get params (py "action") <> Some (py "run_fix") ->
  teams_action w params s = (s, Ok invalid_action).
Proof.
  intros H1 H2. unfold teams_action, try_except.
  rewrite bool_decide_eq_false_2 by assumption.
  now rewrite bool_decide_eq_false_2 by assumption.
Qed.

Lemma run_fix_not_reject (action : option pystr) :
  action = Some (py "run_fix") -> action <> Some (py "reject").
Proof. intros ->. intros H. now vm_compute in H. Qed.

Lemma teams_action_not_found w params s :
  params_get params (py "action") = Some (py "run_fix") ->
  falsy (params_get params (py "fix_id"))
    || negb (contains (FIX_STORE s) (params_get params (py "fix_id"))) = true ->
  teams_action w params s = (s, Ok fix_not_found).
Proof.
  intros Ha Hf. unfold teams_action, try_except.
  rewrite (bool_decide_eq_false_2 _ (run_fix_not_reject _ Ha)).
  rewrite (bool_decide_eq_true_2 _ Ha). cbn [negb].
  unfold bind, get. now rewrite Hf.
Qed.

Lemma pop_present fix_id commands s :
  FIX_STORE s !! fix_id = Some commands ->
  pop (Some fix_id) s = (set_store (delete fix_id) s, Ok commands).
Proof. intros H. unfold pop, bind, get. now rewrite H. Qed.

Lemma pop_absent fix_id s :
  FIX_STORE s !! fix_id = None ->
  pop (Some fix_id) s = (s, Raise (KeyError fix_id)).
Proof. intros H. unfold pop, bind, get. now rewrite H. Qed.

Lemma teams_action_found w params fix_id commands s :
  run_fix_for fix_id params ->
  fix_id <> [] ->
  FIX_STORE s !! fix_id = Some commands ->
  teams_action w params s
  = try_except (execute w commands) on_exception
      (set_store (delete fix_id) s).
Proof.
  intros [Ha Hi] Hne Hs. unfold teams_action.
  rewrite (bool_decide_eq_false_2 _ (run_fix_not_reject _ Ha)).
  rewrite (bool_decide_eq_true_2 _ Ha). cbn [negb]. rewrite Hi.
  unfold try_except at 1. unfold bind at 1. unfold get at 1.
  assert (Hc : falsy (Some fix_id)
               || negb (contains (FIX_STORE s) (Some fix_id)) = false).
  { destruct fix_id; [congruence|]. cbn.
    rewrite bool_decide_eq_true_2; [reflexivity|]. now rewrite Hs. }
  rewrite Hc. rewrite (bind_ok _ _ _ _ _ (pop_present _ _ _ Hs)).
  reflexivity.
Qed.

(** [teams_action] leaves FIX_STORE as it is or deletes the id it was
    asked to run. *)
Lemma teams_action_store w params s :
  FIX_STORE (fst (teams_action w params s)) = FIX_STORE s
  \/ exists fix_id, run_fix_for fix_id params
       /\ FIX_STORE (fst (teams_action w params s))
          = delete fix_id (FIX_STORE s).
Proof.
  destruct (decide (params_get params (py "action") = Some (py "reject")))
    as [Hr|Hr].
  { left. now rewrite teams_action_reject. }
  destruct (decide (params_get params (py "action") = Some (py "run_fix")))
    as [Ha|Ha].
  2:{ left. now rewrite teams_action_invalid. }
  destruct (falsy (params_get params (py "fix_id"))
            || negb (contains (FIX_STORE s) (params_get params (py "fix_id"))))
    eqn:Hf.
  { left. now rewrite teams_action_not_found. }
  apply orb_false_iff in Hf as [Hf1 Hf2].
  destruct (params_get params (py "fix_id")) as [fix_id|] eqn:Hi;
    [|discriminate].
  apply negb_false_iff, bool_decide_eq_true in Hf2 as [commands Hs].
  right. exists fix_id. split; [now split|].
  rewrite (teams_action_found w params fix_id commands); try easy.
  - now rewrite guarded_execute_store.
  - intros ->. discriminate.
Qed.

End Fix_store.

(** ** Computations that only read *)

Lemma pure_ret {S A} (a : A) : pure (@ret S A a).
Proof. now intros s. Qed.

Lemma pure_raise {S A} e : pure (@raise S A e).
Proof. now intros s. Qed.

Lemma pure_bind {S A B} (m : M S A) (k : A -> M S B) :
  pure m -> (forall a, pure (k a)) -> pure (bind m k).
Proof.
  intros Hm Hk s. unfold bind. specialize (Hm s).
  destruct (m s) as [s' [a|e]]; cbn in *; subst; [apply Hk|reflexivity].
Qed.

Lemma pure_dict_get {S} v k d : pure (@dict_get S v k d).
Proof. destruct v; intros st; reflexivity. Qed.

Lemma pure_getitem {S} v k : pure (@getitem S v k).
Proof.
  destruct v; intros st; try reflexivity.
  cbn. now destruct (assoc k members).
Qed.

Lemma pure_get_json {S} j : pure (@get_json S j).
Proof. destruct j; intros s; reflexivity. Qed.

Lemma pure_run {S A} (m : M S A) s : pure m -> m s = (s, snd (m s)).
Proof. intros H. specialize (H s). destruct (m s); cbn in *. now subst. Qed.

Create HintDb pure.

#[local] Hint Resolve pure_ret pure_raise pure_dict_get pure_getitem
  pure_get_json : pure.

Ltac pure_steps :=
  repeat (first [ apply pure_bind; [|intros ?] | solve [auto with pure] ]).

Section Alert_ingest.
Import finaleditionjan14.
Context (B : builtins) (E : environ).

Lemma pure_read_alert data : pure (read_alert data).
Proof. unfold read_alert. pure_steps. Qed.

Lemma send_teams_store w card s :
  FIX_STORE (fst (send_teams E w card s)) = FIX_STORE s.
Proof.
  unfold send_teams.
  now destruct (TEAMS_WEBHOOK_URL E) as [[|c url]|].
Qed.

Lemma alert_ingest_accepted w data f s :
  read_alert data s = (s, Ok f) ->
  accepted f = true ->
  alert_ingest B E w (Some data) s
  = bind
      (send_teams E w
         (approval_card B E (alertname f) (instance f) (summary f)
            (explanation f) (list_items (commands f)) (uuid4 w)))
      (fun _ => ret (created (uuid4 w)))
      (set_store (insert (uuid4 w) (list_items (commands f))) s).
Proof.
  intros Hr Ha. apply andb_true_iff in Ha as [Hall Hl].
  unfold alert_ingest. rewrite (bind_ok _ _ _ _ _ Hr). rewrite Hall.
  cbn [negb]. rewrite Hl. cbn [negb orb].
  assert (Ht : truthy (commands f) = true).
  { cbn in Hall. repeat (apply andb_true_iff in Hall as [? Hall]).
    assumption. }
  rewrite Ht. reflexivity.
Qed.

Lemma alert_ingest_refused w data f s :
  read_alert data s = (s, Ok f) ->
  accepted f = false ->
  alert_ingest B E w (Some data) s
  = (s, Ok (if forallb truthy
                 [alertname f; summary f; explanation f; commands f]
            then bad_request "Commands must be a non-empty list"
            else bad_request "Missing required fields")).
Proof.
  intros Hr Ha. unfold alert_ingest. rewrite (bind_ok _ _ _ _ _ Hr).
  unfold accepted in Ha.
  destruct (forallb truthy _); [|reflexivity].
  cbn in Ha. rewrite Ha. reflexivity.
Qed.

Lemma alert_ingest_store w j s :
  FIX_STORE (fst (alert_ingest B E w j s)) = FIX_STORE s
  \/ exists cmds,
       FIX_STORE (fst (alert_ingest B E w j s))
       = <[uuid4 w := cmds]> (FIX_STORE s).
Proof.
  destruct j as [data|]; [|now left].
  pose proof (pure_run _ s (pure_read_alert data)) as Hr.
  destruct (snd (read_alert data s)) as [f|e] eqn:Hsnd.
  - destruct (accepted f) eqn:Ha.
    + right. exists (list_items (commands f)).
      rewrite (alert_ingest_accepted w data f s Hr Ha).
      unfold bind.
      pose proof (send_teams_store w
        (approval_card B E (alertname f) (instance f) (summary f)
           (explanation f) (list_items (commands f)) (uuid4 w))
        (set_store (insert (uuid4 w) (list_items (commands f))) s)) as Hs.
      destruct (send_teams _ _ _ _) as [s' [[]|e]]; cbn in *; exact Hs.
    + left. now rewrite (alert_ingest_refused w data f s Hr Ha).
  - left. unfold alert_ingest. now rewrite (bind_raise _ _ _ _ _ Hr).
Qed.

End Alert_ingest.

(** ** finaleditionjan14: deliveries handled one after the other *)

Section Deliveries.
Import finaleditionjan14.
Context (B : builtins) (E : environ).

Lemma handle_absent fix_id r s :
  draws fix_id r = false ->
  FIX_STORE s !! fix_id = None ->
  FIX_STORE (fst (handle B E r s)) !! fix_id = None.
Proof.
  intros Hd Hs. destruct r as [w j|w params]; cbn [handle].
  - destruct (alert_ingest_store B E w j s) as [->|[cmds ->]]; [exact Hs|].
    cbn in Hd. rewrite lookup_insert_ne; [exact Hs|].
    intros Heq. apply pystr_eqb_eq in Heq. congruence.
  - destruct (teams_action_store w params s) as [->|[k [_ ->]]]; [exact Hs|].
    rewrite lookup_delete. now case_decide.
Qed.

(** An id that is not in FIX_STORE stays out of it as long as [uuid4] does
    not draw it again. *)
Lemma serve_absent fix_id rs : forall s,
  forallb (fun r => negb (draws fix_id r)) rs = true ->
  FIX_STORE s !! fix_id = None ->
  FIX_STORE (serve B E rs s) !! fix_id = None.
Proof.
  induction rs as [|r rs IH]; intros s Hrs Hs; [exact Hs|].
  cbn in Hrs. apply andb_true_iff in Hrs as [Hr Hrs].
  cbn [serve]. apply IH; [exact Hrs|].
  apply handle_absent; [|exact Hs]. now apply negb_true_iff.
Qed.

Lemma handle_kept fix_id commands r s :
  draws fix_id r || approves fix_id r = false ->
  FIX_STORE s !! fix_id = Some commands ->
  FIX_STORE (fst (handle B E r s)) !! fix_id = Some commands.
Proof.
  intros Hd Hs. apply orb_false_iff in Hd as [Hd Ha].
  destruct r as [w j|w params]; cbn [handle].
  - destruct (alert_ingest_store B E w j s) as [->|[cmds ->]]; [exact Hs|].
    cbn in Hd. rewrite lookup_insert_ne; [exact Hs|].
    intros Heq. apply pystr_eqb_eq in Heq. congruence.
  - destruct (teams_action_store w params s) as [->|[k [[Hk1 Hk2] ->]]];
      [exact Hs|].
    rewrite lookup_delete_ne; [exact Hs|]. intros ->.
    cbn in Ha. rewrite !bool_decide_eq_true_2 in Ha by assumption.
    discriminate.
Qed.

(** An entry stays in FIX_STORE until a [run_fix] names its id, unless
    [uuid4] draws the id again. *)
Lemma serve_kept fix_id commands rs : forall s,
  forallb (fun r => negb (draws fix_id r || approves fix_id r)) rs = true ->
  FIX_STORE s !! fix_id = Some commands ->
  FIX_STORE (serve B E rs s) !! fix_id = Some commands.
Proof.
  induction rs as [|r rs IH]; intros s Hrs Hs; [exact Hs|].
  cbn in Hrs. apply andb_true_iff in Hrs as [Hr Hrs].
  cbn [serve]. apply IH; [exact Hrs|].
  apply handle_kept; [|exact Hs]. now apply negb_true_iff.
Qed.

Lemma scripts_run_app es1 es2 :
  scripts_run (es1 ++ es2) = scripts_run es1 ++ scripts_run es2.
Proof.
  induction es1 as [|e es1 IH]; [reflexivity|].
  destruct e; cbn [scripts_run app]; try exact IH.
  destruct (pystr_eqb url run_command_url); [|exact IH].
  destruct payload; try exact IH.
  destruct (assoc (py "script") members); [|exact IH].
  cbn [app]. now rewrite IH.
Qed.

Lemma cards_posted_app es1 es2 :
  cards_posted (es1 ++ es2) = cards_posted es1 ++ cards_posted es2.
Proof.
  induction es1 as [|e es1 IH]; [reflexivity|].
  destruct e; cbn [cards_posted app]; try exact IH.
  destruct (pystr_eqb url run_command_url); [exact IH|].
  cbn [app]. now rewrite IH.
Qed.

(** With a token, [execute] posts the commands it was given to runCommand,
    once, and then only logs. *)
Lemma execute_posts w commands tok s :
  token w = Ok tok ->
  exists logs,
    calls (fst (try_except (execute w commands) on_exception s))
    = calls s
      ++ [ get_token (py "https://management.azure.com/.default");
           requests_post run_command_url (bearer tok)
             (run_command_payload commands) 60 ]
      ++ logs
    /\ scripts_run logs = [] /\ cards_posted logs = [].
Proof.
  intros Ht. unfold try_except, execute, bind, lift, emit, modify, ret.
  rewrite Ht. cbn.
  destruct (run_reply w) as [[code text]|e]; cbn.
  - exists [ logging_warning (py "RunCommand status=" ++ str_of_Z code);
             logging_warning text ].
    destruct (negb _); cbn; rewrite <- !app_assoc; now repeat split.
  - exists [logging_exception (py "teams_action failed")].
    rewrite <- !app_assoc; now repeat split.
Qed.

(** The scripts [execute] posts: the commands it was given when it has a
    token, none when the credential call raises. *)
Lemma execute_scripts w commands s :
  scripts_run (calls (fst (try_except (execute w commands) on_exception s)))
  = scripts_run (calls s)
    ++ match token w with
       | Ok _ => [JArr commands]
       | Raise _ => []
       end.
Proof.
  destruct (token w) as [tok|e] eqn:Ht.
  - destruct (execute_posts w commands tok s Ht) as (logs & -> & Hlogs & _).
    rewrite !scripts_run_app, Hlogs, app_nil_r. now f_equal.
  - unfold try_except, execute, bind, lift, emit, modify. rewrite Ht.
    cbn [fst calls on_exception]. unfold on_exception, bind, emit, modify, ret.
    cbn [fst calls]. rewrite !scripts_run_app. cbn [scripts_run].
    now rewrite !app_nil_r.
Qed.

End Deliveries.

(** ** finaleditionjan14: consumption of an entry *)

Section Consumption.
Import finaleditionjan14.
Context (B : builtins) (E : environ).

(** Deliveries handled one after the other.  When [fix_id] holds
    [commands], the first [run_fix] delivery for it pops exactly [commands]
    and goes on to execute them with the entry already removed; after that,
    whatever is delivered in between (short of [uuid4] drawing the same id
    again), every later [run_fix] for the id is answered "not found" and
    changes nothing: no call is made, nothing is executed. *)
Lemma run_fix_after_consumption s fix_id commands w1 p1 rs w2 p2 :
  FIX_STORE s !! fix_id = Some commands ->
  fix_id <> [] ->
  run_fix_for fix_id p1 ->
  run_fix_for fix_id p2 ->
  forallb (fun r => negb (draws fix_id r)) rs = true ->
  let s1 := fst (teams_action w1 p1 s) in
  let s2 := serve B E rs s1 in
  pop (Some fix_id) s = (set_store (delete fix_id) s, Ok commands)
  /\ teams_action w1 p1 s
     = try_except (execute w1 commands) on_exception
         (set_store (delete fix_id) s)
  /\ FIX_STORE s1 !! fix_id = None
  /\ teams_action w2 p2 s2 = (s2, Ok fix_not_found).
Proof.
  intros Hs Hne Hp1 Hp2 Hrs s1 s2.
  assert (H1 : FIX_STORE s1 !! fix_id = None).
  { subst s1. rewrite (teams_action_found w1 p1 fix_id commands s Hp1 Hne Hs).
    rewrite guarded_execute_store. cbn. apply lookup_delete_eq. }
  split; [now apply pop_present|].
  split; [now apply teams_action_found|].
  split; [exact H1|].
  destruct Hp2 as [Ha Hi]. apply teams_action_not_found; [exact Ha|].
  rewrite Hi. cbn [contains].
  rewrite bool_decide_eq_false_2; [apply orb_true_r|].
  subst s2. rewrite (serve_absent B E fix_id rs s1 Hrs H1).
  now intros [x Hx].
Qed.

End Consumption.

(** Two deliveries racing on one id.  Both passed the membership test of
    line 186 while the entry was there; their [pop]s then run one after the
    other.  The first executes the commands; the second raises [KeyError]
    inside the [try], is answered 500 and posts nothing. *)
Lemma racing_run_fix_single_winner s fix_id commands w1 w2 tok :
  finaleditionjan14.FIX_STORE s !! fix_id = Some commands ->
  fix_id <> [] ->
  finaleditionjan14.token w1 = Ok tok ->
  let s1 := fst (finaleditionjan14.pop_and_execute w1 (Some fix_id) s) in
  let s2 := fst (finaleditionjan14.pop_and_execute w2 (Some fix_id) s1) in
  finaleditionjan14.check (Some fix_id) s = true
  /\ finaleditionjan14.scripts_run (finaleditionjan14.calls s1)
     = finaleditionjan14.scripts_run (finaleditionjan14.calls s)
       ++ [JArr commands]
  /\ finaleditionjan14.pop_and_execute w2 (Some fix_id) s1
     = finaleditionjan14.on_exception (KeyError fix_id) s1
  /\ finaleditionjan14.scripts_run (finaleditionjan14.calls s2)
     = finaleditionjan14.scripts_run (finaleditionjan14.calls s1).
Proof.
  intros Hs Hne Ht s1 s2.
  assert (Hrun : finaleditionjan14.pop_and_execute w1 (Some fix_id) s
                 = try_except (finaleditionjan14.execute w1 commands)
                     finaleditionjan14.on_exception
                     (finaleditionjan14.set_store (delete fix_id) s)).
  { unfold finaleditionjan14.pop_and_execute. unfold try_except at 1.
    now rewrite (bind_ok _ _ _ _ _ (pop_present _ _ _ Hs)). }
  assert (H1 : finaleditionjan14.FIX_STORE s1 !! fix_id = None).
  { subst s1. rewrite Hrun, guarded_execute_store. cbn.
    apply lookup_delete_eq. }
  assert (Hlose : finaleditionjan14.pop_and_execute w2 (Some fix_id) s1
                  = finaleditionjan14.on_exception (KeyError fix_id) s1).
  { unfold finaleditionjan14.pop_and_execute. unfold try_except.
    now rewrite (bind_raise _ _ _ _ _ (pop_absent _ _ H1)). }
  split.
  { unfold finaleditionjan14.check. destruct fix_id; [congruence|]. cbn.
    rewrite bool_decide_eq_true_2; [reflexivity|]. now rewrite Hs. }
  split.
  { subst s1. rewrite Hrun.
    destruct (execute_posts w1 commands tok
                (finaleditionjan14.set_store (delete fix_id) s) Ht)
      as (logs & -> & Hlogs & _).
    rewrite !scripts_run_app, Hlogs, app_nil_r.
    cbn [finaleditionjan14.calls finaleditionjan14.set_store].
    now f_equal. }
  split; [exact Hlose|].
  subst s2. rewrite Hlose. cbn. now rewrite scripts_run_app, app_nil_r.
Qed.

(** [teams_action] for a [run_fix] is the membership test followed by the
    guarded [pop]. *)
Lemma teams_action_check_then_pop w params s :
  finaleditionjan14.params_get params (py "action") = Some (py "run_fix") ->
  finaleditionjan14.teams_action w params s
  = if finaleditionjan14.check
         (finaleditionjan14.params_get params (py "fix_id")) s
    then finaleditionjan14.pop_and_execute w
           (finaleditionjan14.params_get params (py "fix_id")) s
    else (s, Ok finaleditionjan14.fix_not_found).
Proof.
  intros Ha. unfold finaleditionjan14.check.
  destruct (falsy _ || negb _) eqn:Hf; cbn [negb].
  - now apply teams_action_not_found.
  - unfold finaleditionjan14.teams_action.
    rewrite (bool_decide_eq_false_2 _ (run_fix_not_reject _ Ha)).
    rewrite (bool_decide_eq_true_2 _ Ha). cbn [negb].
    unfold try_except at 1, bind at 1, get at 1. now rewrite Hf.
Qed.

(** ** finaleditionjan14: deliveries racing on one id *)

Section Racing.
Import finaleditionjan14.

Lemma check_present fix_id commands s :
  fix_id <> [] -> FIX_STORE s !! fix_id = Some commands ->
  check (Some fix_id) s = true.
Proof.
  intros Hne Hs. unfold check. destruct fix_id; [congruence|]. cbn.
  rewrite bool_decide_eq_true_2; [reflexivity|]. now rewrite Hs.
Qed.

Lemma check_absent fix_id s :
  FIX_STORE s !! fix_id = None -> check (Some fix_id) s = false.
Proof.
  intros Hs. unfold check. destruct fix_id; [reflexivity|]. cbn.
  rewrite bool_decide_eq_false_2; [reflexivity|]. rewrite Hs. now intros [x Hx].
Qed.

Lemma pop_and_execute_present w fix_id commands s :
  FIX_STORE s !! fix_id = Some commands ->
  pop_and_execute w (Some fix_id) s
  = try_except (execute w commands) on_exception
      (set_store (delete fix_id) s).
Proof.
  intros Hs. unfold pop_and_execute. unfold try_except at 1.
  now rewrite (bind_ok _ _ _ _ _ (pop_present _ _ _ Hs)).
Qed.

Lemma pop_and_execute_absent w fix_id s :
  FIX_STORE s !! fix_id = None ->
  pop_and_execute w (Some fix_id) s = on_exception (KeyError fix_id) s.
Proof.
  intros Hs. unfold pop_and_execute, try_except.
  now rewrite (bind_raise _ _ _ _ _ (pop_absent _ _ Hs)).
Qed.

(** The [except] clause logs and answers; it touches neither the store nor
    the executor. *)
Lemma on_exception_run e s :
  snd (on_exception e s) = Ok (error_page e)
  /\ FIX_STORE (fst (on_exception e s)) = FIX_STORE s
  /\ scripts_run (calls (fst (on_exception e s))) = scripts_run (calls s).
Proof.
  unfold on_exception, bind, emit, modify, ret. cbn.
  now rewrite scripts_run_app, app_nil_r.
Qed.

Lemma turn_consumed_once fix_id commands base i c :
  fix_id <> [] ->
  consumed_once fix_id commands base c ->
  consumed_once fix_id commands base (turn (Some fix_id) i c).
Proof.
  intros Hne Hc. destruct c as [s fs]. unfold turn. cbn [fst snd].
  destruct (fs !! i) as [[w f]|] eqn:Hi; [|exact Hc].
  destruct Hc as [(Hs & Hb & Hidle)|(Hs & i0 & w0 & f0 & Hi0 & Hwon & Hb & Hrest)];
    cbn [fst snd] in *.
  - pose proof (proj1 (Forall_lookup _ _) Hidle i (w, f) Hi) as Hf.
    destruct Hf as [Hf|Hf]; cbn [snd] in Hf; subst f; cbn [advance].
    + rewrite (check_present fix_id commands s Hne Hs). cbn [fst snd].
      left. split; [exact Hs|]. split; [exact Hb|].
      apply Forall_insert; [exact Hidle|now right].
    + rewrite (pop_and_execute_present w fix_id commands s Hs). cbn zeta.
      right. cbn [fst snd]. split.
      { rewrite guarded_execute_store. cbn. apply lookup_delete_eq. }
      exists i, w, (Answered (snd (try_except (execute w commands) on_exception
                                     (set_store (delete fix_id) s)))).
      cbn [fst snd]. split.
      { apply list_lookup_insert_eq. now apply lookup_lt_Some in Hi. }
      split.
      { exists (set_store (delete fix_id) s). split; [|reflexivity].
        cbn. apply lookup_delete_eq. }
      split.
      { rewrite execute_scripts. cbn [calls set_store]. now rewrite Hb. }
      intros j x Hj Hx. rewrite list_lookup_insert_ne in Hx by congruence.
      left. exact (proj1 (Forall_lookup _ _) Hidle j x Hx).
  - destruct (decide (i = i0)) as [->|Hii].
    + rewrite Hi0 in Hi. injection Hi as <- <-.
      destruct Hwon as (s0 & Hs0 & ->). cbn [advance fst snd].
      rewrite (list_insert_id _ _ _ Hi0).
      right. split; [exact Hs|].
      exists i0, w0,
        (Answered (snd (try_except (execute w0 commands) on_exception s0))).
      split; [exact Hi0|]. split; [now exists s0|]. now split.
    + pose proof (Hrest i (w, f) Hii Hi) as Hf. cbn [snd] in Hf.
      assert (Hkeep : <[i := (w, f)]> fs !! i0 = Some (w0, f0))
        by now rewrite list_lookup_insert_ne.
      destruct Hf as [[Hf|Hf]|[Hf|Hf]]; subst f; cbn [advance].
      * rewrite (check_absent fix_id s Hs). cbn [fst snd].
        right. cbn [fst snd]. split; [exact Hs|]. exists i0, w0, f0.
        split; [now rewrite list_lookup_insert_ne|].
        split; [exact Hwon|]. split; [exact Hb|].
        intros j x Hj Hx.
        apply list_lookup_insert_Some in Hx as [(<- & <- & _)|[Hji Hx]].
        -- right. now left.
        -- exact (Hrest j x Hj Hx).
      * rewrite (pop_and_execute_absent w fix_id s Hs). cbn zeta.
        destruct (on_exception_run (KeyError fix_id) s) as (Hr & Hst & Hsc).
        right. cbn [fst snd]. split; [now rewrite Hst|]. exists i0, w0, f0.
        split; [now rewrite list_lookup_insert_ne|].
        split; [exact Hwon|]. split; [now rewrite Hsc|].
        intros j x Hj Hx.
        apply list_lookup_insert_Some in Hx as [(<- & <- & _)|[Hji Hx]].
        -- right. right. cbn [snd]. now rewrite Hr.
        -- exact (Hrest j x Hj Hx).
      * cbn [fst snd]. rewrite (list_insert_id _ _ _ Hi).
        right. cbn [fst snd]. split; [exact Hs|]. exists i0, w0, f0. now repeat split.
      * cbn [fst snd]. rewrite (list_insert_id _ _ _ Hi).
        right. cbn [fst snd]. split; [exact Hs|]. exists i0, w0, f0. now repeat split.
Qed.

Lemma turn_callers fix_id i c :
  map fst (snd (turn fix_id i c)) = map fst (snd c).
Proof.
  destruct c as [s fs]. unfold turn. cbn [fst snd].
  destruct (fs !! i) as [[w f]|] eqn:Hi; [|reflexivity].
  cbn [snd]. rewrite list_fmap_insert. cbn [fst].
  apply list_insert_id. rewrite list_lookup_fmap, Hi. reflexivity.
Qed.

Lemma interleave_consumed_once fix_id commands base schedule : forall c,
  fix_id <> [] ->
  consumed_once fix_id commands base c ->
  consumed_once fix_id commands base (interleave (Some fix_id) schedule c)
  /\ map fst (snd (interleave (Some fix_id) schedule c)) = map fst (snd c).
Proof.
  induction schedule as [|i schedule IH]; intros c Hne Hc; [now split|].
  cbn [interleave].
  destruct (IH (turn (Some fix_id) i c) Hne
              (turn_consumed_once fix_id commands base i c Hne Hc))
    as [Hinv Hmap].
  split; [exact Hinv|]. rewrite Hmap. apply turn_callers.
Qed.

(** C1, as the code has it.  Deliveries of [run_fix] for one id, their
    steps interleaved in any order: the membership test of line 186 and the
    [pop] of line 193 are two steps, so consumption is not atomic, yet the
    entry is consumed at most once.  As long as the entry is there no
    delivery has been answered; once it is gone exactly one delivery has
    popped the commands and executed them, with the entry removed, and every
    other delivery has executed nothing.  A delivery that takes the
    membership test after the [pop] of the winner is answered "not found"
    with the state as it was; one that passed the test before it fails in
    its own [pop] with [KeyError] and is answered by the [except] clause,
    the error page with status 500.  A delivery that takes its two steps
    back to back is [teams_action] itself. *)
Theorem consume_at_most_once s fix_id commands ws schedule :
  FIX_STORE s !! fix_id = Some commands ->
  fix_id <> [] ->
  let final := interleave (Some fix_id) schedule
                 (s, map (fun w => (w, Arrived)) ws) in
  consumed_once fix_id commands (scripts_run (calls s)) final
  /\ map fst (snd final) = ws
  /\ (forall i w r, snd final !! i = Some (w, Answered r) ->
        FIX_STORE (fst final) !! fix_id = None)
  /\ (forall w s',
        FIX_STORE s' !! fix_id = None ->
        advance (Some fix_id) w Arrived s' = (s', Answered (Ok fix_not_found))
        /\ snd (advance (Some fix_id) w Passed s')
           = Answered (Ok (error_page (KeyError fix_id)))
        /\ scripts_run (calls (fst (advance (Some fix_id) w Passed s')))
           = scripts_run (calls s')
        /\ error_page (KeyError fix_id) <> fix_not_found)
  /\ (forall w p s',
        params_get p (py "action") = Some (py "run_fix") ->
        params_get p (py "fix_id") = Some fix_id ->
        let first := advance (Some fix_id) w Arrived s' in
        advance (Some fix_id) w (snd first) (fst first)
        = (fst (teams_action w p s'), Answered (snd (teams_action w p s')))).
Proof.
  intros Hs Hne final.
  assert (Hstart : consumed_once fix_id commands (scripts_run (calls s))
                     (s, map (fun w => (w, Arrived)) ws)).
  { left. cbn [fst snd]. split; [exact Hs|]. split; [reflexivity|].
    apply Forall_fmap, Forall_true. intros w. now left. }
  destruct (interleave_consumed_once fix_id commands (scripts_run (calls s))
              schedule _ Hne Hstart) as [Hinv Hmap].
  fold final in Hinv, Hmap.
  split; [exact Hinv|]. split.
  { rewrite Hmap. cbn [snd]. rewrite <- list_fmap_compose.
    apply list_fmap_id. }
  split.
  { intros i w r Hi. destruct Hinv as [(_ & _ & Hidle)|(Hgone & _)];
      [|exact Hgone].
    pose proof (proj1 (Forall_lookup _ _) Hidle i _ Hi) as [Hf|Hf];
      discriminate Hf. }
  split.
  { intros w s' Hs'. cbn [advance].
    rewrite (check_absent fix_id s' Hs'), (pop_and_execute_absent w _ _ Hs').
    destruct (on_exception_run (KeyError fix_id) s') as (Hr & _ & Hsc).
    cbn [fst snd]. rewrite Hr. repeat split; [exact Hsc|discriminate]. }
  intros w p s' Ha Hi first. subst first. cbn [advance].
  rewrite (teams_action_check_then_pop w p s' Ha), Hi.
  destruct (check (Some fix_id) s'); reflexivity.
Qed.

End Racing.

Lemma consume_at_most_once_witness :
  finaleditionjan14.consumed_once (py "id-1") Sample.echo_ab
    (finaleditionjan14.scripts_run
       (finaleditionjan14.calls (Sample.pending "id-1")))
    (finaleditionjan14.interleave (Some (py "id-1")) [0; 1; 0; 1]%nat
       (Sample.pending "id-1",
        map (fun w => (w, finaleditionjan14.Arrived))
          [Sample.azure 200; Sample.azure 202])).
Proof.
  refine (proj1 (consume_at_most_once (Sample.pending "id-1") (py "id-1")
                   Sample.echo_ab [Sample.azure 200; Sample.azure 202]
                   [0; 1; 0; 1]%nat eq_refl _)).
  discriminate.
Defined.

(** C1 as stated fails: of two deliveries that both passed the membership
    test before either reached the [pop], the second to pop does not
    observe "not found"; its [pop] raises [KeyError] and it is answered the
    error page, status 500.  It executes nothing: the one script posted is
    the winner's. *)
Lemma racing_loser_is_not_refused :
  let final :=
    finaleditionjan14.interleave (Some (py "id-1")) [0; 1; 0; 1]%nat
      (Sample.pending "id-1",
       [ (Sample.azure 200, finaleditionjan14.Arrived);
         (Sample.azure 202, finaleditionjan14.Arrived) ]) in
  snd final !! 1%nat
  = Some (Sample.azure 202,
          finaleditionjan14.Answered
            (Ok (finaleditionjan14.error_page (KeyError (py "id-1")))))
  /\ snd final !! 1%nat
     <> Some (Sample.azure 202,
              finaleditionjan14.Answered (Ok finaleditionjan14.fix_not_found))
  /\ status_code (finaleditionjan14.error_page (KeyError (py "id-1")))
     = 500%Z
  /\ finaleditionjan14.scripts_run (finaleditionjan14.calls (fst final))
     = [JArr Sample.echo_ab].
Proof.
  cbv zeta. split; [vm_compute; reflexivity|].
  split; [|split; [reflexivity|vm_compute; reflexivity]].
  intros H. vm_compute in H. discriminate H.
Qed.

Section Round_trip.
Import finaleditionjan14.
Context (B : builtins) (E : environ).

(** C2. Round trip of the command list.  A payload that [alert_ingest]
    accepts with the command list [cmds] stores [cmds] under the id drawn;
    whatever is delivered afterwards (short of a [run_fix] for that id or of
    [uuid4] drawing it again), a [run_fix] for the id posts to runCommand a
    payload whose script is [cmds], the same items in the same order, and
    posts no other script.  The one case in which it posts nothing is that
    of the credential call raising. *)
Theorem command_list_round_trip s w data f cmds rs wa pa :
  read_alert data s = (s, Ok f) ->
  accepted f = true ->
  commands f = JArr cmds ->
  uuid4 w <> [] ->
  forallb (fun r => negb (draws (uuid4 w) r || approves (uuid4 w) r)) rs
    = true ->
  run_fix_for (uuid4 w) pa ->
  let s1 := fst (alert_ingest B E w (Some data) s) in
  let s2 := serve B E rs s1 in
  let s3 := fst (teams_action wa pa s2) in
  cmds <> []
  /\ FIX_STORE s1 !! uuid4 w = Some cmds
  /\ (forall tok, token wa = Ok tok ->
      exists logs,
        calls s3
        = calls s2
          ++ [ get_token (py "https://management.azure.com/.default");
               requests_post run_command_url (bearer tok)
                 (run_command_payload cmds) 60 ]
          ++ logs
        /\ scripts_run logs = [])
  /\ scripts_run (calls s3)
     = scripts_run (calls s2)
       ++ match token wa with
          | Ok _ => [JArr cmds]
          | Raise _ => []
          end.
Proof.
  intros Hr Ha Hc Hne Hrs Hpa s1 s2 s3.
  assert (Hcmds : cmds <> []).
  { intros ->. unfold accepted in Ha. rewrite Hc in Ha. cbn in Ha.
    rewrite !andb_false_r in Ha. discriminate. }
  assert (H1 : FIX_STORE s1 !! uuid4 w = Some cmds).
  { subst s1. rewrite (alert_ingest_accepted B E w data f s Hr Ha).
    unfold bind.
    pose proof (send_teams_store E w
      (approval_card B E (alertname f) (instance f) (summary f)
         (explanation f) (list_items (commands f)) (uuid4 w))
      (set_store (insert (uuid4 w) (list_items (commands f))) s)) as Hst.
    destruct (send_teams _ _ _ _) as [s' [[]|e]]; cbn in *;
      rewrite Hst, Hc; apply lookup_insert_eq. }
  assert (H2 : FIX_STORE s2 !! uuid4 w = Some cmds).
  { subst s2. now apply serve_kept. }
  assert (H3 : s3 = fst (try_except (execute wa cmds) on_exception
                           (set_store (delete (uuid4 w)) s2))).
  { subst s3.
    now rewrite (teams_action_found wa pa (uuid4 w) cmds s2 Hpa Hne H2). }
  split; [exact Hcmds|]. split; [exact H1|]. split.
  - intros tok Ht. rewrite H3.
    destruct (execute_posts wa cmds tok (set_store (delete (uuid4 w)) s2) Ht)
      as (logs & Hcalls & Hlogs & _).
    exists logs. split; [exact Hcalls|exact Hlogs].
  - rewrite H3.
    exact (execute_scripts wa cmds (set_store (delete (uuid4 w)) s2)).
Qed.

End Round_trip.

Lemma command_list_round_trip_witness :
  let s := Sample.empty in
  let rs := [ finaleditionjan14.POST_alert_ingest (Sample.draw "id-2")
                (Some Sample.disk_full);
              finaleditionjan14.GET_teams_action (Sample.azure 200)
                (Sample.reject "id-1") ] in
  let s1 := fst (finaleditionjan14.alert_ingest Sample.B0 Sample.E0
                   (Sample.draw "id-1") (Some Sample.disk_full) s) in
  let s2 := finaleditionjan14.serve Sample.B0 Sample.E0 rs s1 in
  let s3 := fst (finaleditionjan14.teams_action (Sample.azure 200)
                   (Sample.run_fix "id-1") s2) in
  finaleditionjan14.read_alert Sample.disk_full s
    = (s, Ok Sample.fields_disk_full)
  /\ finaleditionjan14.scripts_run (finaleditionjan14.calls s3)
     = finaleditionjan14.scripts_run (finaleditionjan14.calls s2)
       ++ [JArr [JStr (py "echo a"); JStr (py "echo b")]].
Proof.
  intros s rs s1 s2 s3. split; [reflexivity|].
  refine (proj2 (proj2 (proj2
    (command_list_round_trip Sample.B0 Sample.E0 s (Sample.draw "id-1")
       Sample.disk_full Sample.fields_disk_full Sample.echo_ab rs
       (Sample.azure 200) (Sample.run_fix "id-1") _ _ _ _ _ _)))).
  - reflexivity.
  - reflexivity.
  - reflexivity.
  - discriminate.
  - vm_compute. reflexivity.
  - split; reflexivity.
Defined.

(** ** finaleditionjan14: decisions *)

Section Decisions.
Import finaleditionjan14.

(** C4, as the code has it.  A [run_fix] whose [fix_id] is missing, empty or
    not in FIX_STORE (never stored, or already consumed) is answered 400
    "Fix expired or not found", a response different from both answers that
    follow an execution, and the state is left as it was: nothing is called,
    nothing is executed.  A [reject] is answered "Fix rejected" with status
    200 before any id is looked up, also with the state left as it was. *)
Theorem unknown_fix_id_not_found w params s :
  (forall fix_id, params_get params (py "fix_id") = Some fix_id ->
                  fix_id <> [] -> FIX_STORE s !! fix_id = None) ->
  (params_get params (py "action") = Some (py "run_fix") ->
     teams_action w params s = (s, Ok fix_not_found))
  /\ (params_get params (py "action") = Some (py "reject") ->
        teams_action w params s = (s, Ok fix_rejected))
  /\ status_code fix_not_found = 400%Z
  /\ fix_not_found <> fix_executed
  /\ fix_not_found <> fix_failed
  /\ fix_not_found <> fix_rejected.
Proof.
  intros Hunknown. split; [|split; [|now repeat split]].
  - intros Ha. apply teams_action_not_found; [exact Ha|].
    destruct (params_get params (py "fix_id")) as [[|c fix_id]|] eqn:Hi;
      try reflexivity.
    cbn [falsy contains orb].
    rewrite bool_decide_eq_false_2; [reflexivity|].
    rewrite (Hunknown (c :: fix_id) eq_refl); [|discriminate].
    now intros [x Hx].
  - intros Ha. now apply teams_action_reject.
Qed.

(** C5, as the code has it.  A [reject] executes nothing and does not touch
    FIX_STORE: the handler answers "Fix rejected" and the state, the pending
    entries included, is what it was.  The callback of ver5 changes nothing
    either, whatever it is sent. *)
Theorem reject_changes_nothing w params s :
  params_get params (py "action") = Some (py "reject") ->
  teams_action w params s = (s, Ok fix_rejected)
  /\ (forall fix_id,
        FIX_STORE (fst (teams_action w params s)) !! fix_id
        = FIX_STORE s !! fix_id)
  /\ scripts_run (calls (fst (teams_action w params s)))
     = scripts_run (calls s)
  /\ (forall (S : Type) (req_json : option json) (st : S),
        fst (ver5.approval_callback req_json st) = st).
Proof.
  intros Ha. rewrite (teams_action_reject w params s Ha).
  repeat split.
  intros S req_json st. revert st.
  change (pure (@ver5.approval_callback S req_json)).
  unfold ver5.approval_callback. pure_steps.
Qed.

End Decisions.

Lemma unknown_fix_id_not_found_witness :
  finaleditionjan14.teams_action (Sample.azure 200) (Sample.run_fix "gone")
    (Sample.pending "id-1")
  = (Sample.pending "id-1", Ok finaleditionjan14.fix_not_found).
Proof.
  refine (proj1
    (unknown_fix_id_not_found (Sample.azure 200) (Sample.run_fix "gone")
       (Sample.pending "id-1") _) eq_refl).
  intros fix_id Hi _. injection Hi as <-. reflexivity.
Defined.

(** C4 as stated fails for a [reject]: sent with an id that is in no store,
    it is not refused but answered "Fix rejected", status 200. *)
Lemma reject_of_unknown_id_not_refused :
  finaleditionjan14.params_get (Sample.reject "gone") (py "fix_id")
    = Some (py "gone")
  /\ finaleditionjan14.FIX_STORE Sample.empty !! py "gone" = None
  /\ ~ finaleditionjan14.refuses_unknown (Sample.azure 200)
         (Sample.reject "gone") Sample.empty
  /\ snd (finaleditionjan14.teams_action (Sample.azure 200)
            (Sample.reject "gone") Sample.empty)
     = Ok finaleditionjan14.fix_rejected
  /\ status_code finaleditionjan14.fix_rejected = 200%Z.
Proof.
  split; [reflexivity|]. split; [reflexivity|].
  split; [|split; reflexivity].
  unfold finaleditionjan14.refuses_unknown. intros H.
  vm_compute in H. discriminate H.
Qed.

Lemma reject_changes_nothing_witness :
  finaleditionjan14.teams_action (Sample.azure 200) (Sample.reject "id-1")
    (Sample.pending "id-1")
  = (Sample.pending "id-1", Ok finaleditionjan14.fix_rejected).
Proof.
  exact (proj1 (reject_changes_nothing (Sample.azure 200)
                  (Sample.reject "id-1") (Sample.pending "id-1") eq_refl)).
Defined.

(** C5 as stated fails: after the rejection of a pending request its entry
    is still in FIX_STORE, and a later [run_fix] still executes it. *)
Lemma rejected_entry_remains :
  let s1 := fst (finaleditionjan14.teams_action (Sample.azure 200)
                   (Sample.reject "id-1") (Sample.pending "id-1")) in
  finaleditionjan14.FIX_STORE s1 !! py "id-1" = Some Sample.echo_ab
  /\ finaleditionjan14.FIX_STORE s1 !! py "id-1" <> None
  /\ finaleditionjan14.scripts_run
       (finaleditionjan14.calls
          (fst (finaleditionjan14.teams_action (Sample.azure 200)
                  (Sample.run_fix "id-1") s1)))
     = [JArr Sample.echo_ab].
Proof.
  cbv zeta. split; [reflexivity|]. split; [discriminate|].
  vm_compute. reflexivity.
Qed.

(** ** finaleditionjan14: alert intake *)

Section Intake.
Import finaleditionjan14.
Context (B : builtins) (E : environ).

(** Whether [send_teams] returns: without a webhook it only logs. *)
Lemma send_teams_result w card s :
  snd (send_teams E w card s)
  = match TEAMS_WEBHOOK_URL E with
    | Some (_ :: _) => teams_reply w
    | _ => Ok tt
    end.
Proof.
  unfold send_teams. now destruct (TEAMS_WEBHOOK_URL E) as [[|c url]|].
Qed.

(** Once the fields are read: a payload whose command list is empty, null
    or absent is refused; so is one whose commands are not a list, and one
    that lacks the alert name, the summary or the explanation.  A refusal is
    a 400 and leaves the state as it was.  A payload that passes stores its
    commands, a non-empty list, under the id drawn from [uuid4]; the id is
    returned in a 200 unless posting the card raises, in which case the
    handler raises with the entry already stored. *)
Lemma alert_ingest_checks w data f s :
  read_alert data s = (s, Ok f) ->
  (truthy (commands f) = false -> accepted f = false)
  /\ (accepted f = false ->
        exists msg,
          alert_ingest B E w (Some data) s = (s, Ok (bad_request msg))
          /\ status_code (bad_request msg) = 400%Z)
  /\ (accepted f = true ->
        exists c cmds,
          commands f = JArr (c :: cmds)
          /\ FIX_STORE (fst (alert_ingest B E w (Some data) s))
             = <[uuid4 w := c :: cmds]> (FIX_STORE s)
          /\ snd (alert_ingest B E w (Some data) s)
             = match TEAMS_WEBHOOK_URL E with
               | Some (_ :: _) =>
                   match teams_reply w with
                   | Ok _ => Ok (created (uuid4 w))
                   | Raise e => Raise e
                   end
               | _ => Ok (created (uuid4 w))
               end).
Proof.
  intros Hr. split; [|split].
  - intros Ht. unfold accepted. cbn [forallb]. rewrite Ht.
    now rewrite !andb_false_r.
  - intros Ha. rewrite (alert_ingest_refused B E w data f s Hr Ha).
    destruct (forallb truthy _); eexists; split; reflexivity.
  - intros Ha. pose proof Ha as Ha'. unfold accepted in Ha'.
    apply andb_true_iff in Ha' as [Hall Hl].
    cbn [forallb] in Hall. repeat (apply andb_true_iff in Hall as [? Hall]).
    destruct (commands f) as [| | | |[|c cmds]|] eqn:Hc; try discriminate.
    exists c, cmds. split; [reflexivity|].
    rewrite (alert_ingest_accepted B E w data f s Hr Ha). rewrite Hc.
    cbn [list_items]. unfold bind.
    pose proof (send_teams_store E w
      (approval_card B E (alertname f) (instance f) (summary f)
         (explanation f) (c :: cmds) (uuid4 w))
      (set_store (insert (uuid4 w) (c :: cmds)) s)) as Hst.
    pose proof (send_teams_result w
      (approval_card B E (alertname f) (instance f) (summary f)
         (explanation f) (c :: cmds) (uuid4 w))
      (set_store (insert (uuid4 w) (c :: cmds)) s)) as Hres.
    destruct (send_teams _ _ _ _) as [s' [[]|e]]; cbn [fst snd] in *.
    + split; [exact Hst|].
      destruct (TEAMS_WEBHOOK_URL E) as [[|? ?]|]; try reflexivity.
      now rewrite <- Hres.
    + split; [exact Hst|].
      destruct (TEAMS_WEBHOOK_URL E) as [[|? ?]|]; try discriminate.
      now rewrite <- Hres.
Qed.

(** Reading the fields: lines 90 to 98 go through exactly for a readable
    payload, and raise [AttributeError] for any other. *)
Lemma read_alert_run data s :
  read_alert data s
  = if readable data then (s, Ok (fields_of data))
    else (s, Raise (AttributeError "object has no attribute 'get'")).
Proof.
  unfold read_alert, readable, fields_of.
  destruct data as [ |b|z|t|items|m]; try reflexivity.
  cbn [is_object field andb]. unfold dict_get at 1, bind at 1, ret at 1.
  destruct (match assoc (py "alert") m with
            | Some x => x
            | None => JObj []
            end) as [ |b|z|t|items|am]; try reflexivity.
  cbn [is_object field andb]. unfold dict_get at 1, bind at 1, ret at 1.
  destruct (match assoc (py "labels") am with
            | Some x => x
            | None => JObj []
            end) as [ |b|z|t|items|lm]; try reflexivity.
  cbn [is_object field andb]. unfold dict_get at 1, bind at 1, ret at 1.
  destruct (match assoc (py "ai") m with
            | Some x => x
            | None => JObj []
            end) as [ |b|z|t|items|aim]; reflexivity.
Qed.

(** C6, as the code has it.  A body that is not JSON is answered 400.  A
    JSON payload that cannot be read (it is not an object, or its [alert],
    [labels] or [ai] member is present and is not an object) makes the
    handler raise [AttributeError], with nothing stored and nothing called.
    For every other payload: if the command list is empty, null or absent,
    if the commands are not a list, or if the alert name, the summary or
    the explanation is missing, the answer is a 400 and the state stays as
    it was; otherwise the commands, a non-empty list, are stored under the
    id drawn from [uuid4], and the id is returned in a 200 unless posting
    the card raises, in which case the handler raises with the entry
    already stored. *)
Theorem alert_ingest_validates w req_json s :
  match req_json with
  | None => alert_ingest B E w None s = (s, Ok (bad_request "Invalid JSON"))
  | Some data =>
      let f := fields_of data in
      (readable data = false ->
       exists e,
         alert_ingest B E w (Some data) s = (s, Raise e)
         /\ exn_class e = "AttributeError"%string)
      /\ (readable data = true ->
          read_alert data s = (s, Ok f)
          /\ (truthy (commands f) = false -> accepted f = false)
          /\ (isinstance_list (commands f) = false -> accepted f = false)
          /\ (accepted f = false ->
              exists msg,
                alert_ingest B E w (Some data) s = (s, Ok (bad_request msg))
                /\ status_code (bad_request msg) = 400%Z)
          /\ (accepted f = true ->
              exists c cmds,
                commands f = JArr (c :: cmds)
                /\ FIX_STORE (fst (alert_ingest B E w (Some data) s))
                   = <[uuid4 w := c :: cmds]> (FIX_STORE s)
                /\ snd (alert_ingest B E w (Some data) s)
                   = match TEAMS_WEBHOOK_URL E with
                     | Some (_ :: _) =>
                         match teams_reply w with
                         | Ok _ => Ok (created (uuid4 w))
                         | Raise e => Raise e
                         end
                     | _ => Ok (created (uuid4 w))
                     end))
  end.
Proof.
  destruct req_json as [data|]; [|reflexivity].
  cbv zeta. pose proof (read_alert_run data s) as Hrun. split.
  - intros Hno. rewrite Hno in Hrun.
    exists (AttributeError "object has no attribute 'get'").
    split; [|reflexivity].
    unfold alert_ingest. now rewrite (bind_raise _ _ _ _ _ Hrun).
  - intros Hyes. rewrite Hyes in Hrun. split; [exact Hrun|].
    destruct (alert_ingest_checks w data (fields_of data) s Hrun)
      as (Hempty & Hrefused & Hstored).
    split; [exact Hempty|]. split; [|split; assumption].
    intros Hl. unfold accepted. rewrite Hl. apply andb_false_r.
Qed.

(** C8, as the code has it.  Every accepted delivery stores the commands
    under the id drawn for it and nothing is looked up first: delivering
    an accepted payload twice, with two different ids drawn, leaves two
    entries, both holding the payload's commands.  The entry of the first
    delivery is kept, and no other entry changes. *)
Theorem redelivery_adds_an_entry w1 w2 data f s :
  (forall st, read_alert data st = (st, Ok f)) ->
  accepted f = true ->
  uuid4 w1 <> uuid4 w2 ->
  let s1 := fst (alert_ingest B E w1 (Some data) s) in
  let s2 := fst (alert_ingest B E w2 (Some data) s1) in
  FIX_STORE s1 = <[uuid4 w1 := list_items (commands f)]> (FIX_STORE s)
  /\ FIX_STORE s2
     = <[uuid4 w2 := list_items (commands f)]>
         (<[uuid4 w1 := list_items (commands f)]> (FIX_STORE s))
  /\ FIX_STORE s2 !! uuid4 w1 = Some (list_items (commands f))
  /\ FIX_STORE s2 !! uuid4 w2 = Some (list_items (commands f))
  /\ (FIX_STORE s !! uuid4 w1 = None -> FIX_STORE s !! uuid4 w2 = None ->
      size (FIX_STORE s1) = S (size (FIX_STORE s))
      /\ size (FIX_STORE s2) = S (S (size (FIX_STORE s)))).
Proof.
  intros Hr Ha Hne s1 s2.
  assert (Hstep : forall w st,
    FIX_STORE (fst (alert_ingest B E w (Some data) st))
    = <[uuid4 w := list_items (commands f)]> (FIX_STORE st)).
  { intros w st. rewrite (alert_ingest_accepted B E w data f st (Hr st) Ha).
    unfold bind.
    pose proof (send_teams_store E w
      (approval_card B E (alertname f) (instance f) (summary f)
         (explanation f) (list_items (commands f)) (uuid4 w))
      (set_store (insert (uuid4 w) (list_items (commands f))) st)) as Hst.
    destruct (send_teams _ _ _ _) as [s' [[]|e]]; exact Hst. }
  assert (H1 : FIX_STORE s1
               = <[uuid4 w1 := list_items (commands f)]> (FIX_STORE s))
    by apply Hstep.
  assert (H2 : FIX_STORE s2
               = <[uuid4 w2 := list_items (commands f)]>
                   (<[uuid4 w1 := list_items (commands f)]> (FIX_STORE s))).
  { subst s2. rewrite Hstep. now rewrite H1. }
  split; [exact H1|]. split; [exact H2|]. rewrite H2, H1.
  split; [|split].
  - rewrite lookup_insert_ne by congruence. apply lookup_insert_eq.
  - apply lookup_insert_eq.
  - intros Hf1 Hf2. split.
    + now apply map_size_insert_None.
    + rewrite map_size_insert_None.
      * f_equal. now apply map_size_insert_None.
      * rewrite lookup_insert_ne by congruence. exact Hf2.
Qed.

End Intake.

Lemma alert_ingest_validates_witness :
  finaleditionjan14.readable Sample.disk_full = true
  /\ finaleditionjan14.accepted (finaleditionjan14.fields_of Sample.disk_full)
     = true
  /\ exists c cmds,
       finaleditionjan14.commands
         (finaleditionjan14.fields_of Sample.disk_full)
       = JArr (c :: cmds)
       /\ finaleditionjan14.FIX_STORE
            (fst (finaleditionjan14.alert_ingest Sample.B0 Sample.E0
                    (Sample.draw "id-1") (Some Sample.disk_full)
                    Sample.empty))
          = <[py "id-1" := c :: cmds]> ∅
       /\ snd (finaleditionjan14.alert_ingest Sample.B0 Sample.E0
                 (Sample.draw "id-1") (Some Sample.disk_full) Sample.empty)
          = Ok (finaleditionjan14.created (py "id-1")).
Proof.
  split; [reflexivity|]. split; [reflexivity|].
  exact (proj2 (proj2 (proj2 (proj2
    (proj2 (alert_ingest_validates Sample.B0 Sample.E0 (Sample.draw "id-1")
              (Some Sample.disk_full) Sample.empty) eq_refl)))) eq_refl).
Defined.

(** C6 as stated fails: a payload with a non-empty command list and no
    summary is refused with a 400 and nothing is stored for it. *)
Lemma commands_without_summary_refused :
  let data := Sample.alert JNull (JArr Sample.echo_ab) in
  let out := finaleditionjan14.alert_ingest Sample.B0 Sample.E0
               (Sample.draw "id-1") (Some data) Sample.empty in
  (exists f, finaleditionjan14.read_alert data Sample.empty
             = (Sample.empty, Ok f)
             /\ finaleditionjan14.commands f = JArr Sample.echo_ab)
  /\ Sample.echo_ab <> []
  /\ snd out = Ok (finaleditionjan14.bad_request "Missing required fields")
  /\ finaleditionjan14.FIX_STORE (fst out) = ∅
  /\ finaleditionjan14.FIX_STORE (fst out) !! py "id-1" = None.
Proof.
  cbv zeta. split; [eexists; split; reflexivity|].
  split; [discriminate|]. now repeat split.
Qed.

Lemma redelivery_adds_an_entry_witness :
  let s1 := fst (finaleditionjan14.alert_ingest Sample.B0 Sample.E0
                   (Sample.draw "id-1") (Some Sample.disk_full)
                   Sample.empty) in
  let s2 := fst (finaleditionjan14.alert_ingest Sample.B0 Sample.E0
                   (Sample.draw "id-2") (Some Sample.disk_full) s1) in
  finaleditionjan14.accepted Sample.fields_disk_full = true
  /\ finaleditionjan14.FIX_STORE s2
     = <[py "id-2" := Sample.echo_ab]> (<[py "id-1" := Sample.echo_ab]> ∅).
Proof.
  cbv zeta. split; [reflexivity|].
  refine (proj1 (proj2
    (redelivery_adds_an_entry Sample.B0 Sample.E0 (Sample.draw "id-1")
       (Sample.draw "id-2") Sample.disk_full Sample.fields_disk_full
       Sample.empty _ eq_refl _))).
  - intros st. reflexivity.
  - discriminate.
Defined.

(** C8 as stated fails: after the second delivery of the same payload the
    store holds two requests for the alert where it held one. *)
Lemma redelivery_duplicates :
  let s1 := fst (finaleditionjan14.alert_ingest Sample.B0 Sample.E0
                   (Sample.draw "id-1") (Some Sample.disk_full)
                   Sample.empty) in
  let s2 := fst (finaleditionjan14.alert_ingest Sample.B0 Sample.E0
                   (Sample.draw "id-2") (Some Sample.disk_full) s1) in
  finaleditionjan14.FIX_STORE s2 <> finaleditionjan14.FIX_STORE s1
  /\ size (finaleditionjan14.FIX_STORE s1) = 1%nat
  /\ size (finaleditionjan14.FIX_STORE s2) = 2%nat.
Proof.
  cbv zeta. split; [|split; vm_compute; reflexivity].
  intros H. apply (f_equal size) in H. vm_compute in H. discriminate H.
Qed.

(** ** finaleditionjan14: the card shows the commands *)

Lemma join_cons sep p ps :
  join sep (p :: ps) = p ++ concat (map (app sep) ps).
Proof.
  revert p. induction ps as [|q ps IH]; intros p.
  - cbn. now rewrite app_nil_r.
  - change (join sep (p :: q :: ps)) with (p ++ sep ++ join sep (q :: ps)).
    rewrite IH. cbn [map concat]. now rewrite <- !app_assoc.
Qed.

Lemma in_order_after parts before text :
  in_order parts text -> in_order parts (before ++ text).
Proof.
  destruct parts as [|p ps]; [easy|].
  intros (b & a & -> & H). exists (before ++ b), a.
  split; [now rewrite <- !app_assoc|exact H].
Qed.

Section Card.
Import finaleditionjan14.
Context (B : builtins) (E : environ).






End Card.


(** ** ver4: the approval callback *)

Section Callback4.
Import ver4.
Context (B : builtins) (E : environ).

Lemma executed_app es1 es2 :
  executed (es1 ++ es2) = executed es1 ++ executed es2.
Proof.
  induction es1 as [|e es1 IH]; [reflexivity|].
  destruct e; cbn [executed app]; now rewrite ?IH.
Qed.

Lemma cards_app es1 es2 : cards (es1 ++ es2) = cards es1 ++ cards es2.
Proof.
  induction es1 as [|e es1 IH]; [reflexivity|].
  destruct e; cbn [cards app]; now rewrite ?IH.
Qed.

Lemma exec_step_run w c s :
  exec_step w c s
  = (s ++ [ssh_exec_command c], exec_reply w (s ++ [ssh_exec_command c]) c).
Proof. reflexivity. Qed.

(** The loop of [run_on_vm] when every command is accepted. *)
Lemma exec_loop_ok w cmds : forall s,
  (forall so_far c, c ∈ cmds -> exec_reply w so_far c = Ok tt) ->
  for_each (exec_step w) cmds s = (s ++ map ssh_exec_command cmds, Ok tt).
Proof.
  induction cmds as [|c cmds IH]; intros s Hok.
  - cbn. now rewrite app_nil_r.
  - cbn [for_each]. unfold bind. rewrite exec_step_run, (Hok _ c) by left.
    rewrite IH by (intros so_far c' Hc'; apply Hok; now right).
    cbn [map]. now rewrite <- app_assoc.
Qed.

(** Whatever the replies, the loop runs an initial part of the list and
    posts no card. *)
Lemma exec_loop_prefix w cmds : forall s,
  exists k,
    executed (fst (for_each (exec_step w) cmds s)) = executed s ++ take k cmds
    /\ cards (fst (for_each (exec_step w) cmds s)) = cards s.
Proof.
  induction cmds as [|c cmds IH]; intros s.
  - exists 0%nat. cbn. now rewrite app_nil_r.
  - cbn [for_each]. unfold bind. rewrite exec_step_run.
    destruct (exec_reply w _ c) as [[]|e].
    + destruct (IH (s ++ [ssh_exec_command c])) as (k & Hk & Hc).
      exists (S k). rewrite Hk, Hc, executed_app, cards_app. cbn.
      rewrite app_nil_r. now rewrite <- app_assoc.
    + exists 1%nat. cbn [fst]. rewrite executed_app, cards_app. cbn.
      now rewrite app_nil_r.
Qed.

Lemma run_on_vm_run w cmds s :
  run_on_vm E w (JArr cmds) s
  = match connect_reply w with
    | Ok _ =>
        match for_each (exec_step w) cmds
                (s ++ [ssh_connect (VM_IP E) (VM_USER E) (VM_PASS E) 10]) with
        | (s', Ok _) => (s' ++ [ssh_close], Ok tt)
        | (s', Raise e) => (s', Raise e)
        end
    | Raise e =>
        (s ++ [ssh_connect (VM_IP E) (VM_USER E) (VM_PASS E) 10], Raise e)
    end.
Proof.
  unfold run_on_vm, bind, emit, modify, lift, iter_items, ret.
  destruct (connect_reply w) as [[]|e]; [|reflexivity].
  now destruct (for_each _ _ _) as [s' [[]|e]].
Qed.

Lemma run_on_vm_ok w cmds s :
  connect_reply w = Ok tt ->
  (forall so_far c, c ∈ cmds -> exec_reply w so_far c = Ok tt) ->
  run_on_vm E w (JArr cmds) s
  = (s ++ [ssh_connect (VM_IP E) (VM_USER E) (VM_PASS E) 10]
       ++ map ssh_exec_command cmds ++ [ssh_close], Ok tt).
Proof.
  intros Hc Hok. rewrite run_on_vm_run, Hc, exec_loop_ok by assumption.
  now rewrite <- !app_assoc.
Qed.

Lemma run_on_vm_prefix w cmds s :
  exists k,
    executed (fst (run_on_vm E w (JArr cmds) s)) = executed s ++ take k cmds
    /\ cards (fst (run_on_vm E w (JArr cmds) s)) = cards s.
Proof.
  rewrite run_on_vm_run.
  destruct (connect_reply w) as [[]|e].
  2:{ exists 0%nat. cbn [fst]. rewrite executed_app, cards_app. cbn.
      now rewrite !app_nil_r. }
  destruct (exec_loop_prefix w cmds
              (s ++ [ssh_connect (VM_IP E) (VM_USER E) (VM_PASS E) 10]))
    as (k & Hk & Hc).
  destruct (for_each _ _ _) as [s' [[]|e]]; cbn [fst] in *; exists k.
  - rewrite executed_app, cards_app, Hk, Hc.
    rewrite executed_app, cards_app. cbn. now rewrite !app_nil_r.
  - rewrite Hk, Hc, executed_app, cards_app. cbn. now rewrite !app_nil_r.
Qed.

Lemma send_teams_card_run w title text actions s :
  send_teams_card E w title text actions s
  = match TEAMS_WEBHOOK_URL E with
    | Some webhook =>
        (s ++ [requests_post webhook (message_card title text actions) 10],
         teams_reply w)
    | None => (s, Raise (Exn "MissingSchema" (py "Invalid URL 'None'")))
    end.
Proof. unfold send_teams_card. now destruct (TEAMS_WEBHOOK_URL E). Qed.

Lemma send_teams_card_executed w title text actions s :
  executed (fst (send_teams_card E w title text actions s)) = executed s.
Proof.
  rewrite send_teams_card_run. destruct (TEAMS_WEBHOOK_URL E); [|reflexivity].
  cbn [fst]. rewrite executed_app. cbn. now rewrite app_nil_r.
Qed.

(** Only the two fields are read; with them the callback goes on to run. *)
Lemma approval_callback_fields w m incident text s :
  assoc (py "incident") m = Some incident ->
  assoc (py "ai_solution") m = Some (JStr text) ->
  approval_callback B E w (Some (JObj m)) s
  = bind (run_on_vm E w (JArr (map JStr (sudo_lines text))))
      (fun _ =>
         bind (send_teams_card E w (executed_title B incident)
                 (executed_text (sudo_lines text)) [])
           (fun _ => ret approved_and_executed))
      s.
Proof.
  intros Hi Ha. unfold approval_callback.
  unfold bind at 1, get_json, ret.
  unfold bind at 1, getitem. rewrite Hi. unfold ret.
  unfold bind at 1. rewrite Ha. unfold ret.
  unfold bind at 1, value_splitlines, ret.
  reflexivity.
Qed.

(** What the callback executes is an initial part of the extracted list. *)
Lemma approval_callback_executed w m incident text s :
  assoc (py "incident") m = Some incident ->
  assoc (py "ai_solution") m = Some (JStr text) ->
  exists k,
    executed (fst (approval_callback B E w (Some (JObj m)) s))
    = executed s ++ take k (map JStr (sudo_lines text)).
Proof.
  intros Hi Ha. rewrite (approval_callback_fields w m incident text s Hi Ha).
  destruct (run_on_vm_prefix w (map JStr (sudo_lines text)) s) as (k & Hk & _).
  exists k. unfold bind at 1.
  destruct (run_on_vm _ _ _ _) as [s1 [[]|e]]; cbn [fst] in *; [|exact Hk].
  unfold bind.
  pose proof (send_teams_card_executed w (executed_title B incident)
                (executed_text (sudo_lines text)) [] s1) as Hs.
  destruct (send_teams_card _ _ _ _ _ _) as [s2 [[]|e]]; unfold ret;
    cbn [fst] in *; now rewrite Hs.
Qed.

(** The callback when every call to the outside goes through. *)
Lemma approval_callback_ok w m incident text webhook s :
  assoc (py "incident") m = Some incident ->
  assoc (py "ai_solution") m = Some (JStr text) ->
  connect_reply w = Ok tt ->
  (forall so_far c, c ∈ sudo_lines text ->
                    exec_reply w so_far (JStr c) = Ok tt) ->
  TEAMS_WEBHOOK_URL E = Some webhook ->
  teams_reply w = Ok tt ->
  approval_callback B E w (Some (JObj m)) s
  = (s ++ [ssh_connect (VM_IP E) (VM_USER E) (VM_PASS E) 10]
       ++ map ssh_exec_command (map JStr (sudo_lines text))
       ++ [ssh_close;
           requests_post webhook
             (message_card (executed_title B incident)
                (executed_text (sudo_lines text)) []) 10],
     Ok approved_and_executed).
Proof.
  intros Hi Ha Hc Hx Hw Ht.
  rewrite (approval_callback_fields w m incident text s Hi Ha).
  unfold bind at 1. rewrite run_on_vm_ok; [|exact Hc|].
  - unfold bind. rewrite send_teams_card_run, Hw, Ht. unfold ret.
    now rewrite <- !app_assoc.
  - intros so_far c Hin.
    apply list_elem_of_fmap in Hin as (line & -> & Hin). now apply Hx.
Qed.

End Callback4.

(** [s.startswith(p)] holds exactly when [s] is [p] followed by something. *)
Lemma startswith_prefix p : forall s,
  startswith p s = true <-> exists rest, s = p ++ rest.
Proof.
  induction p as [|a p IH]; intros s.
  - split; [intros _; now exists s|reflexivity].
  - destruct s as [|b s]; cbn [startswith].
    + split; [discriminate|]. now intros [rest H].
    + rewrite andb_true_iff, N.eqb_eq, IH. split.
      * intros [-> [rest ->]]. now exists rest.
      * intros [rest H]. injection H as -> ->. split; [reflexivity|].
        now exists rest.
Qed.

(** The list comprehension of line 149, with its test written out. *)
Lemma sudo_lines_unfold text :
  ver4.sudo_lines text
  = filter (fun line => startswith (py "sudo") (strip line) = true)
      (splitlines text).
Proof. reflexivity. Qed.

Section Approval4.
Import ver4.
Context (B : builtins) (E : environ).

Lemma lookup_sop_internal_reply w incident s :
  exists get, lookup_sop_internal B E w incident s
              = (s ++ [get], sop_reply w)
              /\ cards [get] = [].
Proof. eexists. split; reflexivity. Qed.

Lemma generate_ai_remediation_cards w incident description s :
  cards (fst (generate_ai_remediation B E w incident description s)) = cards s
  /\ snd (generate_ai_remediation B E w incident description s)
     = if falsy (OPENAI_API_KEY E)
       then Ok (JStr (py "OPENAI_API_KEY not configured"))
       else ai_reply w.
Proof.
  unfold generate_ai_remediation. destruct (falsy (OPENAI_API_KEY E)).
  - now split.
  - unfold bind, emit, modify, lift. cbn [fst snd]. rewrite cards_app. cbn.
    now rewrite app_nil_r.
Qed.

(** Without a stored SOP, [alert_receiver] posts one card, and the card
    carries the actions of [approve_actions]. *)
Lemma alert_receiver_card w req_json incident description sop ai webhook s :
  read_alert req_json s = (s, Ok (incident, description)) ->
  sop_reply w = Ok sop ->
  truthy sop = false ->
  snd (generate_ai_remediation B E w incident description s) = Ok ai ->
  TEAMS_WEBHOOK_URL E = Some webhook ->
  cards (fst (alert_receiver B E w req_json s))
  = cards s
    ++ [message_card (approval_title B incident)
          (py "AI Suggested Fix:" ++ NL ++ str B ai)
          (approve_actions B E incident description ai)].
Proof.
  intros Hr Hsop Hfalse Hai Hw. unfold alert_receiver.
  rewrite (bind_ok _ _ _ _ _ Hr). cbn [fst snd].
  destruct (lookup_sop_internal_reply w incident s) as (get & Hget & Hcg).
  rewrite Hsop in Hget. rewrite (bind_ok _ _ _ _ _ Hget). rewrite Hfalse.
  destruct (generate_ai_remediation_cards w incident description (s ++ [get]))
    as [Hgc Hgs].
  destruct (generate_ai_remediation_cards w incident description s)
    as [_ Hgs0].
  rewrite Hgs0 in Hai. rewrite Hai in Hgs.
  destruct (generate_ai_remediation B E w incident description (s ++ [get]))
    as [s1 r1] eqn:Hgen.
  cbn [fst snd] in *. subst r1.
  rewrite (bind_ok _ _ _ _ _ Hgen).
  unfold bind. rewrite send_teams_card_run, Hw.
  assert (Hcards : cards (s1 ++ [requests_post webhook
                       (message_card (approval_title B incident)
                          (py "AI Suggested Fix:" ++ NL ++ str B ai)
                          (approve_actions B E incident description ai)) 10])
                   = cards s
                     ++ [message_card (approval_title B incident)
                           (py "AI Suggested Fix:" ++ NL ++ str B ai)
                           (approve_actions B E incident description ai)]).
  { rewrite cards_app, Hgc, cards_app, Hcg, app_nil_r. reflexivity. }
  now destruct (teams_reply w) as [[]|e].
Qed.

Lemma executed_commands cmds : executed (map ssh_exec_command cmds) = cmds.
Proof. induction cmds as [|c cmds IH]; [reflexivity|]. cbn. now rewrite IH. Qed.

Lemma exec_loop_grows w cmds : forall s,
  exists rest, fst (for_each (exec_step w) cmds s) = s ++ rest.
Proof.
  induction cmds as [|c cmds IH]; intros s.
  - exists []. cbn. now rewrite app_nil_r.
  - cbn [for_each]. unfold bind. rewrite exec_step_run.
    destruct (exec_reply w _ c) as [[]|e]; [|now eexists].
    destruct (IH (s ++ [ssh_exec_command c])) as (rest & ->).
    eexists. now rewrite <- app_assoc.
Qed.

(** [run_on_vm] begins by opening the session. *)
Lemma run_on_vm_connects w cmds s :
  exists rest,
    fst (run_on_vm E w (JArr cmds) s)
    = s ++ ssh_connect (VM_IP E) (VM_USER E) (VM_PASS E) 10 :: rest.
Proof.
  rewrite run_on_vm_run.
  destruct (connect_reply w) as [[]|e]; [|now eexists].
  destruct (exec_loop_grows w cmds
              (s ++ [ssh_connect (VM_IP E) (VM_USER E) (VM_PASS E) 10]))
    as (rest & Hrest).
  destruct (for_each _ _ _) as [s' [[]|e]]; cbn [fst] in *; subst s';
    rewrite <- ?app_assoc; now eexists.
Qed.

(** C10. In ver4 the callback executes whatever it is sent.  A body with
    the fields [incident] and [ai_solution] is handled as the body made of
    these two fields alone: no other field, a decision least of all, is
    read.  The handler opens the SSH session first thing, and when the
    session opens and the commands are accepted, what it executes is exactly
    the lines of [ai_solution] that, stripped, begin with sudo, in the
    order of the text: each such line is sent to the VM.  The card that
    leads to the callback offers one action, "Approve Fix". *)
Theorem callback_executes_unconditionally w m incident text s :
  assoc (py "incident") m = Some incident ->
  assoc (py "ai_solution") m = Some (JStr text) ->
  let sudo_prefixed :=
    filter (fun line => startswith (py "sudo") (strip line) = true)
      (splitlines text) in
  approval_callback B E w (Some (JObj m)) s
  = approval_callback B E w
      (Some (JObj [o_json "incident" incident; o_str "ai_solution" text])) s
  /\ (exists rest,
        fst (approval_callback B E w (Some (JObj m)) s)
        = s ++ ssh_connect (VM_IP E) (VM_USER E) (VM_PASS E) 10 :: rest)
  /\ (connect_reply w = Ok tt ->
      (forall so_far c, c ∈ sudo_prefixed ->
                        exec_reply w so_far (JStr c) = Ok tt) ->
      executed (fst (approval_callback B E w (Some (JObj m)) s))
      = executed s ++ map JStr sudo_prefixed
      /\ forall line rest,
           line ∈ splitlines text ->
           strip line = py "sudo" ++ rest ->
           JStr line
           ∈ executed (fst (approval_callback B E w (Some (JObj m)) s)))
  /\ (forall title body description ai,
        action_names
          (message_card title body
             (approve_actions B E incident description ai))
        = [JStr (py "Approve Fix")])
  /\ (forall w' req_json description sop ai webhook s',
        read_alert req_json s' = (s', Ok (incident, description)) ->
        sop_reply w' = Ok sop ->
        truthy sop = false ->
        snd (generate_ai_remediation B E w' incident description s') = Ok ai ->
        TEAMS_WEBHOOK_URL E = Some webhook ->
        map action_names (cards (fst (alert_receiver B E w' req_json s')))
        = map action_names (cards s') ++ [[JStr (py "Approve Fix")]]).
Proof.
  intros Hi Ha sudo_prefixed.
  assert (Hlines : sudo_prefixed = sudo_lines text) by reflexivity.
  rewrite (approval_callback_fields B E w m incident text s Hi Ha).
  split; [|split; [|split; [|split]]].
  - symmetry. now apply approval_callback_fields.
  - unfold bind at 1.
    destruct (run_on_vm_connects w (map JStr (sudo_lines text)) s)
      as (rest & Hrest).
    destruct (run_on_vm _ _ _ _) as [s1 [[]|e]]; cbn [fst] in *; subst s1;
      [|now eexists].
    unfold bind. rewrite send_teams_card_run.
    destruct (TEAMS_WEBHOOK_URL E) as [webhook|]; [|now eexists].
    destruct (teams_reply w) as [[]|e]; unfold ret; cbn [fst];
      rewrite <- app_assoc; now eexists.
  - intros Hc Hx. rewrite Hlines in *.
    assert (Hrun : executed
                     (fst (bind (run_on_vm E w (JArr (map JStr (sudo_lines text))))
                             (fun _ =>
                                bind (send_teams_card E w
                                        (executed_title B incident)
                                        (executed_text (sudo_lines text)) [])
                                  (fun _ => ret approved_and_executed)) s))
                   = executed s ++ map JStr (sudo_lines text)).
    { unfold bind at 1. rewrite run_on_vm_ok; [|exact Hc|].
      + unfold bind.
        pose proof (send_teams_card_executed E w (executed_title B incident)
                      (executed_text (sudo_lines text)) []
                      (s ++ [ssh_connect (VM_IP E) (VM_USER E) (VM_PASS E) 10]
                         ++ map ssh_exec_command (map JStr (sudo_lines text))
                         ++ [ssh_close])) as Hs.
        destruct (send_teams_card _ _ _ _ _ _) as [s2 [[]|e]]; unfold ret;
          cbn [fst] in *; rewrite Hs, !executed_app, executed_commands;
          cbn [executed app]; now rewrite app_nil_r.
      + intros so_far c Hin.
        apply list_elem_of_fmap in Hin as (line & -> & Hin). now apply Hx. }
    split; [exact Hrun|].
    intros line rest Hin Hstrip. rewrite Hrun.
    apply elem_of_app. right. apply list_elem_of_fmap. exists line.
    split; [reflexivity|]. rewrite sudo_lines_unfold.
    apply list_elem_of_filter. split; [|exact Hin].
    apply startswith_prefix. now exists rest.
  - reflexivity.
  - intros w' req_json description sop ai webhook s' Hr Hsop Hf Hai Hw.
    rewrite (alert_receiver_card w' req_json incident description sop ai
               webhook s' Hr Hsop Hf Hai Hw).
    now rewrite map_app.
Qed.

End Approval4.

Section Extraction4.
Import ver4.
Context (B : builtins) (E : environ).

(** C3, as the code has it.  The extracted commands are the lines of the
    advisor text that, stripped of surrounding blanks, begin with sudo:
    every extracted command is such a line, every such line is extracted,
    and they keep the order of the text.  Only extracted commands are
    executed, from the first on.  When no line passes, nothing is executed;
    the handler does not fail for that: if the session opens and the card is
    delivered, it posts the "Approved & Executed" card with an empty listing
    and answers "approved and executed". *)
Theorem extraction_keeps_sudo_lines w m incident text s :
  assoc (py "incident") m = Some incident ->
  assoc (py "ai_solution") m = Some (JStr text) ->
  let extracted :=
    filter (fun line => startswith (py "sudo") (strip line) = true)
      (splitlines text) in
  Forall (fun c => c ∈ splitlines text
                   /\ exists rest, strip c = py "sudo" ++ rest) extracted
  /\ (forall line rest,
        line ∈ splitlines text -> strip line = py "sudo" ++ rest ->
        line ∈ extracted)
  /\ extracted `sublist_of` splitlines text
  /\ (exists k,
        executed (fst (approval_callback B E w (Some (JObj m)) s))
        = executed s ++ take k (map JStr extracted))
  /\ ((forall line rest, line ∈ splitlines text ->
                         strip line <> py "sudo" ++ rest) ->
      extracted = []
      /\ executed (fst (approval_callback B E w (Some (JObj m)) s))
         = executed s
      /\ forall webhook,
           connect_reply w = Ok tt ->
           TEAMS_WEBHOOK_URL E = Some webhook ->
           teams_reply w = Ok tt ->
           approval_callback B E w (Some (JObj m)) s
           = (s ++ [ ssh_connect (VM_IP E) (VM_USER E) (VM_PASS E) 10;
                     ssh_close;
                     requests_post webhook
                       (message_card (executed_title B incident)
                          (py "Commands executed:" ++ NL) []) 10 ],
              Ok approved_and_executed)).
Proof.
  intros Hi Ha extracted.
  assert (Hlines : extracted = sudo_lines text) by reflexivity.
  split; [|split; [|split; [|split]]].
  - apply Forall_forall. intros c Hc. subst extracted.
    apply list_elem_of_filter in Hc as [Hc Hin]. split; [exact Hin|].
    now apply startswith_prefix.
  - intros line rest Hin Hstrip. subst extracted.
    apply list_elem_of_filter. split; [|exact Hin].
    apply startswith_prefix. now exists rest.
  - apply sublist_filter.
  - rewrite Hlines.
    exact (approval_callback_executed B E w m incident text s Hi Ha).
  - intros Hnone.
    assert (Hempty : sudo_lines text = []).
    { assert (Hall : Forall (fun line =>
                               ~ startswith (py "sudo") (strip line) = true)
                       (splitlines text)).
      { apply Forall_forall. intros line Hin Hs.
        apply startswith_prefix in Hs as [rest Hs].
        exact (Hnone line rest Hin Hs). }
      rewrite sudo_lines_unfold. clear -Hall.
      induction Hall as [|line ls Hline _ IH]; [reflexivity|].
      now rewrite filter_cons_False. }
    split; [now rewrite Hlines|]. split.
    + destruct (approval_callback_executed B E w m incident text s Hi Ha)
        as (k & Hk).
      rewrite Hk, Hempty. cbn. rewrite take_nil. now rewrite app_nil_r.
    + intros webhook Hc Hw Ht.
      rewrite (approval_callback_ok B E w m incident text webhook s
                 Hi Ha Hc); try assumption.
      * rewrite Hempty. reflexivity.
      * rewrite Hempty. intros so_far c Hin. now apply elem_of_nil in Hin.
Qed.

End Extraction4.

Lemma extraction_keeps_sudo_lines_witness :
  filter (fun line => startswith (py "sudo") (strip line) = true)
    (splitlines Sample.advice_restart)
  = [Sample.restart_nginx]
  /\ exists k,
       ver4.executed
         (fst (ver4.approval_callback Sample.B0 Sample.E4
                 (Sample.calm [])
                 (Some (Sample.approval [] Sample.advice_restart)) []))
       = [] ++ take k
                 (map JStr
                    (filter (fun line =>
                               startswith (py "sudo") (strip line) = true)
                       (splitlines Sample.advice_restart))).
Proof.
  split; [vm_compute; reflexivity|].
  exact (proj1 (proj2 (proj2 (proj2
    (extraction_keeps_sudo_lines Sample.B0 Sample.E4 (Sample.calm [])
       (Sample.approval_fields [] Sample.advice_restart)
       (JStr (py "disk-full")) Sample.advice_restart [] eq_refl eq_refl))))).
Defined.

(** C3 as stated fails: for advice without a sudo line the filtered list is
    empty, and the handler still opens the session, posts the "Approved &
    Executed" card with an empty plan and answers with success. *)
Lemma empty_plan_is_reported_as_executed :
  let out := ver4.approval_callback Sample.B0 Sample.E4 (Sample.calm [])
               (Some (Sample.approval [] Sample.advice_prose)) [] in
  ver4.sudo_lines Sample.advice_prose = []
  /\ snd out = Ok ver4.approved_and_executed
  /\ status_code ver4.approved_and_executed = 200%Z
  /\ ver4.cards (fst out)
     = [ver4.message_card
          (ver4.executed_title Sample.B0 (JStr (py "disk-full")))
          (py "Commands executed:" ++ NL) []]
  /\ ~ (exists e, snd out = Raise e).
Proof.
  cbv zeta. split; [vm_compute; reflexivity|].
  split; [vm_compute; reflexivity|]. split; [reflexivity|].
  split; [vm_compute; reflexivity|].
  intros [e He]. vm_compute in He. discriminate He.
Qed.

Lemma callback_executes_unconditionally_witness :
  let declined := [o_str "decision" (py "reject")] in
  let out := ver4.approval_callback Sample.B0 Sample.E4 (Sample.calm [])
               (Some (Sample.approval declined Sample.advice_restart)) [] in
  ver4.executed (fst out) = [JStr (py "sudo systemctl restart nginx")]
  /\ JStr (py "sudo systemctl restart nginx") ∈ ver4.executed (fst out).
Proof.
  cbv zeta. split; [vm_compute; reflexivity|].
  pose proof (callback_executes_unconditionally Sample.B0 Sample.E4
    (Sample.calm [])
    (Sample.approval_fields [o_str "decision" (py "reject")]
       Sample.advice_restart)
    (JStr (py "disk-full")) Sample.advice_restart [] eq_refl eq_refl) as H.
  destruct H as (_ & _ & H & _).
  destruct (H eq_refl (fun _ _ _ => eq_refl)) as [_ Hin].
  apply (Hin (py "sudo systemctl restart nginx") (py " systemctl restart nginx")).
  - vm_compute. apply list_elem_of_further, list_elem_of_here.
  - vm_compute. reflexivity.
Defined.

(** ** ver2: what is posted after an execution *)

Section Report2.
Import ver2.
Context (B : builtins) (E : environ).

Lemma posted_app es1 es2 : posted (es1 ++ es2) = posted es1 ++ posted es2.
Proof.
  induction es1 as [|e es1 IH]; [reflexivity|].
  destruct e; cbn [posted app]; now rewrite ?IH.
Qed.

Lemma posted_snoc s e :
  posted [e] = [] -> posted (s ++ [e]) = posted s.
Proof. intros H. now rewrite posted_app, H, app_nil_r. Qed.

Lemma exec_all_cons w c cmds acc s :
  exec_all w (c :: cmds) acc s
  = match exec_reply w (s ++ [ssh_exec_command c]) c with
    | Ok out =>
        exec_all w cmds
          (acc ++ [JObj [ o_json "cmd" c; o_str "stdout" (fst out);
                          o_str "stderr" (snd out) ]])
          (s ++ [ssh_exec_command c])
    | Raise e => (s ++ [ssh_exec_command c], Raise e)
    end.
Proof.
  cbn [exec_all]. unfold bind, emit, modify, lift, get.
  now destruct (exec_reply w _ c).
Qed.

(** The loop of [run_remote_commands] posts nothing; it raises or returns
    the results gathered so far followed by one entry per command. *)
Lemma exec_all_spec w cmds : forall acc s,
  exists s',
    posted s' = posted s
    /\ ((exists e, exec_all w cmds acc s = (s', Raise e))
        \/ (exists rs, exec_all w cmds acc s = (s', Ok (acc ++ rs))
                       /\ command_results cmds rs)).
Proof.
  induction cmds as [|c cmds IH]; intros acc s.
  - exists s. split; [reflexivity|]. right. exists [].
    split; [cbn; now rewrite app_nil_r|constructor].
  - rewrite exec_all_cons.
    destruct (exec_reply w _ c) as [[out err]|e]; cbn [fst snd].
    + destruct (IH (acc ++ [JObj [o_json "cmd" c; o_str "stdout" out;
                                  o_str "stderr" err]])
                  (s ++ [ssh_exec_command c]))
        as (s' & Hp & [[e He]|(rs & Hrs & Hres)]).
      * exists s'. split; [now rewrite Hp, posted_snoc|].
        left. exists e. exact He.
      * exists s'. split; [now rewrite Hp, posted_snoc|].
        right. eexists (_ :: rs). rewrite Hrs.
        split; [now rewrite <- app_assoc|].
        constructor; [now eexists _, _|exact Hres].
    + exists (s ++ [ssh_exec_command c]).
      split; [now rewrite posted_snoc|]. left. now exists e.
Qed.

(** [run_remote_commands] never raises and posts nothing: it returns the
    results of the commands or, from its [except] clause, the error. *)
Lemma run_remote_commands_total w cmds s :
  exists s' results,
    run_remote_commands E w cmds s = (s', Ok results)
    /\ posted s' = posted s
    /\ (error_report results \/ command_results cmds results).
Proof.
  unfold run_remote_commands.
  assert (Hraise : forall e st, posted st = posted s ->
    exists s' results,
      (let* _ := emit (print_ssh_error (exn_str e)) in
       ret [JObj [o_str "error" (exn_str e)]]) st = (s', Ok results)
      /\ posted s' = posted s
      /\ (error_report results \/ command_results cmds results)).
  { intros e st Hst. eexists _, _. split; [reflexivity|]. split.
    - cbn [fst]. now rewrite posted_snoc.
    - left. now eexists. }
  unfold try_except.
  destruct (VM_HOST E) as [[|h host]|]; try (now apply Hraise).
  all: destruct (VM_USER E) as [[|u user]|]; try (now apply Hraise).
  all: destruct (VM_PASSWORD E) as [[|p password]|]; try (now apply Hraise).
  unfold bind, emit, modify, lift.
  destruct (connect_reply w) as [[]|e].
  2:{ apply Hraise. now rewrite posted_snoc. }
  destruct (exec_all_spec w cmds []
              (s ++ [ssh_connect (h :: host) (u :: user) (p :: password) 10]))
    as (s' & Hp & [[e He]|(rs & Hrs & Hres)]).
  - rewrite He. apply Hraise. now rewrite Hp, posted_snoc.
  - rewrite Hrs. unfold ret.
    eexists _, _. split; [reflexivity|]. split.
    + now rewrite posted_snoc, Hp, posted_snoc.
    + right. exact Hres.
Qed.

Lemma post_text_run w msg s :
  post_text E w msg s
  = match TEAMS_WEBHOOK_URL E with
    | Some webhook =>
        (s ++ [requests_post webhook (JObj [o_str "text" msg])],
         teams_reply w)
    | None => (s, Raise (Exn "MissingSchema" (py "Invalid URL 'None'")))
    end.
Proof. unfold post_text. now destruct (TEAMS_WEBHOOK_URL E). Qed.

(** When the SOP is found and its commands are read, the callback runs
    them and then posts what [run_remote_commands] returned. *)
Lemma approval_callback_reports w m incident lm found cmds webhook s :
  assoc (py "incident") m = Some incident ->
  lookup_reply w = Ok (JObj lm) ->
  assoc (py "found") lm = Some found ->
  truthy found = true ->
  (forall st, plan_commands (JObj lm) st = (st, Ok cmds)) ->
  TEAMS_WEBHOOK_URL E = Some webhook ->
  exists results,
    posted (fst (approval_callback B E w (Some (JObj m)) s))
    = posted s ++ [JObj [o_str "text" (executed_message B incident results)]]
    /\ (error_report results \/ command_results cmds results).
Proof.
  intros Hi Hl Hf Ht Hp Hw. unfold approval_callback.
  unfold bind at 1, get_json, ret.
  unfold bind at 1, getitem. rewrite Hi. unfold ret.
  unfold bind at 1, dict_get, ret.
  unfold bind at 1, emit, modify.
  unfold bind at 1, lift. rewrite Hl.
  unfold bind at 1. rewrite Hf. unfold ret. rewrite Ht.
  unfold bind at 1. unfold bind at 1. rewrite Hp.
  match goal with
  | |- context [bind (run_remote_commands E w cmds) _ ?st] =>
      destruct (run_remote_commands_total w cmds st)
        as (s' & results & Hrun & Hposted & Hres)
  end.
  exists results. split; [|exact Hres].
  unfold bind at 1. rewrite Hrun.
  unfold bind. rewrite post_text_run, Hw.
  assert (Hgoal : posted (s' ++ [requests_post webhook
                     (JObj [o_str "text"
                              (executed_message B incident results)])])
                  = posted s
                    ++ [JObj [o_str "text"
                                (executed_message B incident results)]]).
  { rewrite posted_app, Hposted, posted_snoc by reflexivity. reflexivity. }
  now destruct (teams_reply w) as [[]|e].
Qed.
(** When the SOP is found and its commands are read, the callback runs
    them and then posts the text built from the very list
    [run_remote_commands] returned. *)
Lemma approval_callback_posts_results w m incident lm found cmds webhook s :
  assoc (py "incident") m = Some incident ->
  lookup_reply w = Ok (JObj lm) ->
  assoc (py "found") lm = Some found ->
  truthy found = true ->
  (forall st, plan_commands (JObj lm) st = (st, Ok cmds)) ->
  TEAMS_WEBHOOK_URL E = Some webhook ->
  let asked :=
    s ++ [requests_get (str_getenv (CALLBACK_BASE_URL E)
                          ++ py "/api/lookup_sop?incident="
                          ++ str B incident)] in
  exists s' results,
    run_remote_commands E w cmds asked = (s', Ok results)
    /\ fst (approval_callback B E w (Some (JObj m)) s)
       = s' ++ [requests_post webhook
                  (JObj [o_str "text" (executed_message B incident results)])]
    /\ posted s' = posted s
    /\ (error_report results \/ command_results cmds results).
Proof.
  intros Hi Hl Hf Ht Hp Hw asked.
  destruct (run_remote_commands_total w cmds asked)
    as (s' & results & Hrun & Hposted & Hres).
  exists s', results. split; [exact Hrun|].
  split; [|split; [|exact Hres]].
  - unfold approval_callback.
    unfold bind at 1, get_json, ret.
    unfold bind at 1, getitem. rewrite Hi. unfold ret.
    unfold bind at 1, dict_get, ret.
    unfold bind at 1, emit, modify.
    unfold bind at 1, lift. rewrite Hl.
    unfold bind at 1. rewrite Hf. unfold ret. rewrite Ht.
    unfold bind at 1. unfold bind at 1. rewrite Hp.
    unfold bind at 1. fold asked. rewrite Hrun.
    unfold bind. rewrite post_text_run, Hw.
    now destruct (teams_reply w) as [[]|e].
  - rewrite Hposted. subst asked. now rewrite posted_snoc.
Qed.

(** The error [run_remote_commands] returns is the one it met. *)
Lemma run_remote_commands_no_credentials w cmds s :
  falsy (VM_HOST E) || falsy (VM_USER E) || falsy (VM_PASSWORD E) = true ->
  snd (run_remote_commands E w cmds s)
  = Ok [JObj [o_str "error" (py "Missing VM credentials")]].
Proof.
  intros Hf. unfold run_remote_commands, try_except.
  destruct (VM_HOST E) as [[|h host]|]; try reflexivity.
  all: destruct (VM_USER E) as [[|u user]|]; try reflexivity.
  all: destruct (VM_PASSWORD E) as [[|p password]|]; try reflexivity.
  discriminate Hf.
Qed.

Lemma run_remote_commands_no_session w cmds e s :
  falsy (VM_HOST E) || falsy (VM_USER E) || falsy (VM_PASSWORD E) = false ->
  connect_reply w = Raise e ->
  snd (run_remote_commands E w cmds s)
  = Ok [JObj [o_str "error" (exn_str e)]].
Proof.
  intros Hf Hc. unfold run_remote_commands, try_except.
  destruct (VM_HOST E) as [[|h host]|]; try discriminate Hf.
  destruct (VM_USER E) as [[|u user]|]; try discriminate Hf.
  destruct (VM_PASSWORD E) as [[|p password]|]; try discriminate Hf.
  unfold bind, emit, modify, lift. now rewrite Hc.
Qed.

End Report2.

(** ** Reporting the outcome of an execution *)

Section Outcome.
Context (B : builtins) (E : ver2.environ).

(** What [teams_action] of finaleditionjan14 answers after it has popped
    the commands: the answer tells success, a refused runCommand and an
    exception apart, and no card is posted. *)
Lemma execution_answer wa commands s0 :
  finaleditionjan14.cards_posted
    (finaleditionjan14.calls
       (fst (try_except (finaleditionjan14.execute wa commands)
               finaleditionjan14.on_exception s0)))
  = finaleditionjan14.cards_posted (finaleditionjan14.calls s0)
  /\ snd (try_except (finaleditionjan14.execute wa commands)
            finaleditionjan14.on_exception s0)
     = Ok match finaleditionjan14.token wa with
          | Raise e => finaleditionjan14.error_page e
          | Ok _ =>
              match finaleditionjan14.run_reply wa with
              | Raise e => finaleditionjan14.error_page e
              | Ok (code, _) =>
                  if ((code =? 200) || (code =? 202))%Z
                  then finaleditionjan14.fix_executed
                  else finaleditionjan14.fix_failed
              end
          end.
Proof.
  unfold try_except, finaleditionjan14.execute, bind, lift,
    finaleditionjan14.emit, modify, ret.
  destruct (finaleditionjan14.token wa) as [tok|e]; cbn [fst snd].
  2:{ split; [|reflexivity]. cbn [finaleditionjan14.on_exception].
      unfold finaleditionjan14.on_exception, bind, finaleditionjan14.emit,
        modify, ret. cbn [fst finaleditionjan14.calls].
      now rewrite !cards_posted_app, !app_nil_r. }
  destruct (finaleditionjan14.run_reply wa) as [[code text]|e]; cbn [fst snd].
  - destruct ((code =? 200)%Z || (code =? 202)%Z); cbn [negb fst snd];
      (split; [|reflexivity]); cbn [finaleditionjan14.calls];
      rewrite !cards_posted_app; cbn [finaleditionjan14.cards_posted];
      rewrite pystr_eqb_refl; now rewrite !app_nil_r.
  - split; [|reflexivity].
    unfold finaleditionjan14.on_exception, bind, finaleditionjan14.emit,
      modify, ret. cbn [fst finaleditionjan14.calls].
    rewrite !cards_posted_app. cbn [finaleditionjan14.cards_posted].
    rewrite pystr_eqb_refl. now rewrite !app_nil_r.
Qed.

(** C7, as the code has it.  In ver2 every execution attempt is followed by
    a message to the webhook: [run_remote_commands] never raises, and the
    callback posts the text built from the very list it returned, which is
    one entry per command or the error it met (the missing credentials, or
    the exception of the session).  In finaleditionjan14 nothing is posted
    after an execution: the outcome is told to the caller alone, in the
    answer to the request, which is different for a success, for a
    runCommand status other than 200 and 202, and for an exception, whose
    text it includes. *)
Theorem execution_outcome_is_reported w m incident lm found cmds webhook s :
  assoc (py "incident") m = Some incident ->
  ver2.lookup_reply w = Ok (JObj lm) ->
  assoc (py "found") lm = Some found ->
  truthy found = true ->
  (forall st, ver2.plan_commands (JObj lm) st = (st, Ok cmds)) ->
  ver2.TEAMS_WEBHOOK_URL E = Some webhook ->
  let asked :=
    s ++ [ver2.requests_get (str_getenv (ver2.CALLBACK_BASE_URL E)
                               ++ py "/api/lookup_sop?incident="
                               ++ str B incident)] in
  let no_credentials :=
    falsy (ver2.VM_HOST E) || falsy (ver2.VM_USER E)
    || falsy (ver2.VM_PASSWORD E) in
  (exists s' results,
     ver2.run_remote_commands E w cmds asked = (s', Ok results)
     /\ fst (ver2.approval_callback B E w (Some (JObj m)) s)
        = s' ++ [ver2.requests_post webhook
                   (JObj [o_str "text"
                            (ver2.executed_message B incident results)])]
     /\ ver2.posted (fst (ver2.approval_callback B E w (Some (JObj m)) s))
        = ver2.posted s
          ++ [JObj [o_str "text" (ver2.executed_message B incident results)]]
     /\ (ver2.error_report results \/ ver2.command_results cmds results)
     /\ (no_credentials = true ->
         results = [JObj [o_str "error" (py "Missing VM credentials")]])
     /\ (forall e, no_credentials = false ->
                   ver2.connect_reply w = Raise e ->
                   results = [JObj [o_str "error" (exn_str e)]]))
  /\ (forall wa commands s0,
        let out := try_except (finaleditionjan14.execute wa commands)
                     finaleditionjan14.on_exception s0 in
        finaleditionjan14.cards_posted (finaleditionjan14.calls (fst out))
        = finaleditionjan14.cards_posted (finaleditionjan14.calls s0)
        /\ snd out
           = Ok match finaleditionjan14.token wa with
                | Raise e => finaleditionjan14.error_page e
                | Ok _ =>
                    match finaleditionjan14.run_reply wa with
                    | Raise e => finaleditionjan14.error_page e
                    | Ok (code, _) =>
                        if ((code =? 200) || (code =? 202))%Z
                        then finaleditionjan14.fix_executed
                        else finaleditionjan14.fix_failed
                    end
                end)
  /\ finaleditionjan14.fix_executed <> finaleditionjan14.fix_failed
  /\ (forall e, finaleditionjan14.error_page e
                <> finaleditionjan14.fix_executed).
Proof.
  intros Hi Hl Hf Ht Hp Hw asked no_credentials.
  split; [|split; [|split]].
  - destruct (approval_callback_posts_results B E w m incident lm found cmds
                webhook s Hi Hl Hf Ht Hp Hw)
      as (s' & results & Hrun & Hfst & Hposted & Hres).
    fold asked in Hrun.
    exists s', results. split; [exact Hrun|]. split; [exact Hfst|].
    split; [|split; [exact Hres|split]].
    + rewrite Hfst, posted_app, Hposted. reflexivity.
    + intros Hno.
      pose proof (run_remote_commands_no_credentials E w cmds asked Hno) as H.
      rewrite Hrun in H. now injection H.
    + intros e Hno Hc.
      pose proof (run_remote_commands_no_session E w cmds e asked Hno Hc) as H.
      rewrite Hrun in H. now injection H.
  - intros wa commands s0. apply execution_answer.
  - discriminate.
  - intros e. discriminate.
Qed.

End Outcome.

Lemma execution_outcome_is_reported_witness :
  let out := ver2.approval_callback Sample.B0 Sample.E2 Sample.unreachable
               (Some (JObj Sample.investigate)) [] in
  ver2.posted (fst out)
  = [] ++ [JObj [o_str "text"
                   (ver2.executed_message Sample.B0 (JStr (py "disk-full"))
                      [JObj [o_str "error" (py "timed out")]])]].
Proof.
  cbv zeta.
  destruct (proj1 (execution_outcome_is_reported Sample.B0 Sample.E2
    Sample.unreachable Sample.investigate (JStr (py "disk-full"))
    Sample.found_sop (JBool true)
    [JStr (py "df -h"); JStr (py "du -sh /var/log")]
    (py "https://teams.example/hook") []
    eq_refl eq_refl eq_refl eq_refl (fun st => eq_refl) eq_refl))
    as (s' & results & _ & _ & Hposted & _ & _ & Herr).
  rewrite (Herr (Exn "TimeoutError" (py "timed out")) eq_refl eq_refl)
    in Hposted.
  exact Hposted.
Defined.

(** C7 as stated fails in finaleditionjan14: after a run that Azure refuses
    with status 500 no card is posted; the failure is told only in the
    answer to the caller. *)
Lemma failed_run_posts_no_card :
  let out := finaleditionjan14.teams_action (Sample.azure 500)
               (Sample.run_fix "id-1") (Sample.pending "id-1") in
  finaleditionjan14.scripts_run (finaleditionjan14.calls (fst out))
  = [JArr Sample.echo_ab]
  /\ finaleditionjan14.cards_posted (finaleditionjan14.calls (fst out)) = []
  /\ snd out = Ok finaleditionjan14.fix_failed.
Proof. cbv zeta. repeat split; vm_compute; reflexivity. Qed.

(** * Further properties of the handlers *)

(** ** finaleditionjan14: the store under any run of deliveries *)

Section Store_invariants.
Import finaleditionjan14.
Context (B : builtins) (E : environ).

(** What [alert_ingest] does to FIX_STORE, with the shape of what it
    stores. *)
Lemma alert_ingest_stores_nonempty w j s :
  FIX_STORE (fst (alert_ingest B E w j s)) = FIX_STORE s
  \/ exists c cmds,
       FIX_STORE (fst (alert_ingest B E w j s))
       = <[uuid4 w := c :: cmds]> (FIX_STORE s).
Proof.
  destruct j as [data|]; [|now left].
  pose proof (pure_run _ s (pure_read_alert data)) as Hr.
  destruct (snd (read_alert data s)) as [f|e] eqn:Hsnd.
  - destruct (accepted f) eqn:Ha.
    + right. pose proof Ha as Ha'. unfold accepted in Ha'.
      apply andb_true_iff in Ha' as [Hall Hl]. cbn [forallb] in Hall.
      repeat (apply andb_true_iff in Hall as [? Hall]).
      destruct (commands f) as [| | | |[|c cmds]|] eqn:Hc; try discriminate.
      exists c, cmds.
      rewrite (alert_ingest_accepted B E w data f s Hr Ha), Hc.
      cbn [list_items]. unfold bind.
      pose proof (send_teams_store E w
        (approval_card B E (alertname f) (instance f) (summary f)
           (explanation f) (c :: cmds) (uuid4 w))
        (set_store (insert (uuid4 w) (c :: cmds)) s)) as Hs.
      destruct (send_teams _ _ _ _) as [s' [[]|e]]; cbn in *; exact Hs.
    + left. now rewrite (alert_ingest_refused B E w data f s Hr Ha).
  - left. unfold alert_ingest. now rewrite (bind_raise _ _ _ _ _ Hr).
Qed.

(** No delivery ever leaves an empty command list in FIX_STORE: if every
    entry is non-empty before, every entry is non-empty after any run of
    deliveries. *)
Theorem serve_keeps_entries_nonempty rs : forall s,
  map_Forall (fun _ cmds => cmds <> []) (FIX_STORE s) ->
  map_Forall (fun _ cmds => cmds <> []) (FIX_STORE (serve B E rs s)).
Proof.
  induction rs as [|r rs IH]; intros s Hs; [exact Hs|].
  cbn [serve]. apply IH. destruct r as [w j|w params]; cbn [handle].
  - destruct (alert_ingest_stores_nonempty w j s) as [->|(c & cmds & ->)];
      [exact Hs|].
    apply map_Forall_insert_2; [discriminate|exact Hs].
  - destruct (teams_action_store w params s) as [->|[k [_ ->]]]; [exact Hs|].
    now apply map_Forall_delete.
Qed.

(** Every id in FIX_STORE after a run of deliveries was there before or was
    drawn from [uuid4] by one of the deliveries: a [run_fix] can only name an
    id, never create one. *)
Theorem serve_ids_are_drawn rs : forall s fix_id,
  is_Some (FIX_STORE (serve B E rs s) !! fix_id) ->
  is_Some (FIX_STORE s !! fix_id) \/ fix_id ∈ drawn rs.
Proof.
  induction rs as [|r rs IH]; intros s fix_id Hin; [now left|].
  cbn [serve] in Hin. destruct (IH _ _ Hin) as [Hprev|Hdrawn].
  - destruct r as [w j|w params]; cbn [handle drawn] in *.
    + destruct (alert_ingest_store B E w j s) as [Heq|[cmds Heq]];
        rewrite Heq in Hprev; [now left|].
      destruct (decide (uuid4 w = fix_id)) as [->|Hne].
      * right. now left.
      * left. now rewrite lookup_insert_ne in Hprev.
    + destruct (teams_action_store w params s) as [Heq|[k [_ Heq]]];
        rewrite Heq in Hprev; [now left|].
      left. destruct (decide (k = fix_id)) as [->|Hne].
      * rewrite lookup_delete_eq in Hprev. now destruct Hprev.
      * now rewrite lookup_delete_ne in Hprev.
  - right. destruct r as [w j|w params]; cbn [drawn]; [now right|exact Hdrawn].
Qed.

End Store_invariants.

Lemma serve_keeps_entries_nonempty_witness :
  map_Forall (fun _ cmds => cmds <> [])
    (finaleditionjan14.FIX_STORE
       (finaleditionjan14.serve Sample.B0 Sample.E0
          [ finaleditionjan14.POST_alert_ingest (Sample.draw "id-2")
              (Some Sample.disk_full);
            finaleditionjan14.POST_alert_ingest (Sample.draw "id-3")
              (Some (Sample.alert (JStr (py "s")) (JArr []))) ]
          (Sample.pending "id-1"))).
Proof.
  apply (serve_keeps_entries_nonempty Sample.B0 Sample.E0).
  intros k cmds Hk. cbn in Hk.
  apply lookup_singleton_Some in Hk as [_ <-]. discriminate.
Defined.

Lemma serve_ids_are_drawn_witness :
  is_Some (finaleditionjan14.FIX_STORE (Sample.pending "id-1") !! py "id-2")
  \/ py "id-2"
     ∈ finaleditionjan14.drawn
         [ finaleditionjan14.POST_alert_ingest (Sample.draw "id-2")
             (Some Sample.disk_full) ].
Proof.
  apply (serve_ids_are_drawn Sample.B0 Sample.E0
           [ finaleditionjan14.POST_alert_ingest (Sample.draw "id-2")
               (Some Sample.disk_full) ]
           (Sample.pending "id-1") (py "id-2")).
  vm_compute. eexists. reflexivity.
Defined.

(** ** finaleditionjan14: what runs, and what escapes a handler *)

Section Execution_bounds.
Import finaleditionjan14.
Context (B : builtins) (E : environ).

Lemma card_has_no_script url a i su ex cmds fix_id :
  scripts_run [requests_post url [] (approval_card B E a i su ex cmds fix_id)
                 10] = [].
Proof.
  cbn [scripts_run]. now destruct (pystr_eqb url run_command_url).
Qed.

Lemma send_teams_scripts w a i su ex cmds fix_id s :
  scripts_run
    (calls (fst (send_teams E w (approval_card B E a i su ex cmds fix_id) s)))
  = scripts_run (calls s).
Proof.
  unfold send_teams. destruct (TEAMS_WEBHOOK_URL E) as [[|c url]|];
    unfold bind, emit, modify, lift; cbn [fst calls];
    rewrite ?scripts_run_app, ?card_has_no_script; cbn [scripts_run];
    now rewrite ?app_nil_r.
Qed.

(** [alert_ingest] executes nothing: whatever it is sent and whatever the
    world answers, no script goes to runCommand. *)
Lemma alert_ingest_scripts w j s :
  scripts_run (calls (fst (alert_ingest B E w j s))) = scripts_run (calls s).
Proof.
  destruct j as [data|]; [|reflexivity].
  pose proof (pure_run _ s (pure_read_alert data)) as Hr.
  destruct (snd (read_alert data s)) as [f|e] eqn:Hsnd.
  - destruct (accepted f) eqn:Ha.
    + rewrite (alert_ingest_accepted B E w data f s Hr Ha). unfold bind.
      pose proof (send_teams_scripts w (alertname f) (instance f) (summary f)
        (explanation f) (list_items (commands f)) (uuid4 w)
        (set_store (insert (uuid4 w) (list_items (commands f))) s)) as Hs.
      destruct (send_teams _ _ _ _) as [s' [[]|e]]; exact Hs.
    + now rewrite (alert_ingest_refused B E w data f s Hr Ha).
  - unfold alert_ingest. now rewrite (bind_raise _ _ _ _ _ Hr).
Qed.

(** A [teams_action] posts at most one script, and none unless it is a
    [run_fix]. *)
Lemma teams_action_scripts w params s :
  exists more,
    scripts_run (calls (fst (teams_action w params s)))
    = scripts_run (calls s) ++ more
    /\ (length more
        <= if bool_decide (params_get params (py "action")
                           = Some (py "run_fix")) then 1 else 0)%nat.
Proof.
  destruct (decide (params_get params (py "action") = Some (py "reject")))
    as [Hr|Hr].
  { exists []. rewrite teams_action_reject by exact Hr.
    rewrite app_nil_r. split; [reflexivity|cbn; lia]. }
  destruct (decide (params_get params (py "action") = Some (py "run_fix")))
    as [Ha|Ha].
  2:{ exists []. rewrite teams_action_invalid by assumption.
      rewrite app_nil_r. split; [reflexivity|cbn; lia]. }
  rewrite (bool_decide_eq_true_2 _ Ha).
  rewrite (teams_action_check_then_pop w params s Ha).
  destruct (check (params_get params (py "fix_id")) s) eqn:Hc.
  2:{ exists []. rewrite app_nil_r. split; [reflexivity|cbn; lia]. }
  unfold check in Hc. apply negb_true_iff, orb_false_iff in Hc as [Hf Hin].
  destruct (params_get params (py "fix_id")) as [fix_id|]; [|discriminate].
  apply negb_false_iff, bool_decide_eq_true in Hin as [commands Hs].
  unfold pop_and_execute. unfold try_except at 1.
  rewrite (bind_ok _ _ _ _ _ (pop_present _ _ _ Hs)).
  pose proof (execute_scripts w commands (set_store (delete fix_id) s)) as He.
  unfold try_except in He. cbn [calls set_store] in He.
  eexists. split; [exact He|]. destruct (token w); cbn; lia.
Qed.

(** Only a [run_fix] executes, and each one at most once: over any run of
    deliveries, the scripts posted to runCommand are no more than the
    [run_fix] deliveries, however many alerts came in between. *)
Theorem scripts_bounded_by_run_fix rs : forall s,
  exists more,
    scripts_run (calls (serve B E rs s)) = scripts_run (calls s) ++ more
    /\ (length more <= run_fix_count rs)%nat.
Proof.
  induction rs as [|r rs IH]; intros s.
  - exists []. now rewrite app_nil_r.
  - cbn [serve run_fix_count].
    destruct (IH (fst (handle B E r s))) as (more & Hmore & Hlen).
    destruct r as [w j|w params]; cbn [handle is_run_fix] in *.
    + exists more. rewrite Hmore, alert_ingest_scripts. split; [reflexivity|lia].
    + destruct (teams_action_scripts w params s) as (one & Hone & Hlen1).
      exists (one ++ more). rewrite Hmore, Hone, <- app_assoc.
      split; [reflexivity|]. rewrite length_app. lia.
Qed.

(** Nothing escapes [teams_action]: for every query string, world and
    state it returns an HTML response with status 200, 400 or 500. *)
Theorem teams_action_never_raises w params s :
  exists r,
    snd (teams_action w params s) = Ok r
    /\ (status_code r = 200 \/ status_code r = 400 \/ status_code r = 500)%Z
    /\ mimetype r = text_html.
Proof.
  destruct (decide (params_get params (py "action") = Some (py "reject")))
    as [Hr|Hr].
  { rewrite teams_action_reject by exact Hr. eexists. split; [reflexivity|].
    split; [now left|reflexivity]. }
  destruct (decide (params_get params (py "action") = Some (py "run_fix")))
    as [Ha|Ha].
  2:{ rewrite teams_action_invalid by assumption. eexists.
      split; [reflexivity|]. split; [right; now left|reflexivity]. }
  rewrite (teams_action_check_then_pop w params s Ha).
  destruct (check (params_get params (py "fix_id")) s) eqn:Hc.
  2:{ eexists. split; [reflexivity|]. split; [right; now left|reflexivity]. }
  unfold check in Hc. apply negb_true_iff, orb_false_iff in Hc as [Hf Hin].
  destruct (params_get params (py "fix_id")) as [fix_id|]; [|discriminate].
  apply negb_false_iff, bool_decide_eq_true in Hin as [commands Hs].
  unfold pop_and_execute. unfold try_except at 1.
  rewrite (bind_ok _ _ _ _ _ (pop_present _ _ _ Hs)).
  destruct (execution_answer w commands (set_store (delete fix_id) s))
    as [_ Hans].
  unfold try_except in Hans. rewrite Hans. eexists. split; [reflexivity|].
  destruct (token w) as [tok|e]; [|split; [right; now right|reflexivity]].
  destruct (run_reply w) as [[code text]|e];
    [|split; [right; now right|reflexivity]].
  destruct ((code =? 200)%Z || (code =? 202)%Z);
    (split; [now left|reflexivity]).
Qed.

(** [alert_ingest] has no handler for exceptions.  It raises in two cases
    only: reading the payload meets something that is not an object, and
    then nothing is stored or called; or posting the card raises, and then
    the entry is already stored. *)
Theorem alert_ingest_raises w data s e :
  snd (alert_ingest B E w (Some data) s) = Raise e ->
  (snd (read_alert data s) = Raise e
   /\ exn_class e = "AttributeError"%string
   /\ fst (alert_ingest B E w (Some data) s) = s)
  \/ (teams_reply w = Raise e
      /\ is_Some (FIX_STORE (fst (alert_ingest B E w (Some data) s))
                  !! uuid4 w)).
Proof.
  intros Hraise.
  pose proof (pure_run _ s (pure_read_alert data)) as Hr.
  destruct (snd (read_alert data s)) as [f|e'] eqn:Hsnd.
  - right. destruct (accepted f) eqn:Ha.
    + rewrite (alert_ingest_accepted B E w data f s Hr Ha) in *.
      unfold bind in *.
      pose proof (send_teams_store E w
        (approval_card B E (alertname f) (instance f) (summary f)
           (explanation f) (list_items (commands f)) (uuid4 w))
        (set_store (insert (uuid4 w) (list_items (commands f))) s)) as Hst.
      pose proof (send_teams_result E w
        (approval_card B E (alertname f) (instance f) (summary f)
           (explanation f) (list_items (commands f)) (uuid4 w))
        (set_store (insert (uuid4 w) (list_items (commands f))) s)) as Hres.
      destruct (send_teams _ _ _ _) as [s' [[]|e0]]; cbn [fst snd] in *;
        [discriminate|]. injection Hraise as ->.
      split.
      * destruct (TEAMS_WEBHOOK_URL E) as [[|? ?]|]; try discriminate.
        now symmetry.
      * rewrite Hst. cbn. rewrite lookup_insert_eq. now eexists.
    + rewrite (alert_ingest_refused B E w data f s Hr Ha) in Hraise.
      discriminate.
  - left. unfold alert_ingest in *. rewrite (bind_raise _ _ _ _ _ Hr) in *.
    cbn [fst snd] in *. injection Hraise as ->. split; [reflexivity|].
    split; [|reflexivity].
    clear Hr. revert Hsnd. unfold read_alert, bind, dict_get, ret, raise.
    repeat match goal with
           | |- context [match ?v with JObj _ => _ | _ => _ end] =>
               destruct v; cbn [fst snd]
           | |- context [match assoc ?k ?m with _ => _ end] =>
               destruct (assoc k m); cbn [fst snd]
           end; intros H; try discriminate H; now injection H as <-.
Qed.

End Execution_bounds.

Lemma alert_ingest_raises_witness :
  exn_class
    (Exn "AttributeError" (py "object has no attribute 'get'"))
  = "AttributeError"%string
  /\ fst (finaleditionjan14.alert_ingest Sample.B0 Sample.E0
            (Sample.draw "id-1") (Some (JArr [Sample.disk_full]))
            (Sample.pending "id-0"))
     = Sample.pending "id-0".
Proof.
  destruct (alert_ingest_raises Sample.B0 Sample.E0 (Sample.draw "id-1")
              (JArr [Sample.disk_full]) (Sample.pending "id-0")
              (Exn "AttributeError" (py "object has no attribute 'get'"))
              eq_refl) as [(_ & Hc & Hs)|[Ht _]].
  - split; [exact Hc|exact Hs].
  - discriminate Ht.
Defined.

(** ** finaleditionjan14: the helpers for the report *)

Lemma lstrip_head s c r : lstrip s = c :: r -> isspace c = false.
Proof.
  induction s as [|a s IH]; [discriminate|]. cbn [lstrip].
  destruct (isspace a) eqn:Ha; [exact IH|].
  intros H. injection H as <- _. exact Ha.
Qed.

Lemma lstrip_snoc s c : isspace c = false -> lstrip (s ++ [c]) = lstrip s ++ [c].
Proof.
  intros Hc. induction s as [|a s IH]; cbn [lstrip app].
  - now rewrite Hc.
  - destruct (isspace a); [exact IH|reflexivity].
Qed.

Lemma rstrip_last s c r : rstrip s = r ++ [c] -> isspace c = false.
Proof.
  unfold rstrip. intros H. apply (f_equal (@rev N)) in H.
  rewrite rev_involutive, rev_app_distr in H. cbn in H.
  exact (lstrip_head _ _ _ H).
Qed.

(** What [strip] returns has white space at neither end. *)
Lemma strip_trimmed s : finaleditionjan14.trimmed (strip s).
Proof.
  unfold strip. split.
  - intros c r H. destruct (lstrip s) as [|c0 t] eqn:Hl; [discriminate H|].
    pose proof (lstrip_head _ _ _ Hl) as Hc0.
    unfold rstrip in H. cbn [rev] in H.
    rewrite lstrip_snoc, rev_app_distr in H by exact Hc0. cbn in H.
    injection H as <- _. exact Hc0.
  - intros c r H. exact (rstrip_last _ _ _ H).
Qed.

Section Report.
Import finaleditionjan14.

Lemma stripped_messages_spec {S} items msgs :
  Forall2 message_of items msgs ->
  forall output (s : S),
    stripped_messages items output s
    = (s, Ok (output ++ map strip (filter (fun msg => msg <> []) msgs))).
Proof.
  induction 1 as [|item msg items msgs (members & -> & Hmsg) _ IH];
    intros output s.
  - cbn. now rewrite app_nil_r.
  - cbn [stripped_messages]. unfold bind at 1, dict_get, ret.
    destruct Hmsg as [Hm|[Hm ->]]; rewrite Hm.
    + destruct msg as [|c msg].
      * cbn [truthy]. rewrite IH. now rewrite filter_cons_False by auto.
      * cbn [truthy]. unfold bind at 1, value_strip, ret. rewrite IH.
        rewrite filter_cons_True by discriminate. cbn [map].
        now rewrite <- app_assoc.
    + cbn [truthy]. rewrite IH. now rewrite filter_cons_False by auto.
Qed.

Lemma in_order_concat sep ps : forall more rest,
  in_order more rest ->
  in_order (ps ++ more) (concat (map (app sep) ps) ++ rest).
Proof.
  induction ps as [|p ps IH]; intros more rest Hmore; [exact Hmore|].
  cbn [map concat app in_order].
  exists sep, (concat (map (app sep) ps) ++ rest).
  split; [now rewrite <- !app_assoc|now apply IH].
Qed.

(** The parts of a joined text stand in it whole and in order. *)
Lemma in_order_join sep ps more rest :
  in_order more rest -> in_order (ps ++ more) (join sep ps ++ rest).
Proof.
  intros Hmore. destruct ps as [|p ps]; [exact Hmore|].
  rewrite join_cons. cbn [app in_order].
  exists [], (concat (map (app sep) ps) ++ rest).
  split; [now rewrite <- app_assoc|now apply in_order_concat].
Qed.

(** [parse_runcommand_output] on a well-formed answer: the messages that
    are not empty, each stripped, in the order of the items and two line
    feeds apart; the placeholder exactly when every message is empty or
    missing.  A message of white space alone counts: it leaves an empty
    part, not the placeholder. *)
Theorem parse_runcommand_output_messages {S} m items msgs (s : S) :
  (assoc (py "value") m = Some (JArr items)
   \/ (assoc (py "value") m = None /\ items = [])) ->
  Forall2 message_of items msgs ->
  let kept := map strip (filter (fun msg => msg <> []) msgs) in
  parse_runcommand_output (JObj m) s
  = (s, Ok (match kept with
            | [] => no_output
            | _ :: _ => join (NL ++ NL) kept
            end))
  /\ Forall trimmed kept
  /\ (kept = [] <-> Forall (fun msg => msg = []) msgs)
  /\ in_order kept (join (NL ++ NL) kept).
Proof.
  intros Hvalue Hmsgs kept. split; [|split; [|split]].
  - unfold parse_runcommand_output. unfold bind at 1, dict_get, ret.
    assert (Hitems : match assoc (py "value") m with
                     | Some x => x
                     | None => JArr []
                     end = JArr items).
    { destruct Hvalue as [->|[-> ->]]; reflexivity. }
    rewrite Hitems. unfold bind at 1, iter_items, ret.
    unfold bind. now rewrite (stripped_messages_spec items msgs Hmsgs).
  - subst kept. apply Forall_forall. intros p Hp.
    apply list_elem_of_fmap in Hp as (msg & -> & _). apply strip_trimmed.
  - subst kept. split.
    + intros Hnil. apply fmap_nil_inv in Hnil.
      apply Forall_forall. intros msg Hin.
      destruct (decide (msg = [])) as [->|Hne]; [reflexivity|].
      assert (Hk : msg ∈ filter (fun msg => msg <> []) msgs)
        by now apply list_elem_of_filter.
      rewrite Hnil in Hk. now apply elem_of_nil in Hk.
    + intros Hall. clear Hmsgs.
      induction Hall as [|msg msgs -> _ IH]; [reflexivity|].
      now rewrite filter_cons_False by auto.
  - pose proof (in_order_join (NL ++ NL) kept [] [] I) as H.
    now rewrite !app_nil_r in H.
Qed.

(** [build_report_html] on a list of strings: the report holds the name of
    the VM, the time stamp, every command whole and in order, one per line,
    and the output, as they are; nothing is escaped.  A command that is not
    a string makes it raise TypeError. *)
Theorem report_shows_commands {S} B timestamp cmds output (s : S) :
  let report := report_top ++ VM_NAME ++ report_time ++ timestamp
                ++ report_commands ++ join NL cmds ++ report_output
                ++ str B output ++ report_end in
  build_report_html B timestamp (JArr (map JStr cmds)) output s
  = (s, Ok report)
  /\ in_order (VM_NAME :: timestamp :: cmds ++ [str B output]) report
  /\ (forall items,
        all_strings items = None ->
        exists e, snd (build_report_html B timestamp (JArr items) output s)
                  = Raise e
                  /\ exn_class e = "TypeError"%string).
Proof.
  intros report. split; [|split].
  - unfold build_report_html, bind, join_value, bind, iter_items, ret.
    assert (Hall : all_strings (map JStr cmds) = Some cmds).
    { induction cmds as [|c cmds IH]; [reflexivity|].
      cbn [map all_strings]. now rewrite IH. }
    now rewrite Hall.
  - subst report. cbn [in_order].
    exists report_top, (report_time ++ timestamp ++ report_commands
                        ++ join NL cmds ++ report_output ++ str B output
                        ++ report_end).
    split; [reflexivity|].
    exists report_time, (report_commands ++ join NL cmds ++ report_output
                         ++ str B output ++ report_end).
    split; [reflexivity|].
    apply in_order_after. apply in_order_join. cbn [in_order].
    exists report_output, report_end. split; [reflexivity|exact I].
  - intros items Hnone. eexists.
    unfold build_report_html, bind, join_value, bind, iter_items, ret.
    rewrite Hnone. split; reflexivity.
Qed.

End Report.

Lemma parse_runcommand_output_messages_witness :
  @finaleditionjan14.parse_runcommand_output unit Sample.run_answer tt
  = (tt, Ok (py "total 0" ++ NL ++ NL ++ py "done")).
Proof.
  refine (proj1 (@parse_runcommand_output_messages unit _ _
                   [py "  total 0 "; []; []; py "done"] tt _ _)).
  - left. reflexivity.
  - repeat constructor; eexists; (split; [reflexivity|]);
      first [left; reflexivity | right; split; reflexivity].
Defined.

(** ** ver4: the alert receiver *)

Section Receiver4.
Import ver4.
Context (B : builtins) (E : environ).

Lemma runs_nothing_pure {A} (m : M state A) : pure m -> runs_nothing m.
Proof. intros H s. now rewrite H. Qed.

Lemma runs_nothing_bind {A C} (m : M state A) (k : A -> M state C) :
  runs_nothing m -> (forall a, runs_nothing (k a)) -> runs_nothing (bind m k).
Proof.
  intros Hm Hk s. unfold bind. specialize (Hm s).
  destruct (m s) as [s' [a|e]]; cbn [fst] in *; [|exact Hm].
  now rewrite Hk.
Qed.

Lemma asks_nothing_pure {A} (m : M state A) : pure m -> asks_nothing m.
Proof. intros H s. now rewrite H. Qed.

Lemma asks_nothing_bind {A C} (m : M state A) (k : A -> M state C) :
  asks_nothing m -> (forall a, asks_nothing (k a)) -> asks_nothing (bind m k).
Proof.
  intros Hm Hk s. unfold bind. specialize (Hm s).
  destruct (m s) as [s' [a|e]]; cbn [fst] in *; [|exact Hm].
  now rewrite Hk.
Qed.

Lemma completions_app es1 es2 :
  completions (es1 ++ es2) = completions es1 ++ completions es2.
Proof.
  induction es1 as [|e es1 IH]; [reflexivity|].
  destruct e; cbn [completions app]; now rewrite ?IH.
Qed.

Lemma pure_getitem0 {S} v : pure (@getitem0 S v).
Proof. destruct v as [| | |[|c t]|[|x l]|]; intros st; reflexivity. Qed.

Lemma pure_iter_items {S} v : pure (@iter_items S v).
Proof. destruct v; intros st; reflexivity. Qed.

Lemma pure_join_value {S} sep v : pure (@join_value S sep v).
Proof.
  unfold join_value. apply pure_bind; [apply pure_iter_items|].
  intros items st. now destruct (all_strings items).
Qed.

Lemma pure_read_alert4 req_json : pure (read_alert req_json).
Proof.
  unfold read_alert.
  repeat (first [ apply pure_bind; [|intros ?]
                | apply pure_get_json | apply pure_getitem
                | apply pure_getitem0 | apply pure_dict_get
                | apply pure_ret ]).
Qed.

Lemma emit_runs_nothing e :
  executed [e] = [] -> runs_nothing (emit e).
Proof.
  intros He s. unfold emit, modify. cbn [fst].
  now rewrite executed_app, He, app_nil_r.
Qed.

Lemma emit_asks_nothing e :
  completions [e] = [] -> asks_nothing (emit e).
Proof.
  intros He s. unfold emit, modify. cbn [fst].
  now rewrite completions_app, He, app_nil_r.
Qed.

Lemma lift_pure {S A} (r : result A) : pure (@lift S A r).
Proof. now intros s. Qed.

Lemma lookup_sop_runs_nothing w incident :
  runs_nothing (lookup_sop_internal B E w incident).
Proof.
  unfold lookup_sop_internal. apply runs_nothing_bind.
  - now apply emit_runs_nothing.
  - intros _. apply runs_nothing_pure, lift_pure.
Qed.

Lemma generate_runs_nothing w incident description :
  runs_nothing (generate_ai_remediation B E w incident description).
Proof.
  unfold generate_ai_remediation. destruct (falsy (OPENAI_API_KEY E)).
  - apply runs_nothing_pure, pure_ret.
  - apply runs_nothing_bind.
    + now apply emit_runs_nothing.
    + intros _. apply runs_nothing_pure, lift_pure.
Qed.

Lemma send_teams_card_runs_nothing w title text actions :
  runs_nothing (send_teams_card E w title text actions).
Proof. intros s. apply send_teams_card_executed. Qed.

(** Without a stored procedure [alert_receiver] runs nothing: whatever the
    payload and whatever the world answers, if the lookup raises or its
    answer is falsy, no command is executed. *)
Theorem alert_receiver_needs_a_sop w req_json s :
  (forall sop, sop_reply w = Ok sop -> truthy sop = false) ->
  executed (fst (alert_receiver B E w req_json s)) = executed s.
Proof.
  intros Hsop. revert s. change (runs_nothing (alert_receiver B E w req_json)).
  unfold alert_receiver.
  apply runs_nothing_bind; [apply runs_nothing_pure, pure_read_alert4|].
  intros alert s. unfold bind.
  pose proof (lookup_sop_runs_nothing w (fst alert) s) as Hl.
  destruct (lookup_sop_internal B E w (fst alert) s) as [s1 [sop|e]] eqn:Hrun;
    cbn [fst] in *; [|exact Hl].
  assert (Hreply : sop_reply w = Ok sop).
  { unfold lookup_sop_internal, bind, emit, modify, lift in Hrun.
    now injection Hrun as _ ->. }
  rewrite (Hsop sop Hreply), <- Hl.
  assert (Hq : runs_nothing
            (bind (generate_ai_remediation B E w (fst alert) (snd alert))
               (fun ai_solution =>
                  bind (send_teams_card E w (approval_title B (fst alert))
                          (py "AI Suggested Fix:" ++ NL ++ str B ai_solution)
                          (approve_actions B E (fst alert) (snd alert)
                             ai_solution))
                    (fun _ => ret (response (Text (py "approval sent"))))))).
  { apply runs_nothing_bind; [apply generate_runs_nothing|].
    intros ai. apply runs_nothing_bind;
      [apply send_teams_card_runs_nothing|].
    intros _. apply runs_nothing_pure, pure_ret. }
  exact (Hq s1).
Qed.

Lemma exec_loop_asks_nothing w cmds :
  asks_nothing (for_each (exec_step w) cmds).
Proof.
  induction cmds as [|c cmds IH]; [apply asks_nothing_pure, pure_ret|].
  cbn [for_each]. apply asks_nothing_bind; [|intros _; exact IH].
  unfold exec_step. apply asks_nothing_bind.
  - now apply emit_asks_nothing.
  - intros _. apply asks_nothing_bind; [now intros s|].
    intros so_far. apply asks_nothing_pure, lift_pure.
Qed.

Lemma run_on_vm_asks_nothing w commands : asks_nothing (run_on_vm E w commands).
Proof.
  unfold run_on_vm. apply asks_nothing_bind; [now apply emit_asks_nothing|].
  intros _. apply asks_nothing_bind; [apply asks_nothing_pure, lift_pure|].
  intros _. apply asks_nothing_bind;
    [apply asks_nothing_pure, pure_iter_items|].
  intros cmds. apply asks_nothing_bind; [apply exec_loop_asks_nothing|].
  intros _. now apply emit_asks_nothing.
Qed.

Lemma send_teams_card_asks_nothing w title text actions :
  asks_nothing (send_teams_card E w title text actions).
Proof.
  intros s. rewrite send_teams_card_run.
  destruct (TEAMS_WEBHOOK_URL E); [|reflexivity].
  cbn [fst]. rewrite completions_app. cbn. now rewrite app_nil_r.
Qed.

Lemma lookup_sop_internal_run w incident s :
  lookup_sop_internal B E w incident s
  = (s ++ [requests_get
             (str_getenv (SOP_GITHUB_API E) ++ py "/" ++ str B incident
                ++ py ".json")
             [ (py "Authorization",
                py "token " ++ str_getenv (GITHUB_TOKEN E));
               (py "Accept", py "application/vnd.github.v3+json") ] 10],
     sop_reply w).
Proof. reflexivity. Qed.

(** A stored procedure wins over the advisor.  When the lookup answers a
    procedure with a list of commands, the completion API is never called,
    what is executed is an initial part of that list, and the one card
    that may follow offers no action: nobody is asked. *)
Theorem vetted_plan_wins w req_json incident description sm cmds s :
  read_alert req_json s = (s, Ok (incident, description)) ->
  sop_reply w = Ok (JObj sm) ->
  assoc (py "commands") sm = Some (JArr cmds) ->
  completions (fst (alert_receiver B E w req_json s)) = completions s
  /\ (exists k,
        executed (fst (alert_receiver B E w req_json s))
        = executed s ++ take k cmds)
  /\ (exists posted,
        cards (fst (alert_receiver B E w req_json s)) = cards s ++ posted
        /\ Forall (fun card => action_names card = []) posted).
Proof.
  intros Hr Hsop Hcmds.
  set (P := fun s' : state =>
         completions s' = completions s
         /\ (exists k, executed s' = executed s ++ take k cmds)
         /\ (exists posted,
               cards s' = cards s ++ posted
               /\ Forall (fun card => action_names card = []) posted)).
  change (P (fst (alert_receiver B E w req_json s))).
  unfold alert_receiver.
  rewrite (bind_ok _ _ _ _ _ Hr). cbn [fst snd].
  unfold bind at 1. rewrite lookup_sop_internal_run, Hsop.
  assert (Htruthy : truthy (JObj sm) = true).
  { destruct sm; [discriminate Hcmds|reflexivity]. }
  rewrite Htruthy.
  unfold bind at 1, getitem. rewrite Hcmds. unfold ret.
  match goal with
  | |- context [bind (run_on_vm E w (JArr cmds)) _ ?st] => set (s1 := st)
  end.
  assert (H1 : completions s1 = completions s /\ executed s1 = executed s
               /\ cards s1 = cards s).
  { subst s1. rewrite completions_app, executed_app, cards_app. cbn.
    now rewrite !app_nil_r. }
  destruct H1 as (Hc1 & He1 & Hk1).
  destruct (run_on_vm_prefix E w cmds s1) as (k & Hk & Hcards).
  pose proof (run_on_vm_asks_nothing w (JArr cmds) s1) as Hasks.
  unfold bind at 1.
  destruct (run_on_vm E w (JArr cmds) s1) as [s2 [[]|e]]; cbn [fst] in *.
  2:{ subst P. cbn beta. split; [congruence|].
      split; [exists k; congruence|].
      exists []. rewrite app_nil_r. split; [congruence|constructor]. }
  unfold bind at 1. unfold bind at 1.
  pose proof (pure_run _ s2 (pure_join_value NL (JArr cmds))) as Hj.
  rewrite Hj. destruct (snd (join_value NL (JArr cmds) s2)) as [listing|e];
    cbn [fst].
  2:{ subst P. cbn beta. split; [congruence|].
      split; [exists k; congruence|].
      exists []. rewrite app_nil_r. split; [congruence|constructor]. }
  unfold bind. rewrite send_teams_card_run.
  destruct (TEAMS_WEBHOOK_URL E) as [webhook|]; cbn [fst].
  2:{ subst P. cbn beta. split; [congruence|].
      split; [exists k; congruence|].
      exists []. rewrite app_nil_r. split; [congruence|constructor]. }
  assert (Hfin : forall r : result unit,
    fst (match r with
         | Ok _ => ret (response (Text (py "auto remediated")))
                     (s2 ++ [requests_post webhook
                               (message_card
                                  ([WHITE_CHECK_MARK]
                                     ++ py " Auto-remediated "
                                     ++ str B incident)
                                  (py "Executed SOP commands:" ++ NL
                                     ++ listing) []) 10])
         | Raise e0 => (s2 ++ [requests_post webhook
                                 (message_card
                                    ([WHITE_CHECK_MARK]
                                       ++ py " Auto-remediated "
                                       ++ str B incident)
                                    (py "Executed SOP commands:" ++ NL
                                       ++ listing) []) 10], Raise e0)
         end)
    = s2 ++ [requests_post webhook
               (message_card
                  ([WHITE_CHECK_MARK] ++ py " Auto-remediated "
                     ++ str B incident)
                  (py "Executed SOP commands:" ++ NL ++ listing) []) 10]).
  { now intros [[]|e0]. }
  rewrite Hfin. subst P. cbn beta.
  rewrite completions_app, executed_app, cards_app. cbn.
  rewrite !app_nil_r. split; [congruence|]. split; [exists k; congruence|].
  eexists. split; [now rewrite Hcards, Hk1|].
  constructor; [reflexivity|constructor].
Qed.

Lemma cards_commands cmds : cards (map ssh_exec_command cmds) = [].
Proof. induction cmds as [|c cmds IH]; [reflexivity|exact IH]. Qed.

(** The loop of [run_on_vm] when one command is refused: the commands
    before it have run, the ones after it have not. *)
Lemma exec_loop_fails w pre c post e : forall s,
  (forall so_far c', c' ∈ pre -> exec_reply w so_far c' = Ok tt) ->
  (forall so_far, exec_reply w so_far c = Raise e) ->
  for_each (exec_step w) (pre ++ c :: post) s
  = (s ++ map ssh_exec_command pre ++ [ssh_exec_command c], Raise e).
Proof.
  induction pre as [|p pre IH]; intros s Hpre Hc.
  - cbn [app for_each map]. unfold bind. now rewrite exec_step_run, Hc.
  - cbn [app for_each map]. unfold bind.
    rewrite exec_step_run, (Hpre _ p) by left.
    rewrite IH; [|intros so_far c' Hin; apply Hpre; now right|exact Hc].
    now rewrite <- app_assoc.
Qed.

(** When a command is refused in ver4, the callback stops there: the
    commands after it are not run, the session is not closed, no card is
    posted, and the exception leaves the handler. *)
Theorem callback_stops_at_first_failure w m incident text pre c post e s :
  assoc (py "incident") m = Some incident ->
  assoc (py "ai_solution") m = Some (JStr text) ->
  sudo_lines text = pre ++ c :: post ->
  connect_reply w = Ok tt ->
  (forall so_far c', c' ∈ pre -> exec_reply w so_far (JStr c') = Ok tt) ->
  (forall so_far, exec_reply w so_far (JStr c) = Raise e) ->
  approval_callback B E w (Some (JObj m)) s
  = (s ++ [ssh_connect (VM_IP E) (VM_USER E) (VM_PASS E) 10]
       ++ map ssh_exec_command (map JStr pre) ++ [ssh_exec_command (JStr c)],
     Raise e)
  /\ executed (fst (approval_callback B E w (Some (JObj m)) s))
     = executed s ++ map JStr pre ++ [JStr c]
  /\ cards (fst (approval_callback B E w (Some (JObj m)) s)) = cards s.
Proof.
  intros Hi Ha Hlines Hc Hpre Hfail.
  assert (Hrun : approval_callback B E w (Some (JObj m)) s
    = (s ++ [ssh_connect (VM_IP E) (VM_USER E) (VM_PASS E) 10]
         ++ map ssh_exec_command (map JStr pre)
         ++ [ssh_exec_command (JStr c)],
       Raise e)).
  { rewrite (approval_callback_fields B E w m incident text s Hi Ha).
    unfold bind at 1. rewrite run_on_vm_run, Hc, Hlines.
    rewrite map_app. cbn [map].
    rewrite (exec_loop_fails w (map JStr pre) (JStr c) (map JStr post) e).
    - now rewrite <- !app_assoc.
    - intros so_far c' Hin.
      apply list_elem_of_fmap in Hin as (line & -> & Hin). now apply Hpre.
    - exact Hfail. }
  rewrite Hrun. split; [reflexivity|]. cbn [fst].
  rewrite !executed_app, !cards_app, executed_commands, cards_commands. cbn.
  now rewrite !app_nil_r.
Qed.

End Receiver4.

Lemma alert_receiver_needs_a_sop_witness :
  ver4.executed
    (fst (ver4.alert_receiver Sample.B0 Sample.E4
            (Sample.calm Sample.advice_restart) (Some Sample.alerts) []))
  = ver4.executed [].
Proof.
  apply (alert_receiver_needs_a_sop Sample.B0 Sample.E4).
  intros sop H. injection H as <-. reflexivity.
Defined.

Lemma vetted_plan_wins_witness :
  ver4.completions
    (fst (ver4.alert_receiver Sample.B0 Sample.E4 Sample.with_sop
            (Some Sample.alerts) []))
  = ver4.completions [].
Proof.
  exact (proj1 (vetted_plan_wins Sample.B0 Sample.E4 Sample.with_sop
                  (Some Sample.alerts) (JStr (py "disk-full"))
                  (JStr (py "root partition at 98%"))
                  [o_json "commands" (JArr Sample.vetted_commands)]
                  Sample.vetted_commands [] eq_refl eq_refl eq_refl)).
Defined.

Lemma callback_stops_at_first_failure_witness :
  ver4.executed
    (fst (ver4.approval_callback Sample.B0 Sample.E4
            (Sample.refusing Sample.fsck)
            (Some (Sample.approval [] Sample.advice_three)) []))
  = ver4.executed [] ++ map JStr [Sample.stop_nginx] ++ [JStr Sample.fsck].
Proof.
  refine (proj1 (proj2
    (callback_stops_at_first_failure Sample.B0 Sample.E4
       (Sample.refusing Sample.fsck)
       (Sample.approval_fields [] Sample.advice_three)
       (JStr (py "disk-full")) Sample.advice_three
       [Sample.stop_nginx] Sample.fsck [Sample.start_nginx]
       (Exn "SSHException" (py "channel closed")) []
       eq_refl eq_refl _ eq_refl _ _))).
  - vm_compute. reflexivity.
  - intros so_far c Hin. apply list_elem_of_singleton in Hin as ->.
    reflexivity.
  - intros so_far. reflexivity.
Defined.

(** ** Lines of a text *)

Lemma no_break_rev cur :
  Forall (fun c => islinebreak c = false) cur ->
  Forall (fun c => islinebreak c = false) (rev cur).
Proof.
  rewrite !Forall_forall. intros H x Hx. apply H.
  apply list_elem_of_In, in_rev, list_elem_of_In. exact Hx.
Qed.

(** Every line [splitlines] returns is free of line boundaries. *)
Lemma splitlines_from_no_break n : forall s cur line,
  (length s <= n)%nat ->
  Forall (fun c => islinebreak c = false) cur ->
  line ∈ splitlines_from cur s ->
  Forall (fun c => islinebreak c = false) line.
Proof.
  induction n as [|n IH]; intros s cur line Hlen Hcur Hin.
  - destruct s; [|cbn in Hlen; lia]. cbn [splitlines_from] in Hin.
    destruct cur as [|a cur]; [now apply elem_of_nil in Hin|].
    apply list_elem_of_singleton in Hin as ->. now apply no_break_rev.
  - destruct s as [|c rest].
    { cbn [splitlines_from] in Hin.
      destruct cur as [|a cur]; [now apply elem_of_nil in Hin|].
      apply list_elem_of_singleton in Hin as ->. now apply no_break_rev. }
    cbn [splitlines_from] in Hin. cbn [length] in Hlen.
    destruct (islinebreak c) eqn:Hc.
    + apply elem_of_cons in Hin as [->|Hin]; [now apply no_break_rev|].
      destruct rest as [|d rest']; [now apply elem_of_nil in Hin|].
      cbn [length] in Hlen.
      destruct ((c =? 13) && (d =? 10)).
      * apply (IH rest' [] line); [lia|constructor|exact Hin].
      * apply (IH (d :: rest') [] line); [cbn; lia|constructor|exact Hin].
    + apply (IH rest (c :: cur) line); [lia|now constructor|exact Hin].
Qed.

Lemma splitlines_no_break s line :
  line ∈ splitlines s -> Forall (fun c => islinebreak c = false) line.
Proof.
  intros Hin.
  apply (splitlines_from_no_break (length s) s [] line);
    [lia|constructor|exact Hin].
Qed.

(** Reading a stretch without boundaries only grows the current line. *)
Lemma splitlines_from_app l : forall cur t,
  Forall (fun c => islinebreak c = false) l ->
  splitlines_from cur (l ++ t) = splitlines_from (rev l ++ cur) t.
Proof.
  induction l as [|c l IH]; intros cur t Hl; [reflexivity|].
  apply Forall_cons in Hl as [Hc Hl].
  cbn [app splitlines_from]. rewrite Hc, IH by exact Hl.
  cbn [rev]. now rewrite <- app_assoc.
Qed.

Lemma splitlines_from_feed cur t :
  splitlines_from cur (10 :: t) = rev cur :: splitlines_from [] t.
Proof. cbn [splitlines_from]. now destruct t. Qed.

(** Lines joined by line feeds split back into the same lines, provided
    none is empty or holds a boundary itself. *)
Lemma splitlines_join ls :
  Forall (fun l => l <> [] /\ Forall (fun c => islinebreak c = false) l) ls ->
  splitlines (join NL ls) = ls.
Proof.
  unfold splitlines. induction ls as [|p ls IH]; intros Hls; [reflexivity|].
  apply Forall_cons in Hls as [[Hne Hp] Hls].
  destruct ls as [|q ls].
  - cbn [join]. rewrite <- (app_nil_r p) at 1.
    rewrite splitlines_from_app by exact Hp. rewrite app_nil_r.
    cbn [splitlines_from]. destruct (rev p) eqn:Hrev.
    + apply (f_equal (@rev N)) in Hrev. rewrite rev_involutive in Hrev.
      now cbn in Hrev.
    + now rewrite <- Hrev, rev_involutive.
  - change (join NL (p :: q :: ls)) with (p ++ NL ++ join NL (q :: ls)).
    rewrite splitlines_from_app by exact Hp. rewrite app_nil_r.
    change (NL ++ join NL (q :: ls)) with (10 :: join NL (q :: ls)).
    rewrite splitlines_from_feed, rev_involutive. now rewrite IH.
Qed.

Section Listing4.
Import ver4.

Lemma sudo_line_not_empty line : is_sudo_line line = true -> line <> [].
Proof. intros H ->. discriminate H. Qed.

(** The listing of the card posted after an execution splits back into
    exactly the commands that were extracted: each stands on a line of its
    own, none is cut or merged. *)
Theorem listing_splits_into_commands text :
  splitlines (join NL (sudo_lines text)) = sudo_lines text
  /\ Forall (fun c => c <> [] /\ Forall (fun x => islinebreak x = false) c)
       (sudo_lines text)
  /\ sudo_lines (join NL (sudo_lines text)) = sudo_lines text.
Proof.
  assert (Hlines : Forall (fun c => c <> []
                     /\ Forall (fun x => islinebreak x = false) c)
                     (sudo_lines text)).
  { apply Forall_forall. intros c Hc. unfold sudo_lines in Hc.
    apply list_elem_of_filter in Hc as [Hs Hin].
    split; [now apply sudo_line_not_empty|].
    exact (splitlines_no_break _ _ Hin). }
  split; [now apply splitlines_join|]. split; [exact Hlines|].
  unfold sudo_lines at 1. rewrite splitlines_join by exact Hlines.
  unfold sudo_lines. apply list_filter_filter_l. now intros x Hx.
Qed.

End Listing4.

(** ** ver2: the SSH runner *)

Section Runner2.
Import ver2.
Context (B : builtins) (E : environ).

Lemma executed2_app es1 es2 :
  executed (es1 ++ es2) = executed es1 ++ executed es2.
Proof.
  induction es1 as [|e es1 IH]; [reflexivity|].
  destruct e; cbn [executed app]; now rewrite ?IH.
Qed.

Lemma executed2_commands cmds : executed (map ssh_exec_command cmds) = cmds.
Proof. induction cmds as [|c cmds IH]; [reflexivity|]. cbn. now rewrite IH. Qed.

(** Without a host, a user or a password [run_remote_commands] opens no
    session and runs nothing: it prints the error and returns it as the
    only result. *)
Theorem run_remote_commands_missing_credentials w cmds s :
  falsy (VM_HOST E) || falsy (VM_USER E) || falsy (VM_PASSWORD E) = true ->
  run_remote_commands E w cmds s
  = (s ++ [print_ssh_error (py "Missing VM credentials")],
     Ok [JObj [o_str "error" (py "Missing VM credentials")]]).
Proof.
  intros Hmissing. unfold run_remote_commands, try_except.
  destruct (VM_HOST E) as [[|h host]|]; try reflexivity.
  all: destruct (VM_USER E) as [[|u user]|]; try reflexivity.
  all: destruct (VM_PASSWORD E) as [[|p password]|]; try reflexivity.
  discriminate Hmissing.
Qed.

Lemma exec_all_ok w reply cmds : forall results s,
  (forall so_far c, c ∈ cmds -> exec_reply w so_far c = Ok (reply c)) ->
  exec_all w cmds results s
  = (s ++ map ssh_exec_command cmds,
     Ok (results ++ map (fun c => result_entry c (reply c)) cmds)).
Proof.
  induction cmds as [|c cmds IH]; intros results s Hok.
  - cbn. now rewrite !app_nil_r.
  - rewrite exec_all_cons, (Hok _ c) by left.
    rewrite IH by (intros so_far c' Hin; apply Hok; now right).
    cbn [map]. now rewrite <- !app_assoc.
Qed.

(** With the credentials set, the session opening and every command
    answered, [run_remote_commands] runs the commands in order, closes the
    session and returns one entry per command, in the same order, each with
    the command and its two streams. *)
Theorem run_remote_commands_results w reply cmds host user password s :
  VM_HOST E = Some host -> host <> [] ->
  VM_USER E = Some user -> user <> [] ->
  VM_PASSWORD E = Some password -> password <> [] ->
  connect_reply w = Ok tt ->
  (forall so_far c, c ∈ cmds -> exec_reply w so_far c = Ok (reply c)) ->
  run_remote_commands E w cmds s
  = (s ++ [ssh_connect host user password 10]
       ++ map ssh_exec_command cmds ++ [ssh_close],
     Ok (map (fun c => result_entry c (reply c)) cmds))
  /\ executed (fst (run_remote_commands E w cmds s)) = executed s ++ cmds
  /\ command_results cmds (map (fun c => result_entry c (reply c)) cmds).
Proof.
  intros Hh Hhne Hu Hune Hp Hpne Hc Hok.
  assert (Hrun : run_remote_commands E w cmds s
    = (s ++ [ssh_connect host user password 10]
         ++ map ssh_exec_command cmds ++ [ssh_close],
       Ok (map (fun c => result_entry c (reply c)) cmds))).
  { unfold run_remote_commands, try_except. rewrite Hh, Hu, Hp.
    destruct host as [|h host]; [congruence|].
    destruct user as [|u user]; [congruence|].
    destruct password as [|p password]; [congruence|].
    unfold bind at 1, emit at 1, modify. unfold bind at 1, lift.
    rewrite Hc. unfold bind at 1.
    rewrite (exec_all_ok w reply cmds) by exact Hok.
    unfold bind, emit, modify, ret. cbn [app].
    now rewrite <- !app_assoc. }
  rewrite Hrun. split; [reflexivity|]. split.
  - cbn [fst]. rewrite !executed2_app, executed2_commands. cbn.
    now rewrite !app_nil_r.
  - clear. induction cmds as [|c cmds IH]; constructor;
      [now eexists _, _|exact IH].
Qed.

Ltac executed_unchanged :=
  unfold raise, ret; cbn [fst]; rewrite ?executed2_app; cbn [executed]; rewrite ?app_nil_r;
  reflexivity.

(** In ver2 nothing is run without a stored procedure: whatever the body
    and whatever the world answers, if the lookup does not answer
    [found], no command is executed.  What is posted then is the advisor's
    suggestion. *)
Theorem callback_without_sop_runs_nothing w req_json s :
  (forall lm found, lookup_reply w = Ok (JObj lm) ->
                    assoc (py "found") lm = Some found ->
                    truthy found = false) ->
  executed (fst (approval_callback B E w req_json s)) = executed s
  /\ (forall m incident lm suggestion webhook,
        req_json = Some (JObj m) ->
        assoc (py "incident") m = Some incident ->
        lookup_reply w = Ok (JObj lm) ->
        ai_reply w = Ok suggestion ->
        TEAMS_WEBHOOK_URL E = Some webhook ->
        posted (fst (approval_callback B E w req_json s))
        = posted s
          ++ [JObj [o_str "text" (suggestion_message B incident suggestion)]]).
Proof.
  intros Hfalse. split.
  - unfold approval_callback.
    destruct req_json as [data|]; [|reflexivity].
    unfold bind at 1, get_json, ret.
    unfold bind at 1, getitem.
    destruct data as [ |b|z|t|items|m]; try reflexivity.
    destruct (assoc (py "incident") m) as [incident|]; [|reflexivity].
    unfold ret. unfold bind at 1, dict_get, ret.
    unfold bind at 1, emit, modify. unfold bind at 1, lift.
    destruct (lookup_reply w) as [sop_lookup|e] eqn:Hl; [|executed_unchanged].
    unfold bind at 1.
    destruct sop_lookup as [ |b|z|t|items|lm]; try executed_unchanged.
    assert (Hf : truthy (match assoc (py "found") lm with
                         | Some x => x
                         | None => JNull
                         end) = false).
    { destruct (assoc (py "found") lm) as [found|] eqn:Hfound;
        [exact (Hfalse lm found eq_refl Hfound)|reflexivity]. }
    rewrite Hf. unfold bind at 1. unfold bind at 1.
    unfold generate_ai_remediation, bind at 1, emit, modify.
    unfold lift. destruct (ai_reply w) as [suggestion|e];
      [|executed_unchanged].
    unfold ret, bind, post_text.
    destruct (TEAMS_WEBHOOK_URL E) as [webhook|]; [|executed_unchanged].
    unfold bind, emit, modify, lift.
    destruct (teams_reply w) as [[]|e]; executed_unchanged.
  - intros m incident lm suggestion webhook -> Hi Hl Hai Hw.
    unfold approval_callback.
    unfold bind at 1, get_json, ret.
    unfold bind at 1, getitem. rewrite Hi.
    unfold ret. unfold bind at 1, dict_get, ret.
    unfold bind at 1, emit, modify. unfold bind at 1, lift. rewrite Hl.
    unfold bind at 1.
    assert (Hf : truthy (match assoc (py "found") lm with
                         | Some x => x
                         | None => JNull
                         end) = false).
    { destruct (assoc (py "found") lm) as [found|] eqn:Hfound;
        [exact (Hfalse lm found Hl Hfound)|reflexivity]. }
    rewrite Hf. unfold bind at 1. unfold bind at 1.
    unfold generate_ai_remediation, bind at 1, emit, modify.
    unfold lift. rewrite Hai.
    unfold ret, bind, post_text. rewrite Hw.
    unfold bind, emit, modify, lift.
    destruct (teams_reply w) as [[]|e]; cbn [fst];
      rewrite !posted_app; cbn [posted]; now rewrite !app_nil_r.
Qed.

End Runner2.

Lemma run_remote_commands_missing_credentials_witness :
  ver2.run_remote_commands Sample.no_password Sample.echoing
    [JStr (py "df -h")] []
  = ([ver2.print_ssh_error (py "Missing VM credentials")],
     Ok [JObj [o_str "error" (py "Missing VM credentials")]]).
Proof.
  exact (run_remote_commands_missing_credentials Sample.no_password
           Sample.echoing [JStr (py "df -h")] [] eq_refl).
Defined.

Lemma run_remote_commands_results_witness :
  ver2.executed
    (fst (ver2.run_remote_commands Sample.E2 Sample.echoing
            [JStr (py "df -h"); JStr (py "uptime")] []))
  = [] ++ [JStr (py "df -h"); JStr (py "uptime")].
Proof.
  refine (proj1 (proj2
    (run_remote_commands_results Sample.E2 Sample.echoing
       (fun c => (match c with JStr t => t | _ => [] end, []))
       [JStr (py "df -h"); JStr (py "uptime")]
       (py "10.0.0.4") (py "ops") (py "secret") []
       eq_refl _ eq_refl _ eq_refl _ eq_refl _))).
  - discriminate.
  - discriminate.
  - discriminate.
  - intros so_far c _. reflexivity.
Defined.

Lemma callback_without_sop_runs_nothing_witness :
  ver2.executed
    (fst (ver2.approval_callback Sample.B0 Sample.E2 Sample.no_sop
            (Some (JObj Sample.investigate)) []))
  = ver2.executed [].
Proof.
  refine (proj1 (callback_without_sop_runs_nothing Sample.B0 Sample.E2
                   Sample.no_sop (Some (JObj Sample.investigate)) [] _)).
  intros lm found Hl Hf. injection Hl as <-.
  vm_compute in Hf. injection Hf as <-. reflexivity.
Defined.

(** ** ver1: the lookup and the callback answer every request *)

Section Lookup1.
Local Open Scope Z_scope.
Context (C : codecs) (E : ver1.environ).

(** [lookup_sop] of ver1 answers every request: it never raises and its
    status is 200, 400 or 500.  It sends at most one GET, and none when the
    incident or the GitHub configuration is missing.  A 200 answer is
    either the [not_found] one, after GitHub answered 404, or the [found]
    one, after GitHub answered 200 with a [content] that decoded and
    parsed. *)
Theorem lookup_sop_never_raises (w : ver1.world)
    (params : list (pystr * pystr)) (s : ver1.state) :
  let incident :=
    ver1.or_else (finaleditionjan14.params_get params (py "incident"))
                 (finaleditionjan14.params_get params (py "error_key")) in
  let asked :=
    ver1.requests_get
      (str_getenv (ver1.SOP_GITHUB_API E) ++ py "/" ++ str_getenv incident
         ++ py ".json")
      (Some (ver1.github_headers E)) 10 in
  let out := ver1.lookup_sop C E w params s in
  exists r,
    snd out = Ok r
    /\ (status_code r = 200 \/ status_code r = 400 \/ status_code r = 500)
    /\ (fst out = s \/ fst out = s ++ [asked])
    /\ (falsy incident || falsy (ver1.SOP_GITHUB_API E)
          || falsy (ver1.GITHUB_TOKEN E) = true -> fst out = s)
    /\ (falsy incident = true -> status_code r = 400)
    /\ (status_code r = 200 ->
        (exists text j,
            ver1.github_reply w = Ok (404, text, j) /\ r = ver1.not_found)
        \/ (exists text members content decoded sop,
               ver1.github_reply w = Ok (200, text, Ok (JObj members))
               /\ assoc (py "content") members = Some content
               /\ b64decode_utf8 C content = Ok decoded
               /\ loads C decoded = Ok sop
               /\ r = ver1.found sop)).
Proof.
  intros incident asked out. subst out. unfold ver1.lookup_sop, try_except.
  fold incident.
  destruct (falsy incident) eqn:Hi.
  { cbn. eexists; repeat split; eauto; cbn; try discriminate. }
  destruct (falsy (ver1.SOP_GITHUB_API E)) eqn:Ha;
    [cbn; eexists; repeat split; eauto; cbn; try discriminate|].
  destruct (falsy (ver1.GITHUB_TOKEN E)) eqn:Ht;
    [cbn; eexists; repeat split; eauto; cbn; try discriminate|].
  cbn [orb].
  unfold bind, ver1.emit, modify, lift, ret. fold asked.
  destruct (ver1.github_reply w) as [[[status text] j]|e] eqn:Hg; cbn [fst snd].
  2:{ eexists; repeat split; eauto; cbn; try discriminate. }
  destruct (status =? 404) eqn:H404.
  { apply Z.eqb_eq in H404. subst status.
    eexists; repeat split; eauto; cbn; try discriminate;
      try (intros _; left; eauto). }
  destruct (status =? 200) eqn:H200; cbn [negb].
  2:{ eexists; repeat split; eauto; cbn; try discriminate. }
  apply Z.eqb_eq in H200. subst status.
  destruct j as [data|e]; cbn.
  2:{ eexists; repeat split; eauto; cbn; try discriminate. }
  unfold getitem.
  destruct data as [ |b|z|t|items|m];
    try (cbn; eexists; repeat split; eauto; cbn; discriminate).
  destruct (assoc (py "content") m) as [content|] eqn:Hc;
    [|cbn; eexists; repeat split; eauto; cbn; discriminate].
  unfold ret.
  destruct (b64decode_utf8 C content) as [decoded|e] eqn:Hd;
    [|cbn; eexists; repeat split; eauto; cbn; discriminate].
  destruct (loads C decoded) as [sop|e] eqn:Hl;
    [|cbn; eexists; repeat split; eauto; cbn; discriminate].
  eexists; repeat split; eauto; cbn; try discriminate;
    try (intros _; right; exists text, m, content, decoded, sop; auto).
Qed.

End Lookup1.

Lemma is_str_true (v : json) (t : pystr) :
  is_str v t = true -> v = JStr t.
Proof.
  destruct v; cbn; try discriminate.
  unfold pystr_eqb. intros H. apply bool_decide_eq_true in H. now subst.
Qed.

Section Callback1.
Local Open Scope Z_scope.
Context (B : builtins) (E : ver1.environ).

(** [approval_callback] of ver1 answers every request with status 200, 400
    or 500 and never raises.  It calls the outside only for a body whose
    decision is the string approve.  A 200 answer is one of three: rejected
    with nothing called; approved_sop after the single lookup; approved_ai
    after the lookup, the completion and the post of the suggestion to the
    configured webhook, in this order. *)
Theorem approval_callback_acts_only_on_approve (w : ver1.world)
    (req_json : option json) (s : ver1.state) :
  let out := ver1.approval_callback B E w req_json s in
  exists r,
    snd out = Ok r
    /\ (status_code r = 200 \/ status_code r = 400 \/ status_code r = 500)
    /\ (fst out = s
        \/ exists m, req_json = Some (JObj m)
             /\ assoc (py "decision") m = Some (JStr (py "approve")))
    /\ (status_code r = 200 ->
        exists m decision incident,
          req_json = Some (JObj m)
          /\ assoc (py "decision") m = Some (JStr decision)
          /\ assoc (py "incident") m = Some incident
          /\ truthy incident = true
          /\ let asked :=
               ver1.requests_get
                 (str_getenv (ver1.CALLBACK_BASE_URL E)
                    ++ py "/api/lookup_sop?incident=" ++ str B incident)
                 None 5 in
             (decision = py "reject"
              /\ r = ver1.decided "rejected" incident
              /\ fst out = s)
             \/ (decision = py "approve"
                 /\ r = ver1.decided "approved_sop" incident
                 /\ fst out = s ++ [asked])
             \/ (decision = py "approve"
                 /\ r = ver1.decided "approved_ai" incident
                 /\ exists webhook ai,
                      ver1.TEAMS_WEBHOOK_URL E = Some webhook
                      /\ ver1.ai_reply w = Ok ai
                      /\ fst out =
                         s ++ [ asked;
                                ver1.chat_completion
                                  (match ver1.OPENAI_MODEL E with
                                   | Some model => model
                                   | None => py "gpt-4o-mini"
                                   end)
                                  ver1.system_prompt
                                  (ver1.user_prompt B incident
                                     (match assoc (py "description") m with
                                      | Some d => d
                                      | None => JStr []
                                      end));
                                ver1.requests_post webhook
                                  (JObj [o_str "text"
                                           (ver1.suggestion_text B incident
                                              ai)]) 10 ])).
Proof.
  intros out. subst out. unfold ver1.approval_callback, try_except.
  destruct req_json as [data|];
    [|cbn; eexists; repeat split; eauto; cbn; discriminate].
  destruct data as [ |b|z|t|items|m];
    try (cbn; eexists; repeat split; eauto; cbn; discriminate).
  unfold get_json, dict_get, bind, ret.
  set (decision := match assoc (py "decision") m with
                   | Some x => x | None => JNull end).
  set (incident := match assoc (py "incident") m with
                   | Some x => x | None => JNull end).
  set (description := match assoc (py "description") m with
                      | Some x => x | None => JStr [] end).
  destruct (truthy decision) eqn:Hd; cbn [negb orb];
    [|cbn; eexists; repeat split; eauto; cbn; discriminate].
  destruct (truthy incident) eqn:Hi; cbn [negb orb];
    [|cbn; eexists; repeat split; eauto; cbn; discriminate].
  assert (Hinc : assoc (py "incident") m = Some incident).
  { subst incident. destruct (assoc (py "incident") m); [easy|discriminate]. }
  assert (Hdec : assoc (py "decision") m = Some decision).
  { subst decision. destruct (assoc (py "decision") m); [easy|discriminate]. }
  destruct (is_str decision (py "approve")) eqn:Happ.
  - apply is_str_true in Happ. rewrite Happ in Hdec.
    unfold ver1.emit, modify, lift.
    destruct (ver1.lookup_reply w) as [sop_lookup|e];
      [|cbn; eexists; repeat split; eauto; cbn; discriminate].
    destruct sop_lookup as [ |b|z|t|items|lm];
      try (cbn; eexists; repeat split; eauto; cbn; discriminate).
    destruct (truthy match assoc (py "found") lm with
                     | Some x => x | None => JNull end).
    + eexists; repeat split; eauto; cbn; try discriminate.
      intros _. exists m, (py "approve"), incident.
      repeat split; auto.
    + unfold ver1.generate_ai_remediation, ver1.post_text, bind, ver1.emit,
        modify, lift, ret.
      destruct (ver1.ai_reply w) as [ai|e] eqn:Hai;
        [|cbn; eexists; repeat split; eauto; cbn; discriminate].
      destruct (ver1.TEAMS_WEBHOOK_URL E) as [webhook|] eqn:Hw;
        [|cbn; eexists; repeat split; eauto; cbn; discriminate].
      destruct (ver1.teams_reply w) as [[]|e];
        [|cbn; eexists; repeat split; eauto; cbn; discriminate].
      eexists; repeat split; eauto; cbn; try discriminate.
      intros _. exists m, (py "approve"), incident.
      repeat split; auto. right. right. repeat split; auto.
      exists webhook, ai. repeat split; auto.
      cbn. now rewrite <- !app_assoc.
  - destruct (is_str decision (py "reject")) eqn:Hrej;
      [|cbn; eexists; repeat split; eauto; cbn; discriminate].
    apply is_str_true in Hrej. rewrite Hrej in Hdec.
    eexists; repeat split; eauto; cbn; try discriminate.
    intros _. exists m, (py "reject"), incident. repeat split; auto.
Qed.

End Callback1.

(** ** ver5: the approval card *)

Lemma cards5_app es1 es2 :
  ver5.cards (es1 ++ es2) = ver5.cards es1 ++ ver5.cards es2.
Proof.
  induction es1 as [|[url t|url card t] es1 IH]; cbn; [easy|easy|].
  now rewrite IH.
Qed.

Local Ltac stopped H :=
  injection H as <- <-; split; [reflexivity|intros r; discriminate].

Local Ltac posted_none H :=
  injection H as <- <-; rewrite cards5_app, app_nil_r;
  split; [reflexivity|intros r; discriminate].

Section Webhook5.
Local Open Scope Z_scope.
Context (B : builtins) (E : ver5.environ).

Lemma cmd_fields5_pure plan : pure (ver5.cmd_fields plan).
Proof.
  induction plan as [|p plan IH]; [apply pure_ret|].
  cbn [ver5.cmd_fields]. apply pure_bind; [apply pure_getitem|].
  intros c. apply pure_bind; [exact IH|]. intros cs. apply pure_ret.
Qed.

Lemma cmd_fields5_steps steps cmds s :
  Forall2 ver5.step_of steps cmds ->
  ver5.cmd_fields steps s = (s, Ok (map JStr cmds)).
Proof.
  intros H. induction H as [|step c steps cmds (fm & -> & Hc) _ IH]; [easy|].
  cbn [ver5.cmd_fields map]. unfold bind, getitem. rewrite Hc.
  unfold ret at 1. now rewrite IH.
Qed.

Lemma all_strings_map cmds : all_strings (map JStr cmds) = Some cmds.
Proof.
  induction cmds as [|c cmds IH]; [easy|].
  cbn [map all_strings]. now rewrite IH.
Qed.

(** The card is built before anything is sent: a failure there posts
    nothing. *)
Lemma send_teams_approval_card_run w incident sop s :
  ver5.send_teams_approval_card B E w incident sop s
  = match sop with
    | JObj sm =>
        let risk := match assoc (py "risk") sm with
                    | Some x => x | None => JStr (py "unknown") end in
        let description := match assoc (py "description") sm with
                           | Some x => x | None => JStr [] end in
        let plan := match assoc (py "plan") sm with
                    | Some x => x | None => JArr [] end in
        match iter_items plan s with
        | (_, Ok steps) =>
            match ver5.cmd_fields steps s with
            | (_, Ok cmds) =>
                match all_strings cmds with
                | Some parts =>
                    match ver5.TEAMS_WEBHOOK_URL E with
                    | Some webhook =>
                        (s ++ [ver5.requests_post webhook
                                 (ver5.approval_card B E incident risk
                                    description (join NL parts)) 10],
                         ver5.teams_reply w)
                    | None =>
                        (s, Raise (Exn "MissingSchema"
                                     (py "Invalid URL 'None'")))
                    end
                | None =>
                    (s, Raise (TypeError
                                 "sequence item: expected str instance"))
                end
            | (_, Raise e) => (s, Raise e)
            end
        | (_, Raise e) => (s, Raise e)
        end
    | _ => (s, Raise (AttributeError "object has no attribute 'get'"))
    end.
Proof.
  unfold ver5.send_teams_approval_card.
  destruct sop as [ |b|z|t|items|sm]; try reflexivity.
  unfold dict_get at 1 2 3. unfold bind at 1 2 3. unfold ret at 1 2 3.
  cbn zeta.
  set (plan := match assoc (py "plan") sm with
               | Some x => x | None => JArr [] end).
  unfold bind at 1.
  pose proof (pure_iter_items (S := ver5.state) plan s) as Hi.
  destruct (iter_items plan s) as [s1 [steps|e]]; cbn in Hi; subst s1;
    [|reflexivity].
  unfold bind at 1.
  pose proof (cmd_fields5_pure steps s) as Hc.
  destruct (ver5.cmd_fields steps s) as [s1 [cmds|e]]; cbn in Hc; subst s1;
    [|reflexivity].
  unfold bind at 1, join_value, bind at 1, iter_items, ret at 1.
  destruct (all_strings cmds) as [parts|]; [|reflexivity].
  unfold ret at 1.
  destruct (ver5.TEAMS_WEBHOOK_URL E); reflexivity.
Qed.

(** When the lookup raises or does not answer a truthy [found],
    [agent_webhook] posts no card, and the only answer it can give is
    no_sop_found. *)
Theorem agent_webhook_needs_a_sop (w : ver5.world) (req_json : option json)
    (s : ver5.state) :
  (forall m v, ver5.lookup_reply w = Ok (JObj m) ->
               assoc (py "found") m = Some v -> truthy v = false) ->
  let out := ver5.agent_webhook B E w req_json s in
  ver5.cards (fst out) = ver5.cards s
  /\ forall r, snd out = Ok r ->
       exists incident, r = ver5.answer "no_sop_found" incident.
Proof.
  intros Hno out. subst out.
  destruct (ver5.agent_webhook B E w req_json s) as [s' res] eqn:Hrun.
  cbn [fst snd]. unfold ver5.agent_webhook in Hrun.
  destruct req_json as [payload|];
    [|unfold get_json, bind, raise in Hrun; stopped Hrun].
  unfold get_json, bind at 1, ret at 1 in Hrun.
  unfold bind at 1 in Hrun.
  pose proof (pure_getitem (S := ver5.state) payload (py "alerts") s) as H1.
  destruct (getitem payload (py "alerts") s) as [s1 [alerts|e]];
    cbn in H1; subst s1; [|stopped Hrun].
  unfold bind at 1 in Hrun.
  pose proof (pure_getitem0 (S := ver5.state) alerts s) as H2.
  destruct (getitem0 alerts s) as [s1 [alert|e]];
    cbn in H2; subst s1; [|stopped Hrun].
  unfold bind at 1 in Hrun.
  pose proof (pure_getitem (S := ver5.state) alert (py "labels") s) as H3.
  destruct (getitem alert (py "labels") s) as [s1 [labels|e]];
    cbn in H3; subst s1; [|stopped Hrun].
  unfold bind at 1 in Hrun.
  pose proof (pure_dict_get (S := ver5.state) labels (py "alertname") JNull s)
    as H4.
  destruct (dict_get labels (py "alertname") JNull s) as [s1 [incident|e]];
    cbn in H4; subst s1; [|stopped Hrun].
  unfold bind at 1, ver5.emit, modify in Hrun.
  unfold bind at 1, lift in Hrun.
  destruct (ver5.lookup_reply w) as [sop_lookup|e] eqn:Hl; [|posted_none Hrun].
  destruct sop_lookup as [ |b|z|t|items|lm];
    try (unfold dict_get, bind, raise in Hrun; posted_none Hrun).
  unfold dict_get, bind at 1, ret at 1 in Hrun.
  assert (Hf : truthy match assoc (py "found") lm with
                      | Some x => x | None => JNull end = false).
  { destruct (assoc (py "found") lm) as [v|] eqn:Hv; [|reflexivity].
    exact (Hno lm v eq_refl Hv). }
  rewrite Hf in Hrun. unfold ret in Hrun. injection Hrun as <- <-.
  rewrite cards5_app, app_nil_r. split; [reflexivity|].
  intros r [= <-]. now exists incident.
Qed.

(** For a well-formed alert whose procedure is found, with a plan whose
    steps each carry a string [cmd], [agent_webhook] makes the lookup and
    then posts one card to the configured webhook.  The card carries the
    commands of the plan joined by line feeds, each whole and in the order
    of the plan, and offers the two actions Approve and Reject; the answer
    is waiting_for_approval unless the post raises. *)
Theorem agent_webhook_card_lists_plan (w : ver5.world) (s : ver5.state)
    (payload about label found sop : list (pystr * json)) (others : list json)
    (v : json) (steps : list json) (cmds : list pystr) (webhook : pystr) :
  assoc (py "alerts") payload = Some (JArr (JObj about :: others)) ->
  assoc (py "labels") about = Some (JObj label) ->
  ver5.lookup_reply w = Ok (JObj found) ->
  assoc (py "found") found = Some v -> truthy v = true ->
  assoc (py "sop") found = Some (JObj sop) ->
  assoc (py "plan") sop = Some (JArr steps) ->
  Forall2 ver5.step_of steps cmds ->
  ver5.TEAMS_WEBHOOK_URL E = Some webhook ->
  let incident := match assoc (py "alertname") label with
                  | Some x => x | None => JNull end in
  let card :=
    ver5.approval_card B E incident
      (match assoc (py "risk") sop with
       | Some x => x | None => JStr (py "unknown") end)
      (match assoc (py "description") sop with
       | Some x => x | None => JStr [] end)
      (join NL cmds) in
  let out := ver5.agent_webhook B E w (Some (JObj payload)) s in
  fst out
  = s ++ [ ver5.requests_get
             (str_getenv (ver5.CALLBACK_BASE_URL E)
                ++ py "/api/lookup_sop?incident=" ++ str B incident) 5;
           ver5.requests_post webhook card 10 ]
  /\ snd out = match ver5.teams_reply w with
               | Ok _ => Ok (ver5.answer "waiting_for_approval" incident)
               | Raise e => Raise e
               end
  /\ in_order cmds (join NL cmds)
  /\ ver4.action_names card
     = [ JStr ([WHITE_CHECK_MARK] ++ py " Approve");
         JStr ([CROSS_MARK] ++ py " Reject") ].
Proof.
  intros Ha Hl Hw Hv Ht Hs Hp Hsteps Hhook incident card out.
  assert (Hrun : out = ((s ++ [ver5.requests_get
             (str_getenv (ver5.CALLBACK_BASE_URL E)
                ++ py "/api/lookup_sop?incident=" ++ str B incident) 5])
           ++ [ver5.requests_post webhook card 10],
           match ver5.teams_reply w with
           | Ok _ => Ok (ver5.answer "waiting_for_approval" incident)
           | Raise e => Raise e
           end)).
  { subst out. unfold ver5.agent_webhook.
    unfold get_json, bind at 1, ret at 1.
    unfold bind at 1, getitem at 1. rewrite Ha. unfold ret at 1.
    unfold bind at 1, getitem0, ret at 1.
    unfold bind at 1, getitem at 1. rewrite Hl. unfold ret at 1.
    unfold bind at 1, dict_get at 1, ret at 1. fold incident.
    unfold bind at 1, ver5.emit, modify. unfold bind at 1, lift. rewrite Hw.
    unfold bind at 1, dict_get, ret at 1. rewrite Hv, Ht.
    unfold bind at 1, getitem. rewrite Hs. unfold ret at 1.
    unfold bind at 1. rewrite send_teams_approval_card_run.
    rewrite Hp. cbn [iter_items]. unfold ret at 1.
    rewrite (cmd_fields5_steps steps cmds _ Hsteps), all_strings_map, Hhook.
    fold card. destruct (ver5.teams_reply w) as [[]|e]; reflexivity. }
  rewrite Hrun. cbn [fst snd]. rewrite <- app_assoc.
  repeat split; try reflexivity.
  rewrite <- (app_nil_r (join NL cmds)), <- (app_nil_r cmds) at 1.
  now apply in_order_join.
Qed.

End Webhook5.

Lemma agent_webhook_needs_a_sop_witness :
  ver5.cards
    (fst (ver5.agent_webhook Sample.B0 Sample.E5 Sample.unfiled
            (Some Sample.alerts) []))
  = ver5.cards [].
Proof.
  apply (agent_webhook_needs_a_sop Sample.B0 Sample.E5 Sample.unfiled
           (Some Sample.alerts) []).
  intros m v [= <-] [= <-]. reflexivity.
Defined.

Lemma agent_webhook_card_lists_plan_witness :
  in_order [py "df -h"; py "du -sh /var/log"]
    (join NL [py "df -h"; py "du -sh /var/log"]).
Proof.
  refine (proj1 (proj2 (proj2
    (agent_webhook_card_lists_plan Sample.B0 Sample.E5 Sample.filed []
       [ o_json "alerts"
           (JArr [JObj [ o_json "labels"
                           (JObj [o_str "alertname" (py "disk-full")]);
                         o_json "annotations"
                           (JObj [o_str "description"
                                    (py "root partition at 98%")]) ]]) ]
       [ o_json "labels" (JObj [o_str "alertname" (py "disk-full")]);
         o_json "annotations"
           (JObj [o_str "description" (py "root partition at 98%")]) ]
       [o_str "alertname" (py "disk-full")]
       Sample.found_sop
       [o_json "plan"
          (JArr [JObj [o_str "cmd" (py "df -h")];
                 JObj [o_str "cmd" (py "du -sh /var/log")]])]
       [] (JBool true)
       [JObj [o_str "cmd" (py "df -h")];
        JObj [o_str "cmd" (py "du -sh /var/log")]]
       [py "df -h"; py "du -sh /var/log"]
       (py "https://teams.example/hook")
       eq_refl eq_refl eq_refl eq_refl eq_refl eq_refl eq_refl _ eq_refl)))).
  repeat constructor; eexists; split; reflexivity.
Defined.
